(** * PiCar-X brainstem: safety gate, fallback policy, brain link and life loop

    A shallow embedding of the control core of the robot brainstem
    ([safety_reflexes.py], [autonomous_fallback.py], [brain_connection.py],
    [life_loop.py], [config.py], [hardware_interface.py]).

    Modelling choices, all stated once here:
    - sensor values are IEEE doubles ([float]), compared with the primitive
      comparisons, so that a NaN reading behaves as in Python;
    - readings of [time.time()] are exact rationals (seconds) drawn from a
      clock [nat -> Q] indexed by the number of readings taken so far;
    - Python integers used as counters are [nat];
    - values decoded from msgpack are dynamically typed ([pyval]); a dict is an
      association list with string keys, in insertion order;
    - [print] is not modelled, except for the isolation duration reported on
      reconnection, which is an event of the trace;
    - the outcome of every call that leaves the core (hardware, websocket) is
      supplied by an environment record, one per loop cycle. *)

From Stdlib Require Import Bool Arith ZArith QArith List String Lia.
From Stdlib Require Import Floats.
Import ListNotations.

Set Warnings "-register-all".

Local Open Scope string_scope.

(** ** Floating-point comparisons *)

Module FloatFacts.

(** [SFcompare] never answers [Lt] in both directions. *)
Lemma SFcompare_Lt_swap (x y : spec_float) :
  SFcompare x y = Some Lt -> SFcompare y x = Some Gt.
Proof.
  destruct x as [sx|sx| |sx mx ex], y as [sy|sy| |sy my ey];
    simpl; try discriminate; try (destruct sx; discriminate);
    try (destruct sy; discriminate);
    try (destruct sx, sy; simpl; congruence).
  change (Pos.compare_cont Eq mx my) with (Pos.compare mx my).
  change (Pos.compare_cont Eq my mx) with (Pos.compare my mx).
  rewrite (Z.compare_antisym ex ey), (Pos.compare_antisym mx my).
  destruct sx, sy; try congruence;
    destruct (ex ?= ey)%Z; simpl; try congruence;
    destruct (mx ?= my)%positive; simpl; congruence.
Qed.

(** [a <= b] excludes [b < a], for all doubles (NaN included: the
    hypothesis is then false). *)
Lemma leb_not_ltb (a b : float) :
  (a <=? b)%float = true -> (b <? a)%float = false.
Proof.
  rewrite leb_spec, ltb_spec. unfold SFleb, SFltb.
  destruct (SFcompare (Prim2SF b) (Prim2SF a)) as [[]|] eqn:E; try reflexivity.
  rewrite (SFcompare_Lt_swap _ _ E). discriminate.
Qed.

End FloatFacts.

Local Close Scope Q_scope.

(** ** Configuration ([config.py]) *)

Module Config.
Definition LIFE_LOOP_FREQUENCY : nat := 10.
Definition MOTOR_NEUTRAL : Z := 1500.
Definition SERVO_NEUTRAL : Z := 1500.
Definition BATTERY_CRITICAL : float := 10.5%float.
Definition BATTERY_LOW : float := 11.0%float.
(** The source has the integer [10]; Python compares it with a double
    reading exactly, as the double [10.0]. *)
Definition OBSTACLE_CRITICAL : float := 10%float.
End Config.

(** ** Data model ([hardware_interface.py]) *)

Definition bytes := list Byte.byte.

(** Python values that cross the msgpack boundary. *)
Inductive pyval : Type :=
| PNone
| PBool (b : bool)
| PInt (z : Z)
| PFloat (f : float)
| PStr (s : string)
| PBytes (b : bytes)
| PTuple (l : list pyval)
| PList (l : list pyval)
| PDict (d : list (string * pyval)).

(** The raw imaging payload: pixel bytes. *)
Definition CameraFrame := bytes.

Record SensorReading := {
  timestamp : float;
  battery_voltage : float;
  ultrasonic_distance : float;
  power_source : string;
  motor_current : float * float;
  camera_frame : option CameraFrame;
  line_sensors : option (float * float * float)
}.

(** A dataclass does not check its field types: a command decoded from a
    reply holds whatever the reply held. *)
Record MotorCommand := {
  motor_left_pwm : pyval;
  motor_right_pwm : pyval;
  servo_camera_pwm : pyval;
  buzzer_active : pyval
}.

(** [MotorCommand(...)] with the dataclass defaults for omitted fields. *)
Definition default_pwm : pyval := PInt 1500.
Definition default_buzzer : pyval := PBool false.
Definition MotorCommand_lr (l r : Z) : MotorCommand :=
  {| motor_left_pwm := PInt l; motor_right_pwm := PInt r;
     servo_camera_pwm := default_pwm; buzzer_active := default_buzzer |}.

(** ** Exceptions and results *)

(** The subclasses of [Exception] that the core names or can meet. *)
Inductive exn : Type :=
| TimeoutError
| ConnectionRefusedError
| ConnectionError
| ConnectionClosed
| AttributeError
| RuntimeError
| NotImplementedError
| UnpackException
| OtherException.

Inductive result (A : Type) : Type :=
| Ok (a : A)
| Raise (e : exn).
Arguments Ok {A} a.
Arguments Raise {A} e.

(** ** Safety reflexes ([safety_reflexes.py]) *)

Definition immediate_danger (sensors : SensorReading) : bool :=
  if (battery_voltage sensors <? Config.BATTERY_CRITICAL)%float then true
  else if (ultrasonic_distance sensors <? Config.OBSTACLE_CRITICAL)%float then true
  else false.

(** ** Autonomous fallback, the pure part ([autonomous_fallback.py]) *)

Definition _avoid_obstacle : MotorCommand := MotorCommand_lr 1400 1600.
Definition _seek_power : MotorCommand := MotorCommand_lr 1500 1500.
Definition _explore : MotorCommand := MotorCommand_lr 1530 1530.

(** ** Wire messages ([brain_connection.py]) *)

Definition isSome {A} (o : option A) : bool :=
  match o with Some _ => true | None => false end.

(** The [SENSOR_DATA] message built by [send_sensors_get_commands]. *)
Definition sensor_message (sensor_data : SensorReading) : pyval :=
  PDict
    [ ("type", PStr "SENSOR_DATA");
      ("timestamp", PFloat (timestamp sensor_data));
      ("robot_id", PStr "brainstem_robot");
      ("data", PDict
         [ ("timestamp", PFloat (timestamp sensor_data));
           ("battery_voltage", PFloat (battery_voltage sensor_data));
           ("ultrasonic_distance", PFloat (ultrasonic_distance sensor_data));
           ("power_source", PStr (power_source sensor_data));
           ("motor_current",
              PTuple [ PFloat (fst (motor_current sensor_data));
                       PFloat (snd (motor_current sensor_data)) ]);
           ("has_camera_frame", PBool (isSome (camera_frame sensor_data))) ]) ].

(** [d.get(k)] on a decoded dict (its keys are distinct). *)
Definition dict_get (d : list (string * pyval)) (k : string) : option pyval :=
  match find (fun kv => String.eqb (fst kv) k) d with
  | Some kv => Some (snd kv)
  | None => None
  end.

(** [v.get(k, default)]: only a dict has [get]. *)
Definition py_get (v : pyval) (k : string) (default : pyval) : result pyval :=
  match v with
  | PDict d => Ok (match dict_get d k with Some x => x | None => default end)
  | _ => Raise AttributeError
  end.

(** [v == s] for a string literal [s]. *)
Definition py_eq_str (v : pyval) (s : string) : bool :=
  match v with
  | PStr s' => String.eqb s' s
  | _ => false
  end.

(** ** State of the core *)

Definition ws_handle := nat.

(** [BrainConnection]'s attributes ([server_url] is constant). *)
Record BrainConnection := {
  websocket : option ws_handle;
  connected : bool;
  connection_attempts : nat;
  last_successful_contact : Q;
  message_count : nat
}.

(** [LifeLoop]'s attributes. *)
Record LifeLoop := {
  loop_count : nat;
  brain_connected : bool;
  last_brain_contact : Q;
  isolation_start_time : option Q;
  brain_response_times : list Q;
  communication_errors : nat
}.

(** Everything the loop owns: itself, its link, the fallback's own isolation
    mark, and the number of clock readings taken so far. *)
Record World := {
  life : LifeLoop;
  brain_link : BrainConnection;
  autonomous_isolation_start_time : option Q;
  clock_reads : nat
}.

Definition BrainConnection_init : BrainConnection :=
  {| websocket := None; connected := false; connection_attempts := 0;
     last_successful_contact := 0%Q; message_count := 0 |}.

Definition LifeLoop_init : LifeLoop :=
  {| loop_count := 0; brain_connected := false; last_brain_contact := 0%Q;
     isolation_start_time := None; brain_response_times := [];
     communication_errors := 0 |}.

Definition World_init : World :=
  {| life := LifeLoop_init; brain_link := BrainConnection_init;
     autonomous_isolation_start_time := None; clock_reads := 0 |}.

(** Attribute assignments. *)
Definition set_websocket (h : option ws_handle) (l : BrainConnection) :=
  {| websocket := h; connected := connected l;
     connection_attempts := connection_attempts l;
     last_successful_contact := last_successful_contact l;
     message_count := message_count l |}.
Definition set_connected (b : bool) (l : BrainConnection) :=
  {| websocket := websocket l; connected := b;
     connection_attempts := connection_attempts l;
     last_successful_contact := last_successful_contact l;
     message_count := message_count l |}.
Definition set_connection_attempts (n : nat) (l : BrainConnection) :=
  {| websocket := websocket l; connected := connected l;
     connection_attempts := n;
     last_successful_contact := last_successful_contact l;
     message_count := message_count l |}.
Definition set_last_successful_contact (t : Q) (l : BrainConnection) :=
  {| websocket := websocket l; connected := connected l;
     connection_attempts := connection_attempts l;
     last_successful_contact := t;
     message_count := message_count l |}.
Definition set_message_count (n : nat) (l : BrainConnection) :=
  {| websocket := websocket l; connected := connected l;
     connection_attempts := connection_attempts l;
     last_successful_contact := last_successful_contact l;
     message_count := n |}.

Definition set_loop_count (n : nat) (s : LifeLoop) :=
  {| loop_count := n; brain_connected := brain_connected s;
     last_brain_contact := last_brain_contact s;
     isolation_start_time := isolation_start_time s;
     brain_response_times := brain_response_times s;
     communication_errors := communication_errors s |}.
Definition set_brain_connected (b : bool) (s : LifeLoop) :=
  {| loop_count := loop_count s; brain_connected := b;
     last_brain_contact := last_brain_contact s;
     isolation_start_time := isolation_start_time s;
     brain_response_times := brain_response_times s;
     communication_errors := communication_errors s |}.
Definition set_last_brain_contact (t : Q) (s : LifeLoop) :=
  {| loop_count := loop_count s; brain_connected := brain_connected s;
     last_brain_contact := t;
     isolation_start_time := isolation_start_time s;
     brain_response_times := brain_response_times s;
     communication_errors := communication_errors s |}.
Definition set_isolation_start_time (t : option Q) (s : LifeLoop) :=
  {| loop_count := loop_count s; brain_connected := brain_connected s;
     last_brain_contact := last_brain_contact s;
     isolation_start_time := t;
     brain_response_times := brain_response_times s;
     communication_errors := communication_errors s |}.
Definition set_brain_response_times (l : list Q) (s : LifeLoop) :=
  {| loop_count := loop_count s; brain_connected := brain_connected s;
     last_brain_contact := last_brain_contact s;
     isolation_start_time := isolation_start_time s;
     brain_response_times := l;
     communication_errors := communication_errors s |}.
Definition set_communication_errors (n : nat) (s : LifeLoop) :=
  {| loop_count := loop_count s; brain_connected := brain_connected s;
     last_brain_contact := last_brain_contact s;
     isolation_start_time := isolation_start_time s;
     brain_response_times := brain_response_times s;
     communication_errors := n |}.

Definition with_life (f : LifeLoop -> LifeLoop) (w : World) : World :=
  {| life := f (life w); brain_link := brain_link w;
     autonomous_isolation_start_time := autonomous_isolation_start_time w;
     clock_reads := clock_reads w |}.
Definition with_brain_link (f : BrainConnection -> BrainConnection) (w : World) : World :=
  {| life := life w; brain_link := f (brain_link w);
     autonomous_isolation_start_time := autonomous_isolation_start_time w;
     clock_reads := clock_reads w |}.
Definition with_autonomous (t : option Q) (w : World) : World :=
  {| life := life w; brain_link := brain_link w;
     autonomous_isolation_start_time := t;
     clock_reads := clock_reads w |}.
Definition with_clock_reads (n : nat) (w : World) : World :=
  {| life := life w; brain_link := brain_link w;
     autonomous_isolation_start_time := autonomous_isolation_start_time w;
     clock_reads := n |}.

(** ** Environment and observable events *)

(** What the hardware backend answers during one cycle.  [read_sensors] and
    [execute_motor_commands] may raise (the real backend does);
    [emergency_stop] returns a flag in both backends and raises in neither. *)
Record Hardware := {
  read_sensors : result SensorReading;
  execute_motor_commands : MotorCommand -> result bool;
  emergency_stop : bool;
  get_hardware_info : result unit
}.

(** What the transport answers during one connect or one exchange:
    closing the old socket, [wait_for(websockets.connect(url), 5.0)],
    [send], and [wait_for(recv(), 0.5)]. *)
Record Network := {
  ws_close : result unit;
  ws_connect : result ws_handle;
  ws_send : bytes -> result unit;
  ws_recv : result bytes
}.

Record CycleEnv := {
  hw : Hardware;
  net : Network
}.

(** Calls that leave the core, in the order they are made. *)
Inductive event : Type :=
| EvReadSensors
| EvImmediateDanger (verdict : bool)
| EvEmergencyStop
| EvExecuteMotorCommands (c : MotorCommand)
| EvSleep (seconds : Q)
| EvExchange (sensor_data : SensorReading)
| EvSend (packed_message : bytes)
| EvRecv
| EvConnect
| EvClose (h : ws_handle)
| EvDecideAction (sensor_data : SensorReading)
| EvReconnected (isolation_duration : Q)
| EvHardwareInfo.

(** ** The effect monad: state, trace and exceptions

    A computation takes the world and yields a value or a raised exception,
    the world as it left it, and the events it produced.  As in Python, the
    effects made before an exception was raised stay. *)

Definition M (A : Type) : Type := World -> result A * World * list event.

Definition ret {A} (a : A) : M A := fun w => (Ok a, w, []).

Definition bind {A B} (m : M A) (k : A -> M B) : M B :=
  fun w =>
    match m w with
    | (Ok a, w1, t1) =>
        match k a w1 with (r, w2, t2) => (r, w2, (t1 ++ t2)%list) end
    | (Raise e, w1, t1) => (Raise e, w1, t1)
    end.

Definition try_except {A} (m : M A) (handler : exn -> M A) : M A :=
  fun w =>
    match m w with
    | (Ok a, w1, t1) => (Ok a, w1, t1)
    | (Raise e, w1, t1) =>
        match handler e w1 with (r, w2, t2) => (r, w2, (t1 ++ t2)%list) end
    end.

Definition lift {A} (r : result A) : M A := fun w => (r, w, []).
Definition get : M World := fun w => (Ok w, w, []).
Definition modify (f : World -> World) : M unit := fun w => (Ok tt, f w, []).
Definition emit (e : event) : M unit := fun w => (Ok tt, w, [e]).

Declare Scope monad_scope.
Delimit Scope monad_scope with monad.
Notation "x <- c ;; k" := (bind c (fun x => k))
  (at level 61, c at next level, right associativity) : monad_scope.
Notation "c ;; k" := (bind c (fun _ => k))
  (at level 61, right associativity) : monad_scope.
Local Open Scope monad_scope.

Definition result_of {A} (o : result A * World * list event) : result A := fst (fst o).
Definition world_of {A} (o : result A * World * list event) : World := snd (fst o).
Definition trace_of {A} (o : result A * World * list event) : list event := snd o.

Definition Qltb (a b : Q) : bool := negb (Qle_bool b a).

(** Truth value of an optional float, as [if x:] and [x or y] take it. *)
Definition truthy (t : option Q) : bool :=
  match t with
  | Some q => negb (Qeq_bool q 0)
  | None => false
  end.

(** ** The effectful operations

    The clock and the msgpack codec are not part of the repository: they are
    the parameters of everything below. *)

Section Brainstem.

Variable clock : nat -> Q.
Variable packb : pyval -> result bytes.
Variable unpackb : bytes -> result pyval.

(** [time.time()]: the next reading of the clock. *)
Definition time_time : M Q :=
  fun w => (Ok (clock (clock_reads w)), with_clock_reads (S (clock_reads w)) w, []).

(** [await asyncio.sleep(seconds)]. *)
Definition sleep (seconds : Q) : M unit := emit (EvSleep seconds).

(** *** [AutonomousFallback.decide_action] *)

Definition decide_action (sensors : SensorReading) : M MotorCommand :=
  w <- get ;;
  match autonomous_isolation_start_time w with
  | None => t <- time_time ;; modify (with_autonomous (Some t))
  | Some _ => ret tt
  end ;;
  if (ultrasonic_distance sensors <? 30)%float then ret _avoid_obstacle
  else if (battery_voltage sensors <? 11.5)%float then ret _seek_power
  else ret _explore.

(** *** [BrainConnection] *)

Definition fail_attempt : M bool :=
  modify (with_brain_link
            (fun l => set_connection_attempts (S (connection_attempts l)) l)) ;;
  ret false.

Definition connect (n : Network) : M bool :=
  try_except
    (w <- get ;;
     match websocket (brain_link w) with
     | Some h => emit (EvClose h) ;; lift (ws_close n)
     | None => ret tt
     end ;;
     emit EvConnect ;;
     h <- lift (ws_connect n) ;;
     modify (with_brain_link (set_websocket (Some h))) ;;
     modify (with_brain_link (set_connected true)) ;;
     modify (with_brain_link (set_connection_attempts 0)) ;;
     t <- time_time ;;
     modify (with_brain_link (set_last_successful_contact t)) ;;
     ret true)
    (fun e =>
       match e with
       | TimeoutError => fail_attempt
       | ConnectionRefusedError => fail_attempt
       | _ => fail_attempt
       end).

Definition send_sensors_get_commands (n : Network) (sensor_data : SensorReading)
  : M (option MotorCommand) :=
  w <- get ;;
  if negb (connected (brain_link w)) || negb (isSome (websocket (brain_link w)))
  then ret None
  else
    try_except
      (let message := sensor_message sensor_data in
       packed_message <- lift (packb message) ;;
       emit (EvSend packed_message) ;;
       lift (ws_send n packed_message) ;;
       emit EvRecv ;;
       response_raw <- lift (ws_recv n) ;;
       response <- lift (unpackb response_raw) ;;
       ty <- lift (py_get response "type" PNone) ;;
       if py_eq_str ty "MOTOR_COMMANDS" then
         motor_data <- lift (py_get response "data" (PDict [])) ;;
         l <- lift (py_get motor_data "motor_left_pwm" (PInt 1500)) ;;
         r <- lift (py_get motor_data "motor_right_pwm" (PInt 1500)) ;;
         s <- lift (py_get motor_data "servo_camera_pwm" (PInt 1500)) ;;
         b <- lift (py_get motor_data "buzzer_active" (PBool false)) ;;
         let motor_commands :=
           {| motor_left_pwm := l; motor_right_pwm := r;
              servo_camera_pwm := s; buzzer_active := b |} in
         modify (with_brain_link
                   (fun k => set_message_count (S (message_count k)) k)) ;;
         t <- time_time ;;
         modify (with_brain_link (set_last_successful_contact t)) ;;
         ret (Some motor_commands)
       else
         ty' <- lift (py_get response "type" PNone) ;;
         if py_eq_str ty' "ERROR" then ret None
         else ret None)
      (fun e =>
         match e with
         | TimeoutError => ret None
         | ConnectionClosed =>
             modify (with_brain_link (set_connected false)) ;; ret None
         | _ =>
             modify (with_brain_link (set_connected false)) ;; ret None
         end).

Definition disconnect : M unit :=
  w <- get ;;
  match websocket (brain_link w) with
  | Some h => emit (EvClose h)
  | None => ret tt
  end ;;
  modify (with_brain_link (set_connected false)).

(** *** [LifeLoop] *)

Definition _reset_isolation_timer : M unit :=
  modify (with_life (set_isolation_start_time None)).

Definition _brain_interaction (n : Network) (sensor_data : SensorReading)
  : M (option MotorCommand) :=
  try_except
    (brain_start <- time_time ;;
     emit (EvExchange sensor_data) ;;
     motor_commands <- send_sensors_get_commands n sensor_data ;;
     t <- time_time ;;
     let response_time := (t - brain_start)%Q in
     modify (with_life
               (fun s => set_brain_response_times
                           (brain_response_times s ++ [response_time])%list s)) ;;
     w <- get ;;
     (if Nat.ltb 100 (List.length (brain_response_times (life w)))
      then modify (with_life
                     (fun s => set_brain_response_times
                                 (tl (brain_response_times s)) s))
      else ret tt) ;;
     ret motor_commands)
    (fun e =>
       match e with
       | TimeoutError => ret None
       | ConnectionError | ConnectionRefusedError => ret None
       | _ =>
           modify (with_life
                     (fun s => set_communication_errors
                                 (S (communication_errors s)) s)) ;;
           ret None
       end).

(** The body of the [for attempt in range(max_attempts)] loop, from
    [attempt] on; [remaining] counts the iterations left. *)
Fixpoint attempts_from (nets : nat -> Network) (max_attempts attempt remaining : nat)
  : M unit :=
  match remaining with
  | O => modify (with_life (set_brain_connected false))
  | S remaining' =>
      success <- try_except
                   (b <- connect (nets attempt) ;; ret (Some b))
                   (fun _ => ret None) ;;
      match success with
      | Some true =>
          modify (with_life (set_brain_connected true)) ;;
          t <- time_time ;;
          modify (with_life (set_last_brain_contact t))
      | _ =>
          (if Nat.ltb attempt (max_attempts - 1) then sleep 2 else ret tt) ;;
          attempts_from nets max_attempts (S attempt) remaining'
      end
  end.

Definition _attempt_brain_connection (nets : nat -> Network) : M unit :=
  attempts_from nets 3 0 3.

Definition _handle_brain_disconnect : M unit :=
  w <- get ;;
  if brain_connected (life w) then
    modify (with_life (set_brain_connected false)) ;;
    disconnect ;;
    w' <- get ;;
    match isolation_start_time (life w') with
    | None =>
        t <- time_time ;;
        modify (with_life (set_isolation_start_time (Some t)))
    | Some _ => ret tt
    end
  else ret tt.

(** [self.isolation_start_time or time.time()]. *)
Definition isolation_start_or_now : M Q :=
  w <- get ;;
  match isolation_start_time (life w) with
  | Some t0 => if truthy (Some t0) then ret t0 else time_time
  | None => time_time
  end.

Definition _periodic_brain_reconnection (n : Network) : M unit :=
  w <- get ;;
  if Nat.eqb (loop_count (life w) mod (30 * Config.LIFE_LOOP_FREQUENCY)) 0 then
    try_except
      (success <- connect n ;;
       if success then
         modify (with_life (set_brain_connected true)) ;;
         t <- time_time ;;
         modify (with_life (set_last_brain_contact t)) ;;
         now <- time_time ;;
         start <- isolation_start_or_now ;;
         emit (EvReconnected (now - start)%Q) ;;
         _reset_isolation_timer
       else ret tt)
      (fun _ => ret tt)
  else ret tt.

Definition _log_status (h : Hardware) : M unit :=
  emit EvHardwareInfo ;;
  lift (get_hardware_info h) ;;
  w <- get ;;
  if negb (brain_connected (life w)) && truthy (isolation_start_time (life w))
  then time_time ;; ret tt
  else ret tt.

Definition _detailed_status_report : M unit :=
  w <- get ;;
  if truthy (isolation_start_time (life w)) then time_time ;; ret tt
  else ret tt.

Definition _periodic_status_report (h : Hardware) : M unit :=
  w <- get ;;
  (if Nat.eqb (loop_count (life w) mod 50) 0 then _log_status h else ret tt) ;;
  w' <- get ;;
  if Nat.eqb (loop_count (life w') mod 300) 0 then _detailed_status_report else ret tt.

Definition _maintain_loop_timing (loop_start : Q) : M unit :=
  t <- time_time ;;
  let loop_time := (t - loop_start)%Q in
  let target_time := (1 / inject_Z (Z.of_nat Config.LIFE_LOOP_FREQUENCY))%Q in
  if Qltb loop_time target_time then sleep (target_time - loop_time)%Q
  else ret tt.

(** [self.hardware.execute_motor_commands(motor_commands)]. *)
Definition hw_execute (h : Hardware) (c : MotorCommand) : M unit :=
  emit (EvExecuteMotorCommands c) ;;
  lift (execute_motor_commands h c) ;;
  ret tt.

(** PHASE 3 of the iteration: brain communication or autonomous mode. *)
Definition brain_or_autonomous (env : CycleEnv) (sensor_data : SensorReading)
  : M unit :=
  w <- get ;;
  if brain_connected (life w) then
    motor_commands <- _brain_interaction (net env) sensor_data ;;
    match motor_commands with
    | Some c =>
        (* Brain responded successfully *)
        hw_execute (hw env) c ;;
        t <- time_time ;;
        modify (with_life (set_last_brain_contact t)) ;;
        _reset_isolation_timer
    | None =>
        (* Brain communication failed *)
        _handle_brain_disconnect ;;
        emit (EvDecideAction sensor_data) ;;
        c <- decide_action sensor_data ;;
        hw_execute (hw env) c
    end
  else
    (* No brain connection - autonomous survival mode *)
    emit (EvDecideAction sensor_data) ;;
    c <- decide_action sensor_data ;;
    hw_execute (hw env) c ;;
    _periodic_brain_reconnection (net env).

(** The [try] block of one iteration of [eternal_consciousness]. *)
Definition cycle_body (env : CycleEnv) (loop_start : Q) : M unit :=
  (* PHASE 1: SENSE *)
  emit EvReadSensors ;;
  sensor_data <- lift (read_sensors (hw env)) ;;
  (* PHASE 2: SAFETY CHECK (always local, immediate) *)
  emit (EvImmediateDanger (immediate_danger sensor_data)) ;;
  if immediate_danger sensor_data then
    emit EvEmergencyStop ;;
    sleep 1
  else
    brain_or_autonomous env sensor_data ;;
    (* PHASE 4: STATUS REPORTING *)
    _periodic_status_report (hw env) ;;
    (* PHASE 5: LOOP TIMING *)
    _maintain_loop_timing loop_start.

(** The [except Exception] handler of the iteration. *)
Definition cycle_handler (e : exn) : M unit :=
  emit EvEmergencyStop ;;
  modify (with_life
            (fun s => set_communication_errors (S (communication_errors s)) s)) ;;
  sleep (1 # 2).

(** One iteration of the [while True] loop. *)
Definition cycle (env : CycleEnv) : M unit :=
  loop_start <- time_time ;;
  modify (with_life (fun s => set_loop_count (S (loop_count s)) s)) ;;
  try_except (cycle_body env loop_start) cycle_handler.

(** The iterations driven by the environments of [envs], in order. *)
Fixpoint cycles (envs : list CycleEnv) : M unit :=
  match envs with
  | [] => ret tt
  | env :: envs' => cycle env ;; cycles envs'
  end.

(** [eternal_consciousness], for as many iterations as [envs] describes. *)
Definition eternal_consciousness (nets : nat -> Network) (envs : list CycleEnv)
  : M unit :=
  _attempt_brain_connection nets ;;
  cycles envs.

End Brainstem.

(** * Reasoning about computations *)

(** Unfolds the monad's operations, to run a computation symbolically. *)
Ltac unfold_monad :=
  unfold fail_attempt, disconnect, _reset_isolation_timer, sleep, time_time,
    bind, try_except, lift, get, modify, emit, ret,
    result_of, world_of, trace_of in *.

(** ** Computations that cannot raise *)

Definition Total {A} (m : M A) : Prop :=
  forall w, exists a, result_of (m w) = Ok a.

Lemma Total_ret {A} (a : A) : Total (ret a).
Proof. intros w; now exists a. Qed.

Lemma Total_get : Total get.
Proof. intros w; now exists w. Qed.

Lemma Total_modify (f : World -> World) : Total (modify f).
Proof. intros w; now exists tt. Qed.

Lemma Total_emit (e : event) : Total (emit e).
Proof. intros w; now exists tt. Qed.

Lemma Total_time_time (clock : nat -> Q) : Total (time_time clock).
Proof. intros w; now eexists. Qed.

Lemma Total_bind {A B} (m : M A) (k : A -> M B) :
  Total m -> (forall a, Total (k a)) -> Total (bind m k).
Proof.
  intros Hm Hk w. destruct (Hm w) as [a Ha].
  unfold bind, result_of in *.
  destruct (m w) as [[r w1] t1]; simpl in Ha; subst r.
  destruct (Hk a w1) as [b Hb]. unfold result_of in Hb.
  destruct (k a w1) as [[r w2] t2]; simpl in *. now exists b.
Qed.

Lemma Total_try_except {A} (m : M A) (handler : exn -> M A) :
  (forall e, Total (handler e)) -> Total (try_except m handler).
Proof.
  intros Hh w. unfold try_except, result_of.
  destruct (m w) as [[[a|e] w1] t1]; simpl; [now exists a|].
  destruct (Hh e w1) as [b Hb]. unfold result_of in Hb.
  destruct (handler e w1) as [[r w2] t2]; simpl in *. now exists b.
Qed.

(** A handler around a computation that cannot raise is never entered. *)
Lemma try_except_Total {A} (m : M A) (handler : exn -> M A) (w : World) :
  Total m -> try_except m handler w = m w.
Proof.
  intros Hm. destruct (Hm w) as [a Ha]. unfold try_except, result_of in *.
  destruct (m w) as [[r w1] t1]; simpl in Ha; subst r. reflexivity.
Qed.

(** ** Frames: what a computation leaves alone

    [Respects R T m] says that [m], run from any world, ends (normally or by
    raising) in a world related to the first by [R], having produced a trace
    in [T]. *)

Class Frame (R : World -> World -> Prop) (T : list event -> Prop) : Prop := {
  frame_refl : forall w, R w w;
  frame_trans : forall w1 w2 w3, R w1 w2 -> R w2 w3 -> R w1 w3;
  frame_nil : T [];
  frame_app : forall t1 t2, T t1 -> T t2 -> T (t1 ++ t2)%list
}.

Definition Respects (R : World -> World -> Prop) (T : list event -> Prop)
    {A} (m : M A) : Prop :=
  forall w, R w (world_of (m w)) /\ T (trace_of (m w)).

Section FrameRules.

Context {R : World -> World -> Prop} {T : list event -> Prop} `{!Frame R T}.

Lemma Respects_ret {A} (a : A) : Respects R T (ret a).
Proof. intros w; split; [apply frame_refl | apply frame_nil]. Qed.

Lemma Respects_lift {A} (r : result A) : Respects R T (lift r).
Proof. intros w; split; [apply frame_refl | apply frame_nil]. Qed.

Lemma Respects_get : Respects R T get.
Proof. intros w; split; [apply frame_refl | apply frame_nil]. Qed.

Lemma Respects_emit (e : event) : T [e] -> Respects R T (emit e).
Proof. intros He w; split; [apply frame_refl | exact He]. Qed.

Lemma Respects_modify (f : World -> World) :
  (forall w, R w (f w)) -> Respects R T (modify f).
Proof. intros Hf w; split; [apply Hf | apply frame_nil]. Qed.

Lemma Respects_time_time (clock : nat -> Q) :
  (forall w, R w (with_clock_reads (S (clock_reads w)) w)) ->
  Respects R T (time_time clock).
Proof. intros Hf w; split; [apply Hf | apply frame_nil]. Qed.

Lemma Respects_bind {A B} (m : M A) (k : A -> M B) :
  Respects R T m -> (forall a, Respects R T (k a)) -> Respects R T (bind m k).
Proof.
  intros Hm Hk w. destruct (Hm w) as [Rm Tm].
  unfold bind, world_of, trace_of in *.
  destruct (m w) as [[[a|e] w1] t1]; simpl in *; [|now split].
  destruct (Hk a w1) as [Rk Tk]. unfold world_of, trace_of in *.
  destruct (k a w1) as [[r w2] t2]; simpl in *.
  split; [eapply frame_trans; eassumption | now apply frame_app].
Qed.

Lemma Respects_try_except {A} (m : M A) (handler : exn -> M A) :
  Respects R T m -> (forall e, Respects R T (handler e)) ->
  Respects R T (try_except m handler).
Proof.
  intros Hm Hh w. destruct (Hm w) as [Rm Tm].
  unfold try_except, world_of, trace_of in *.
  destruct (m w) as [[[a|e] w1] t1]; simpl in *; [now split|].
  destruct (Hh e w1) as [Rk Tk]. unfold world_of, trace_of in *.
  destruct (handler e w1) as [[r w2] t2]; simpl in *.
  split; [eapply frame_trans; eassumption | now apply frame_app].
Qed.

(** Replacing a computation by one that runs the same. *)
Lemma Respects_ext {A} (m m' : M A) :
  (forall w, m w = m' w) -> Respects R T m' -> Respects R T m.
Proof. intros E H w. rewrite E. apply H. Qed.

End FrameRules.

Ltac total :=
  repeat (cbv beta zeta;
    first
      [ apply Total_ret | apply Total_get | apply Total_modify
      | apply Total_emit | apply Total_time_time
      | apply Total_bind; [| intro]
      | apply Total_try_except; intro
      | match goal with
        | |- Total (if ?b then _ else _) => destruct b
        | |- Total (match ?x with _ => _ end) => destruct x
        end ]).

(** [respects side] decomposes a goal [Respects R T m] along the structure
    of [m]; [side] proves what the frame asks of each primitive step. *)
Ltac respects side :=
  repeat (cbv beta zeta;
    first
      [ match goal with
        | H : Respects ?R ?T ?m |- Respects ?R ?T ?m => exact H
        | H : forall x, Respects ?R ?T (?f x) |- Respects ?R ?T (?f _) => apply H
        end
      | apply Respects_ret | apply Respects_lift | apply Respects_get
      | apply Respects_emit; side
      | apply Respects_modify; intro; side
      | apply Respects_time_time; intro; side
      | apply Respects_bind; [| intro]
      | apply Respects_try_except; [| intro]
      | match goal with
        | |- Respects _ _ (if ?b then _ else _) => destruct b
        | |- Respects _ _ (match ?x with _ => _ end) => destruct x
        end ]).

(** *** The quiet frame: the loop's connection view is untouched

    A quiet computation changes neither the loop's connected flag nor its
    isolation start time; it may read the clock; it reports no
    reconnection. *)

Definition same_core (w w' : World) : Prop :=
  brain_connected (life w') = brain_connected (life w) /\
  isolation_start_time (life w') = isolation_start_time (life w) /\
  clock_reads w <= clock_reads w'.

Definition no_report (t : list event) : Prop :=
  forall d, ~ In (EvReconnected d) t.

#[export] Instance quiet_frame : Frame same_core no_report.
Proof.
  split.
  - intros w. unfold same_core. repeat split; lia.
  - intros w1 w2 w3 (A1 & B1 & C1) (A2 & B2 & C2).
    unfold same_core. repeat split; try congruence; lia.
  - intros d [].
  - intros t1 t2 H1 H2 d Hd. apply in_app_or in Hd.
    destruct Hd; [eapply H1 | eapply H2]; eassumption.
Qed.

Ltac quiet_side :=
  first
    [ solve [ intros ? [? | []]; discriminate ]
    | solve [ unfold same_core; cbn; repeat split; lia ] ].

(** *** The session frame: connected flag and link untouched *)

Definition same_session (w w' : World) : Prop :=
  brain_connected (life w') = brain_connected (life w) /\
  brain_link w' = brain_link w.

Definition any_trace (t : list event) : Prop := True.

#[export] Instance session_frame : Frame same_session any_trace.
Proof.
  split; unfold same_session, any_trace; auto.
  - intros w1 w2 w3 [A1 B1] [A2 B2]. split; congruence.
Qed.

Ltac session_side :=
  first
    [ exact I
    | solve [ unfold same_session; cbn; repeat split ] ].

(** *** The errors frame: the communication-error counter untouched *)

Definition same_errors (w w' : World) : Prop :=
  communication_errors (life w') = communication_errors (life w).

#[export] Instance errors_frame : Frame same_errors any_trace.
Proof.
  split; unfold same_errors, any_trace; auto.
  - intros w1 w2 w3 A1 A2. congruence.
Qed.

Ltac errors_side :=
  first
    [ exact I
    | solve [ unfold same_errors; cbn; reflexivity ] ].

(** *** The isolation frame: isolation start time and error counter untouched *)

Definition same_isolation (w w' : World) : Prop :=
  isolation_start_time (life w') = isolation_start_time (life w) /\
  communication_errors (life w') = communication_errors (life w) /\
  clock_reads w <= clock_reads w'.

#[export] Instance isolation_frame : Frame same_isolation any_trace.
Proof.
  split; unfold same_isolation, any_trace; auto.
  - intros w1 w2 w3 (A1 & B1 & C1) (A2 & B2 & C2).
    repeat split; try congruence; lia.
Qed.

Ltac isolation_side :=
  first
    [ exact I
    | solve [ unfold same_isolation; cbn; repeat split; lia ] ].

(** ** The operations, one by one *)

Section Operations.

Variable clock : nat -> Q.
Variable packb : pyval -> result bytes.
Variable unpackb : bytes -> result pyval.

Lemma connect_Total (n : Network) : Total (connect clock n).
Proof. unfold connect, fail_attempt. total. Qed.

Lemma send_sensors_get_commands_Total (n : Network) (s : SensorReading) :
  Total (send_sensors_get_commands clock packb unpackb n s).
Proof. unfold send_sensors_get_commands. total. Qed.

Lemma decide_action_Total (s : SensorReading) : Total (decide_action clock s).
Proof. unfold decide_action. total. Qed.

(** The body of [_brain_interaction]'s [try] block. *)
Definition brain_interaction_body (n : Network) (sensor_data : SensorReading)
  : M (option MotorCommand) :=
  brain_start <- time_time clock ;;
  emit (EvExchange sensor_data) ;;
  motor_commands <- send_sensors_get_commands clock packb unpackb n sensor_data ;;
  t <- time_time clock ;;
  let response_time := (t - brain_start)%Q in
  modify (with_life
            (fun s => set_brain_response_times
                        (brain_response_times s ++ [response_time])%list s)) ;;
  w <- get ;;
  (if Nat.ltb 100 (List.length (brain_response_times (life w)))
   then modify (with_life
                  (fun s => set_brain_response_times
                              (tl (brain_response_times s)) s))
   else ret tt) ;;
  ret motor_commands.

Lemma brain_interaction_body_Total (n : Network) (s : SensorReading) :
  Total (brain_interaction_body n s).
Proof.
  unfold brain_interaction_body. total.
Qed.

(** Since the exchange catches everything itself, the handlers of
    [_brain_interaction] are never entered. *)
Lemma _brain_interaction_body (n : Network) (s : SensorReading) (w : World) :
  _brain_interaction clock packb unpackb n s w = brain_interaction_body n s w.
Proof.
  unfold _brain_interaction.
  apply (try_except_Total (brain_interaction_body n s)).
  apply brain_interaction_body_Total.
Qed.

Lemma _brain_interaction_Total (n : Network) (s : SensorReading) :
  Total (_brain_interaction clock packb unpackb n s).
Proof.
  intros w. rewrite _brain_interaction_body. apply brain_interaction_body_Total.
Qed.

(** *** Quiet operations *)

Lemma connect_Quiet (n : Network) :
  Respects same_core no_report (connect clock n).
Proof. unfold connect, fail_attempt. respects quiet_side. Qed.

Lemma send_sensors_get_commands_Quiet (n : Network) (s : SensorReading) :
  Respects same_core no_report (send_sensors_get_commands clock packb unpackb n s).
Proof. unfold send_sensors_get_commands. respects quiet_side. Qed.

Lemma decide_action_Quiet (s : SensorReading) :
  Respects same_core no_report (decide_action clock s).
Proof. unfold decide_action. respects quiet_side. Qed.

Lemma hw_execute_Quiet (h : Hardware) (c : MotorCommand) :
  Respects same_core no_report (hw_execute h c).
Proof. unfold hw_execute. respects quiet_side. Qed.

Lemma _brain_interaction_Quiet (n : Network) (s : SensorReading) :
  Respects same_core no_report (_brain_interaction clock packb unpackb n s).
Proof.
  apply (Respects_ext _ (brain_interaction_body n s)).
  - apply _brain_interaction_body.
  - pose proof (send_sensors_get_commands_Quiet n s).
    unfold brain_interaction_body. respects quiet_side.
Qed.

Lemma _periodic_status_report_Quiet (h : Hardware) :
  Respects same_core no_report (_periodic_status_report clock h).
Proof.
  unfold _periodic_status_report, _log_status, _detailed_status_report.
  respects quiet_side.
Qed.

Lemma _maintain_loop_timing_Quiet (loop_start : Q) :
  Respects same_core no_report (_maintain_loop_timing clock loop_start).
Proof. unfold _maintain_loop_timing, sleep. respects quiet_side. Qed.

Lemma cycle_handler_Quiet (e : exn) :
  Respects same_core no_report (cycle_handler e).
Proof. unfold cycle_handler, sleep. respects quiet_side. Qed.

End Operations.

(** ** Running a computation step by step *)

#[local] Arguments Qminus : simpl never.
#[local] Arguments Qdiv : simpl never.
#[local] Arguments Qle_bool : simpl never.
#[local] Arguments Qeq_bool : simpl never.
#[local] Arguments Nat.modulo : simpl never.
#[local] Arguments Nat.ltb : simpl never.

Lemma run_bind {A B} (m : M A) (k : A -> M B) (w : World) :
  bind m k w =
  match m w with
  | (Ok a, w1, t1) =>
      (result_of (k a w1), world_of (k a w1), (t1 ++ trace_of (k a w1))%list)
  | (Raise e, w1, t1) => (Raise e, w1, t1)
  end.
Proof.
  unfold bind, result_of, world_of, trace_of.
  destruct (m w) as [[[a|e] w1] t1]; [|reflexivity].
  now destruct (k a w1) as [[r w2] t2].
Qed.

Lemma run_try_except {A} (m : M A) (handler : exn -> M A) (w : World) :
  try_except m handler w =
  match m w with
  | (Ok a, w1, t1) => (Ok a, w1, t1)
  | (Raise e, w1, t1) =>
      (result_of (handler e w1), world_of (handler e w1),
       (t1 ++ trace_of (handler e w1))%list)
  end.
Proof.
  unfold try_except, result_of, world_of, trace_of.
  destruct (m w) as [[[a|e] w1] t1]; [reflexivity|].
  now destruct (handler e w1) as [[r w2] t2].
Qed.

Lemma bind_get {A} (k : World -> M A) (w : World) : bind get k w = k w w.
Proof. unfold bind, get. now destruct (k w w) as [[r w2] t2]. Qed.

Lemma bind_modify {A} (f : World -> World) (k : unit -> M A) (w : World) :
  bind (modify f) k w = k tt (f w).
Proof. unfold bind, modify. now destruct (k tt (f w)) as [[r w2] t2]. Qed.

Lemma bind_ret {A B} (a : A) (k : A -> M B) (w : World) : bind (ret a) k w = k a w.
Proof. unfold bind, ret. now destruct (k a w) as [[r w2] t2]. Qed.

Lemma bind_emit {A} (e : event) (k : unit -> M A) (w : World) :
  bind (emit e) k w =
  (result_of (k tt w), world_of (k tt w), e :: trace_of (k tt w)).
Proof.
  unfold bind, emit, result_of, world_of, trace_of.
  now destruct (k tt w) as [[r w2] t2].
Qed.

Lemma bind_time_time {A} (clock : nat -> Q) (k : Q -> M A) (w : World) :
  bind (time_time clock) k w =
  k (clock (clock_reads w)) (with_clock_reads (S (clock_reads w)) w).
Proof.
  unfold bind, time_time.
  now destruct (k (clock (clock_reads w)) (with_clock_reads (S (clock_reads w)) w))
    as [[r w2] t2].
Qed.

Lemma outcome_eta {A} (o : result A * World * list event) :
  o = (result_of o, world_of o, trace_of o).
Proof. now destruct o as [[r w] t]. Qed.

Lemma Respects_outcome {R T A} (m : M A) (w : World) :
  Respects R T m ->
  exists r w1 t1, m w = (r, w1, t1) /\ R w w1 /\ T t1.
Proof.
  intros H. destruct (H w) as [HR HT].
  exists (result_of (m w)), (world_of (m w)), (trace_of (m w)).
  split; [apply outcome_eta | now split].
Qed.

Lemma Total_Respects_outcome {R T A} (m : M A) (w : World) :
  Total m -> Respects R T m ->
  exists a w1 t1, m w = (Ok a, w1, t1) /\ R w w1 /\ T t1.
Proof.
  intros Ht H. destruct (Respects_outcome m w H) as (r & w1 & t1 & E & HR & HT).
  destruct (Ht w) as [a Ha]. rewrite E in Ha. unfold result_of in Ha; simpl in Ha.
  subst r. now exists a, w1, t1.
Qed.

(** What follows a computation, when all of it respects a frame, leaves the
    world of that computation related to the final one and keeps its events. *)
Lemma bind_then_frame {R T} `{!Frame R T} {A B} (m : M A) (k : A -> M B) (w : World) :
  (forall a, Respects R T (k a)) ->
  R (world_of (m w)) (world_of (bind m k w)) /\
  exists rest, trace_of (bind m k w) = (trace_of (m w) ++ rest)%list.
Proof.
  intros Hk. rewrite run_bind.
  destruct (m w) as [[[a|e] w1] t1]; unfold world_of, trace_of; cbn [fst snd].
  - destruct (Hk a w1) as [HR _]. split; [exact HR|]. eexists; reflexivity.
  - split; [apply frame_refl|]. exists []. now rewrite app_nil_r.
Qed.

(** ** How one cycle moves the loop between connected and isolated *)

(** The start that [_periodic_brain_reconnection] subtracts:
    [self.isolation_start_time or now]. *)
Definition isolation_or (iso : option Q) (now : Q) : Q :=
  match iso with
  | Some t0 => if truthy (Some t0) then t0 else now
  | None => now
  end.

(** The four ways in which a run can move the connection view: not at all;
    a successful exchange; the loss of the link; a reconnection. *)
Inductive Trans (clock : nat -> Q) (w w' : World) (t : list event) : Prop :=
| Trans_same :
    same_core w w' -> no_report t -> Trans clock w w' t
| Trans_contact :
    brain_connected (life w) = true ->
    brain_connected (life w') = true ->
    isolation_start_time (life w') = None ->
    clock_reads w <= clock_reads w' ->
    no_report t ->
    Trans clock w w' t
| Trans_lost :
    brain_connected (life w) = true ->
    brain_connected (life w') = false ->
    clock_reads w <= clock_reads w' ->
    match isolation_start_time (life w) with
    | Some t0 => isolation_start_time (life w') = Some t0
    | None => exists k, clock_reads w <= k < clock_reads w' /\
                        isolation_start_time (life w') = Some (clock k)
    end ->
    no_report t ->
    Trans clock w w' t
| Trans_reconnect (k : nat) :
    brain_connected (life w) = false ->
    brain_connected (life w') = true ->
    isolation_start_time (life w') = None ->
    clock_reads w <= k < clock_reads w' ->
    (forall d, In (EvReconnected d) t ->
       d = (clock k - isolation_or (isolation_start_time (life w)) (clock (S k)))%Q) ->
    Trans clock w w' t.

Section Transitions.

Variable clock : nat -> Q.
Variable packb : pyval -> result bytes.
Variable unpackb : bytes -> result pyval.

Lemma quiet_then_Trans (w w1 w2 : World) (t1 t2 : list event) :
  same_core w w1 -> no_report t1 -> Trans clock w1 w2 t2 ->
  Trans clock w w2 (t1 ++ t2).
Proof.
  intros (A & B & C) Ht H.
  assert (N : forall t, no_report t -> no_report (t1 ++ t)).
  { intros t. now apply (frame_app (R := same_core)). }
  destruct H as [(A' & B' & C') H | A' B' C' D' H | A' B' C' E' H | k A' B' C' D' H].
  - apply Trans_same; [|auto]. unfold same_core. repeat split; try congruence; lia.
  - apply Trans_contact; auto; try congruence; lia.
  - apply Trans_lost; auto; try congruence; try lia.
    rewrite <- B. destruct (isolation_start_time (life w1)); [exact E'|].
    destruct E' as (k & Hk & E'). exists k. split; [lia | exact E'].
  - apply (Trans_reconnect _ _ _ _ k); auto; try congruence; try lia.
    intros d Hd. rewrite <- B. apply H.
    apply in_app_or in Hd. destruct Hd as [Hd | Hd]; [|exact Hd].
    now apply Ht in Hd.
Qed.

Lemma Trans_then_quiet (w w1 w2 : World) (t1 t2 : list event) :
  Trans clock w w1 t1 -> same_core w1 w2 -> no_report t2 ->
  Trans clock w w2 (t1 ++ t2).
Proof.
  intros H (A & B & C) Ht.
  assert (N : forall t, no_report t -> no_report (t ++ t2)).
  { intros t Hn. now apply (frame_app (R := same_core)). }
  destruct H as [(A' & B' & C') H | A' B' C' D' H | A' B' C' E' H | k A' B' C' D' H].
  - apply Trans_same; [|auto]. unfold same_core. repeat split; try congruence; lia.
  - apply Trans_contact; auto; try congruence; lia.
  - apply Trans_lost; auto; try congruence; try lia.
    rewrite B. destruct (isolation_start_time (life w)); [exact E'|].
    destruct E' as (k & Hk & E'). exists k. split; [lia | exact E'].
  - apply (Trans_reconnect _ _ _ _ k); auto; try congruence; try lia.
    intros d Hd. apply H.
    apply in_app_or in Hd. destruct Hd as [Hd | Hd]; [exact Hd|].
    now apply Ht in Hd.
Qed.

Lemma Trans_quiet {A} (m : M A) (w : World) :
  Respects same_core no_report m ->
  Trans clock w (world_of (m w)) (trace_of (m w)).
Proof. intros H. destruct (H w). now apply Trans_same. Qed.

Lemma Trans_bind_quiet {A B} (m : M A) (k : A -> M B) (w : World) :
  Respects same_core no_report m ->
  (forall a w1, same_core w w1 ->
     Trans clock w1 (world_of (k a w1)) (trace_of (k a w1))) ->
  Trans clock w (world_of (bind m k w)) (trace_of (bind m k w)).
Proof.
  intros Hm Hk. rewrite run_bind.
  destruct (Respects_outcome m w Hm) as (r & w1 & t1 & E & Hq & Hn).
  rewrite E. destruct r as [a|e]; unfold world_of, trace_of; cbn [fst snd].
  - apply (quiet_then_Trans w w1); auto. now apply Hk.
  - now apply Trans_same.
Qed.

Lemma Trans_bind_then_quiet {A B} (m : M A) (k : A -> M B) (w : World) :
  Trans clock w (world_of (m w)) (trace_of (m w)) ->
  (forall a, Respects same_core no_report (k a)) ->
  Trans clock w (world_of (bind m k w)) (trace_of (bind m k w)).
Proof.
  intros Hm Hk. rewrite run_bind.
  destruct (m w) as [[[a|e] w1] t1]; unfold world_of, trace_of in *;
    cbn [fst snd] in *; [|exact Hm].
  destruct (Hk a w1) as [Hq Hn]. now apply (Trans_then_quiet w w1).
Qed.

Lemma Trans_try_except {A} (m : M A) (handler : exn -> M A) (w : World) :
  Trans clock w (world_of (m w)) (trace_of (m w)) ->
  (forall e, Respects same_core no_report (handler e)) ->
  Trans clock w (world_of (try_except m handler w))
    (trace_of (try_except m handler w)).
Proof.
  intros Hm Hh. rewrite run_try_except.
  destruct (m w) as [[[a|e] w1] t1]; unfold world_of, trace_of in *;
    cbn [fst snd] in *; [exact Hm|].
  destruct (Hh e w1) as [Hq Hn]. now apply (Trans_then_quiet w w1).
Qed.

Ltac no_report_tac :=
  let d := fresh "d" in let H := fresh "H" in
  intros d H; simpl in H; intuition discriminate.

Lemma _handle_brain_disconnect_Trans (w : World) :
  brain_connected (life w) = true ->
  result_of (_handle_brain_disconnect clock w) = Ok tt /\
  connected (brain_link (world_of (_handle_brain_disconnect clock w))) = false /\
  Trans clock w (world_of (_handle_brain_disconnect clock w))
    (trace_of (_handle_brain_disconnect clock w)).
Proof.
  intros Hbc. unfold _handle_brain_disconnect. unfold_monad. rewrite Hbc. cbn.
  destruct (websocket (brain_link w)) as [h|]; cbn;
    destruct (isolation_start_time (life w)) as [t0|] eqn:Hi; cbn;
    (split; [reflexivity|]); (split; [reflexivity|]);
    apply Trans_lost; cbn; rewrite ?Hi;
    solve [ auto | lia | no_report_tac
          | exists (clock_reads w); split; [lia | reflexivity] ].
Qed.

Lemma _periodic_brain_reconnection_Trans (n : Network) (w : World) :
  brain_connected (life w) = false ->
  result_of (_periodic_brain_reconnection clock n w) = Ok tt /\
  Trans clock w (world_of (_periodic_brain_reconnection clock n w))
    (trace_of (_periodic_brain_reconnection clock n w)).
Proof.
  intros Hbc. unfold _periodic_brain_reconnection. rewrite bind_get.
  destruct (Nat.eqb _ _).
  2:{ split; [reflexivity|]. apply Trans_same; [apply frame_refl | apply frame_nil]. }
  rewrite run_try_except, run_bind.
  destruct (Total_Respects_outcome (connect clock n) w (connect_Total clock n)
              (connect_Quiet clock n)) as (b & w1 & t1 & E & (A & B & C) & Hn).
  rewrite E. destruct b.
  - assert (K : clock_reads w <= S (clock_reads w1)) by lia.
    unfold isolation_start_or_now. unfold_monad. cbn.
    destruct (isolation_start_time (life w1)) as [t0|] eqn:Hi; cbn;
      [destruct (negb (Qeq_bool t0 0)) eqn:Htr; cbn|];
      (split; [reflexivity|]);
      apply (Trans_reconnect _ _ _ _ (S (clock_reads w1))); cbn;
      try solve [ auto | congruence | lia ];
      intros d Hd; apply in_app_or in Hd;
      (destruct Hd as [Hd | Hd]; [now apply Hn in Hd|]);
      simpl in Hd; destruct Hd as [Hd | []];
      injection Hd as <-; rewrite <- B; unfold isolation_or, truthy;
      rewrite ?Htr; reflexivity.
  - cbn. split; [reflexivity|].
    apply Trans_same; [| now rewrite app_nil_r].
    unfold same_core. repeat split; try congruence; lia.
Qed.

Lemma brain_or_autonomous_Trans (env : CycleEnv) (s : SensorReading) (w : World) :
  Trans clock w (world_of (brain_or_autonomous clock packb unpackb env s w))
    (trace_of (brain_or_autonomous clock packb unpackb env s w)).
Proof.
  unfold brain_or_autonomous. rewrite bind_get.
  destruct (brain_connected (life w)) eqn:Hbc.
  - apply Trans_bind_quiet; [apply _brain_interaction_Quiet|].
    intros [c|] w1 (A1 & B1 & C1).
    + apply Trans_bind_quiet; [apply hw_execute_Quiet|].
      intros [] w2 (A2 & B2 & C2).
      unfold_monad; cbn.
      apply Trans_contact; cbn; try solve [ congruence | lia | no_report_tac ].
    + apply Trans_bind_then_quiet.
      * apply _handle_brain_disconnect_Trans. congruence.
      * intros []. pose proof (decide_action_Quiet clock s) as Hd.
        pose proof (hw_execute_Quiet (hw env)) as He.
        respects quiet_side.
  - apply Trans_bind_quiet; [respects quiet_side|].
    intros [] w1 (A1 & B1 & C1).
    apply Trans_bind_quiet; [apply decide_action_Quiet|].
    intros c w2 (A2 & B2 & C2).
    apply Trans_bind_quiet; [apply hw_execute_Quiet|].
    intros [] w3 (A3 & B3 & C3).
    apply _periodic_brain_reconnection_Trans. congruence.
Qed.

Lemma cycle_body_Trans (env : CycleEnv) (loop_start : Q) (w : World) :
  Trans clock w (world_of (cycle_body clock packb unpackb env loop_start w))
    (trace_of (cycle_body clock packb unpackb env loop_start w)).
Proof.
  unfold cycle_body.
  apply Trans_bind_quiet; [respects quiet_side|]. intros [] w1 H1.
  apply Trans_bind_quiet; [respects quiet_side|]. intros s w2 H2.
  apply Trans_bind_quiet; [respects quiet_side|]. intros [] w3 H3.
  destruct (immediate_danger s).
  - apply Trans_quiet. unfold sleep. respects quiet_side.
  - apply Trans_bind_then_quiet; [apply brain_or_autonomous_Trans|].
    intros []. pose proof (_periodic_status_report_Quiet clock (hw env)) as Hs.
    pose proof (_maintain_loop_timing_Quiet clock loop_start) as Ht.
    respects quiet_side.
Qed.

(** One iteration always completes, and moves the connection view in one of
    the four ways. *)
Lemma cycle_Trans (env : CycleEnv) (w : World) :
  result_of (cycle clock packb unpackb env w) = Ok tt /\
  Trans clock w (world_of (cycle clock packb unpackb env w))
    (trace_of (cycle clock packb unpackb env w)).
Proof.
  split.
  - assert (T : Total (cycle clock packb unpackb env)).
    { unfold cycle, cycle_handler, sleep. total. }
    destruct (T w) as [[] H]. exact H.
  - unfold cycle.
    apply Trans_bind_quiet; [respects quiet_side|]. intros t w1 H1.
    apply Trans_bind_quiet; [respects quiet_side|]. intros [] w2 H2.
    apply Trans_try_except; [apply cycle_body_Trans | apply cycle_handler_Quiet].
Qed.

End Transitions.

(** * Properties *)

(** ** Safety reflex gate *)

Definition safe_reading : SensorReading :=
  {| timestamp := 0%float; battery_voltage := 12%float;
     ultrasonic_distance := 100%float; power_source := "BATTERY";
     motor_current := (0%float, 0%float);
     camera_frame := None; line_sensors := None |}.

(** C1. [immediate_danger] answers true exactly when the battery voltage is
    below the critical 10.5 V or the obstacle distance is below the critical
    10 cm; a reading with both values at or above their thresholds is no
    danger. *)
Theorem immediate_danger_iff_below_critical (sensors : SensorReading) :
  Config.BATTERY_CRITICAL = 10.5%float /\
  Config.OBSTACLE_CRITICAL = 10%float /\
  (immediate_danger sensors = true <->
     (battery_voltage sensors <? Config.BATTERY_CRITICAL)%float = true \/
     (ultrasonic_distance sensors <? Config.OBSTACLE_CRITICAL)%float = true) /\
  ((Config.BATTERY_CRITICAL <=? battery_voltage sensors)%float = true ->
   (Config.OBSTACLE_CRITICAL <=? ultrasonic_distance sensors)%float = true ->
   immediate_danger sensors = false).
Proof.
  unfold immediate_danger.
  repeat split.
  - destruct (battery_voltage sensors <? Config.BATTERY_CRITICAL)%float;
      [now left|].
    destruct (ultrasonic_distance sensors <? Config.OBSTACLE_CRITICAL)%float;
      [now right | discriminate].
  - intros [H | H].
    + now rewrite H.
    + rewrite H.
      now destruct (battery_voltage sensors <? Config.BATTERY_CRITICAL)%float.
  - intros Hb Ho.
    now rewrite (FloatFacts.leb_not_ltb _ _ Hb), (FloatFacts.leb_not_ltb _ _ Ho).
Qed.

Lemma immediate_danger_iff_below_critical_witness :
  immediate_danger safe_reading = false.
Proof.
  apply (proj2 (proj2 (proj2 (immediate_danger_iff_below_critical safe_reading))));
    reflexivity.
Defined.

(** ** Fallback policy *)

(** C5. [decide_action] always returns a command, the command is the same
    whatever the state of the fallback and the clock, the avoidance rule
    (distance below 30 cm, a threshold above the critical 10 cm) wins over
    the low-battery rule, and the remaining case is the slow forward
    command. *)
Theorem decide_action_total_deterministic
    (clock : nat -> Q) (sensors : SensorReading) (w : World) :
  exists c : MotorCommand,
    result_of (decide_action clock sensors w) = Ok c /\
    (forall (clock' : nat -> Q) (w' : World),
        result_of (decide_action clock' sensors w') = Ok c) /\
    (Config.OBSTACLE_CRITICAL <? 30)%float = true /\
    ((ultrasonic_distance sensors <? 30)%float = true ->
       c = _avoid_obstacle /\ c = MotorCommand_lr 1400 1600) /\
    ((ultrasonic_distance sensors <? 30)%float = false ->
     (battery_voltage sensors <? 11.5)%float = true ->
       c = _seek_power /\ c = MotorCommand_lr 1500 1500) /\
    ((ultrasonic_distance sensors <? 30)%float = false ->
     (battery_voltage sensors <? 11.5)%float = false ->
       c = _explore /\ c = MotorCommand_lr 1530 1530).
Proof.
  assert (E : forall clock' w',
             result_of (decide_action clock' sensors w') =
             Ok (if (ultrasonic_distance sensors <? 30)%float then _avoid_obstacle
                 else if (battery_voltage sensors <? 11.5)%float then _seek_power
                 else _explore)).
  { intros clock' w'. unfold decide_action. unfold_monad.
    destruct (autonomous_isolation_start_time w'); simpl;
      destruct (ultrasonic_distance sensors <? 30)%float;
      destruct (battery_voltage sensors <? 11.5)%float; reflexivity. }
  eexists. split; [apply E|]. split; [exact E|].
  split; [reflexivity|].
  repeat split; intros; repeat match goal with H : _ = _ |- _ => rewrite H end;
    reflexivity.
Qed.

Lemma decide_action_total_deterministic_witness :
  exists c : MotorCommand,
    result_of (decide_action (fun _ => 0%Q) safe_reading World_init) = Ok c /\
    c = _explore.
Proof.
  destruct (decide_action_total_deterministic (fun _ => 0%Q) safe_reading World_init)
    as [c (Hc & _ & _ & _ & _ & He)].
  exists c. split; [exact Hc|]. apply He; reflexivity.
Defined.

(** ** Decision service link *)

Section LinkProperties.

Variable clock : nat -> Q.
Variable packb : pyval -> result bytes.
Variable unpackb : bytes -> result pyval.

(** The exchange called without a live session does nothing at all. *)
Lemma exchange_guard (n : Network) (sensor_data : SensorReading) (w : World) :
  connected (brain_link w) = false \/ websocket (brain_link w) = None ->
  send_sensors_get_commands clock packb unpackb n sensor_data w = (Ok None, w, []).
Proof.
  intros H. unfold send_sensors_get_commands. unfold_monad.
  destruct H as [H | H]; rewrite H; simpl; try reflexivity.
  now destruct (connected (brain_link w)).
Qed.

(** Whatever happens inside, [connect] returns a flag. *)
Lemma connect_returns (n : Network) (w : World) :
  exists b : bool, result_of (connect clock n w) = Ok b.
Proof.
  unfold connect. unfold_monad.
  destruct (websocket (brain_link w)) as [h|]; simpl.
  - destruct (ws_close n) as [[]|e]; simpl.
    + destruct (ws_connect n) as [h'|e]; simpl;
        [eexists; reflexivity | destruct e; eexists; reflexivity].
    + destruct e; eexists; reflexivity.
  - destruct (ws_connect n) as [h'|e]; simpl;
      [eexists; reflexivity | destruct e; eexists; reflexivity].
Qed.

(** The old socket, if there is one, closes without an error. *)
Definition old_socket_closes (n : Network) (w : World) : Prop :=
  websocket (brain_link w) = None \/ ws_close n = Ok tt.

Lemma connect_success (n : Network) (w : World) (h : ws_handle) :
  old_socket_closes n w ->
  ws_connect n = Ok h ->
  let o := connect clock n w in
  result_of o = Ok true /\
  connection_attempts (brain_link (world_of o)) = 0 /\
  last_successful_contact (brain_link (world_of o)) = clock (clock_reads w) /\
  connected (brain_link (world_of o)) = true /\
  websocket (brain_link (world_of o)) = Some h /\
  life (world_of o) = life w.
Proof.
  intros Hc Hn. unfold connect. unfold_monad.
  destruct Hc as [Hc | Hc]; rewrite ?Hc.
  - rewrite Hn. simpl. repeat split.
  - destruct (websocket (brain_link w)); simpl; rewrite Hn; simpl; repeat split.
Qed.

Lemma connect_failure (n : Network) (w : World) :
  (exists e, ws_connect n = Raise e) \/
  (websocket (brain_link w) <> None /\ exists e, ws_close n = Raise e) ->
  let o := connect clock n w in
  result_of o = Ok false /\
  connection_attempts (brain_link (world_of o)) =
    S (connection_attempts (brain_link w)) /\
  connected (brain_link (world_of o)) = connected (brain_link w) /\
  websocket (brain_link (world_of o)) = websocket (brain_link w) /\
  last_successful_contact (brain_link (world_of o)) =
    last_successful_contact (brain_link w) /\
  life (world_of o) = life w /\
  clock_reads (world_of o) = clock_reads w.
Proof.
  intros H. unfold connect. unfold_monad.
  destruct H as [[e He] | [Hw [e He]]].
  - rewrite He.
    destruct (websocket (brain_link w)) as [h|] eqn:Ew; simpl.
    + destruct (ws_close n) as [[]|e']; simpl;
        [destruct e | destruct e']; simpl; repeat split; assumption.
    + destruct e; simpl; repeat split; assumption.
  - rewrite He.
    destruct (websocket (brain_link w)) as [h|] eqn:Ew; [|congruence]. simpl.
    destruct e; simpl; repeat split; assumption.
Qed.

End LinkProperties.

Definition refusing_network : Network :=
  {| ws_close := Ok tt; ws_connect := Raise ConnectionRefusedError;
     ws_send := fun _ => Ok tt; ws_recv := Raise TimeoutError |}.

Definition timing_out_network (h : ws_handle) : Network :=
  {| ws_close := Ok tt; ws_connect := Ok h;
     ws_send := fun _ => Ok tt; ws_recv := Raise TimeoutError |}.

Definition answering_network (h : ws_handle) (reply : bytes) : Network :=
  {| ws_close := Ok tt; ws_connect := Ok h;
     ws_send := fun _ => Ok tt; ws_recv := Ok reply |}.

(** A clock that advances by one second at every reading. *)
Definition ticking_clock (n : nat) : Q := inject_Z (Z.of_nat (S n)).

(** A stand-in codec for the examples: every message packs to the empty
    payload and every payload unpacks to [reply]. *)
Definition packb_empty (v : pyval) : result bytes := Ok [].
Definition unpackb_const (reply : pyval) (b : bytes) : result pyval := Ok reply.

(** C7. [connect] never raises; when the connection opens it returns true
    with the failure count at zero and the last-contact time read from the
    clock; when the connection attempt fails, on timeout and refusal in
    particular, it returns false with the failure count one higher. *)
Theorem connect_resets_or_counts
    (clock : nat -> Q) (n : Network) (w : World) :
  (exists b : bool, result_of (connect clock n w) = Ok b) /\
  (forall h : ws_handle,
      old_socket_closes n w ->
      ws_connect n = Ok h ->
      result_of (connect clock n w) = Ok true /\
      connection_attempts (brain_link (world_of (connect clock n w))) = 0 /\
      last_successful_contact (brain_link (world_of (connect clock n w))) =
        clock (clock_reads w)) /\
  (forall e : exn,
      ws_connect n = Raise e ->
      result_of (connect clock n w) = Ok false /\
      connection_attempts (brain_link (world_of (connect clock n w))) =
        S (connection_attempts (brain_link w))) /\
  (ws_connect n = Raise TimeoutError \/ ws_connect n = Raise ConnectionRefusedError ->
      result_of (connect clock n w) = Ok false /\
      connection_attempts (brain_link (world_of (connect clock n w))) =
        S (connection_attempts (brain_link w))).
Proof.
  split; [apply connect_returns|].
  split.
  { intros h Hc Hn. destruct (connect_success clock n w h Hc Hn) as (A & B & C & _).
    auto. }
  assert (F : forall e, ws_connect n = Raise e ->
      result_of (connect clock n w) = Ok false /\
      connection_attempts (brain_link (world_of (connect clock n w))) =
        S (connection_attempts (brain_link w))).
  { intros e He.
    destruct (connect_failure clock n w) as (A & B & _); [left; eauto|auto]. }
  split; [exact F|].
  intros [H | H]; eapply F; exact H.
Qed.

Lemma connect_resets_or_counts_witness :
  result_of (connect ticking_clock (answering_network 7 []) World_init) = Ok true /\
  result_of (connect ticking_clock refusing_network World_init) = Ok false.
Proof.
  split.
  - apply (proj1 (proj2 (connect_resets_or_counts ticking_clock
                           (answering_network 7 []) World_init)) 7).
    + left; reflexivity.
    + reflexivity.
  - apply (proj2 (proj2 (proj2 (connect_resets_or_counts ticking_clock
                                  refusing_network World_init)))).
    right; reflexivity.
Defined.

(** C10. Called while the connected flag is false or there is no session
    handle, the exchange returns no command, sends nothing, and leaves the
    whole state (connected flag, failure count, success count, last-contact
    time) as it was. *)
Theorem exchange_without_session_is_noop
    (clock : nat -> Q) (packb : pyval -> result bytes)
    (unpackb : bytes -> result pyval)
    (n : Network) (sensor_data : SensorReading) (w : World) :
  connected (brain_link w) = false \/ websocket (brain_link w) = None ->
  let o := send_sensors_get_commands clock packb unpackb n sensor_data w in
  result_of o = Ok None /\
  trace_of o = [] /\
  world_of o = w /\
  connected (brain_link (world_of o)) = connected (brain_link w) /\
  connection_attempts (brain_link (world_of o)) = connection_attempts (brain_link w) /\
  message_count (brain_link (world_of o)) = message_count (brain_link w) /\
  last_successful_contact (brain_link (world_of o)) =
    last_successful_contact (brain_link w).
Proof.
  intros H o. subst o. rewrite (exchange_guard clock packb unpackb n sensor_data w H).
  unfold result_of, trace_of, world_of; simpl. repeat split.
Qed.

Lemma exchange_without_session_is_noop_witness :
  result_of (send_sensors_get_commands ticking_clock packb_empty (unpackb_const PNone)
               (answering_network 7 []) safe_reading World_init) = Ok None /\
  trace_of (send_sensors_get_commands ticking_clock packb_empty (unpackb_const PNone)
              (answering_network 7 []) safe_reading World_init) = [].
Proof.
  destruct (exchange_without_session_is_noop ticking_clock packb_empty
              (unpackb_const PNone) (answering_network 7 []) safe_reading
              World_init (or_introl eq_refl)) as (A & B & _).
  split; assumption.
Defined.

(** A world whose link holds an open session [h]. *)
Definition connected_link (h : ws_handle) : BrainConnection :=
  {| websocket := Some h; connected := true; connection_attempts := 0;
     last_successful_contact := 0%Q; message_count := 0 |}.

Definition connected_world (h : ws_handle) : World :=
  {| life := set_brain_connected true LifeLoop_init;
     brain_link := connected_link h;
     autonomous_isolation_start_time := None; clock_reads := 0 |}.

(** A [MOTOR_COMMANDS] reply that sets the left motor only. *)
Definition left_only_reply (v : pyval) : pyval :=
  PDict [ ("type", PStr "MOTOR_COMMANDS");
          ("data", PDict [ ("motor_left_pwm", v) ]) ].

(** C6. A [MOTOR_COMMANDS] reply received in time is decoded field by field,
    a field absent from the reply taking its neutral default (1500 for the
    motors and the camera servo, false for the buzzer); the success count
    goes up by one and the last-contact time is read from the clock.  With
    only the left motor set, the right motor and the servo are 1500 and the
    buzzer is off. *)
Theorem motor_commands_reply_defaults
    (clock : nat -> Q) (packb : pyval -> result bytes)
    (unpackb : bytes -> result pyval)
    (n : Network) (sensor_data : SensorReading) (w : World)
    (h : ws_handle) (packed_message response_raw : bytes)
    (response motor_data : list (string * pyval)) :
  connected (brain_link w) = true ->
  websocket (brain_link w) = Some h ->
  packb (sensor_message sensor_data) = Ok packed_message ->
  ws_send n packed_message = Ok tt ->
  ws_recv n = Ok response_raw ->
  unpackb response_raw = Ok (PDict response) ->
  dict_get response "type" = Some (PStr "MOTOR_COMMANDS") ->
  py_get (PDict response) "data" (PDict []) = Ok (PDict motor_data) ->
  let o := send_sensors_get_commands clock packb unpackb n sensor_data w in
  let field k default :=
    match dict_get motor_data k with Some v => v | None => default end in
  result_of o =
    Ok (Some {| motor_left_pwm := field "motor_left_pwm" (PInt 1500);
                motor_right_pwm := field "motor_right_pwm" (PInt 1500);
                servo_camera_pwm := field "servo_camera_pwm" (PInt 1500);
                buzzer_active := field "buzzer_active" (PBool false) |}) /\
  (forall v, motor_data = [("motor_left_pwm", v)] ->
     result_of o =
       Ok (Some {| motor_left_pwm := v; motor_right_pwm := PInt 1500;
                   servo_camera_pwm := PInt 1500;
                   buzzer_active := PBool false |})) /\
  message_count (brain_link (world_of o)) = S (message_count (brain_link w)) /\
  last_successful_contact (brain_link (world_of o)) = clock (clock_reads w) /\
  connected (brain_link (world_of o)) = true /\
  trace_of o = [EvSend packed_message; EvRecv].
Proof.
  intros Hc Hw Hp Hs Hr Hu Ht Hd o field.
  assert (E : o =
    (Ok (Some {| motor_left_pwm := field "motor_left_pwm" (PInt 1500);
                 motor_right_pwm := field "motor_right_pwm" (PInt 1500);
                 servo_camera_pwm := field "servo_camera_pwm" (PInt 1500);
                 buzzer_active := field "buzzer_active" (PBool false) |}),
     with_brain_link (set_last_successful_contact (clock (clock_reads w)))
       (with_clock_reads (S (clock_reads w))
          (with_brain_link (fun k => set_message_count (S (message_count k)) k) w)),
     [EvSend packed_message; EvRecv])).
  { subst o. unfold send_sensors_get_commands. unfold_monad.
    rewrite Hc, Hw. cbn [negb orb isSome].
    rewrite Hp. cbn iota beta. rewrite Hs. cbn iota beta.
    rewrite Hr. cbn iota beta. rewrite Hu. cbn iota beta.
    rewrite Hd.
    unfold py_get at 1 2. rewrite Ht. cbn [py_eq_str String.eqb Ascii.eqb Bool.eqb].
    unfold py_get. cbn iota beta. reflexivity. }
  rewrite E. unfold result_of, world_of, trace_of. cbn [fst snd].
  split; [reflexivity|].
  split.
  { intros v Hv. subst field. rewrite Hv. reflexivity. }
  cbn. rewrite Hc. repeat split.
Qed.

Lemma motor_commands_reply_defaults_witness :
  result_of (send_sensors_get_commands ticking_clock packb_empty
               (unpackb_const (left_only_reply (PInt 1600)))
               (answering_network 7 []) safe_reading (connected_world 7)) =
  Ok (Some {| motor_left_pwm := PInt 1600; motor_right_pwm := PInt 1500;
              servo_camera_pwm := PInt 1500; buzzer_active := PBool false |}).
Proof.
  refine (proj1 (proj2 (motor_commands_reply_defaults ticking_clock packb_empty
            (unpackb_const (left_only_reply (PInt 1600)))
            (answering_network 7 []) safe_reading (connected_world 7)
            7 [] []
            [ ("type", PStr "MOTOR_COMMANDS");
              ("data", PDict [ ("motor_left_pwm", PInt 1600) ]) ]
            [ ("motor_left_pwm", PInt 1600) ]
            _ _ _ _ _ _ _ _)) (PInt 1600) _); reflexivity.
Defined.

(** Two readings that agree on every field but the contents of the imaging
    payload, which is present in both or absent in both. *)
Definition same_but_frame_contents (s1 s2 : SensorReading) : Prop :=
  timestamp s1 = timestamp s2 /\
  battery_voltage s1 = battery_voltage s2 /\
  ultrasonic_distance s1 = ultrasonic_distance s2 /\
  power_source s1 = power_source s2 /\
  motor_current s1 = motor_current s2 /\
  line_sensors s1 = line_sensors s2 /\
  isSome (camera_frame s1) = isSome (camera_frame s2).

Definition with_camera_frame (f : option CameraFrame) (s : SensorReading) :=
  {| timestamp := timestamp s; battery_voltage := battery_voltage s;
     ultrasonic_distance := ultrasonic_distance s;
     power_source := power_source s; motor_current := motor_current s;
     camera_frame := f; line_sensors := line_sensors s |}.

(** C9. The request depends on the imaging payload only through its
    presence: for two readings that differ in the pixels alone, the message,
    its serialization, and the whole run of the exchange (bytes sent, reply
    handling, resulting state) are identical. *)
Theorem request_hides_frame_contents
    (clock : nat -> Q) (packb : pyval -> result bytes)
    (unpackb : bytes -> result pyval)
    (n : Network) (w : World) (s1 s2 : SensorReading) :
  same_but_frame_contents s1 s2 ->
  sensor_message s1 = sensor_message s2 /\
  packb (sensor_message s1) = packb (sensor_message s2) /\
  send_sensors_get_commands clock packb unpackb n s1 w =
  send_sensors_get_commands clock packb unpackb n s2 w.
Proof.
  intros (Ht & Hb & Hu & Hp & Hm & _ & Hc).
  assert (E : sensor_message s1 = sensor_message s2).
  { unfold sensor_message. now rewrite Ht, Hb, Hu, Hp, Hm, Hc. }
  split; [exact E|]. split; [now rewrite E|].
  unfold send_sensors_get_commands. now rewrite E.
Qed.

Lemma request_hides_frame_contents_witness :
  send_sensors_get_commands ticking_clock packb_empty
    (unpackb_const (left_only_reply (PInt 1600))) (answering_network 7 [])
    (with_camera_frame (Some [Byte.x00]) safe_reading) (connected_world 7) =
  send_sensors_get_commands ticking_clock packb_empty
    (unpackb_const (left_only_reply (PInt 1600))) (answering_network 7 [])
    (with_camera_frame (Some [Byte.xff; Byte.x01]) safe_reading) (connected_world 7).
Proof.
  apply (request_hides_frame_contents ticking_clock packb_empty
           (unpackb_const (left_only_reply (PInt 1600))) (answering_network 7 [])
           (connected_world 7)
           (with_camera_frame (Some [Byte.x00]) safe_reading)
           (with_camera_frame (Some [Byte.xff; Byte.x01]) safe_reading)).
  repeat split.
Defined.

(** ** Control loop *)

(** The events that reach the decision service or the fallback policy. *)
Definition guarded (e : event) : bool :=
  match e with
  | EvExchange _ | EvSend _ | EvRecv | EvConnect | EvClose _
  | EvDecideAction _ => true
  | _ => false
  end.

(** The world in which the [try] block of an iteration starts. *)
Definition cycle_start (w : World) : World :=
  with_life (fun s => set_loop_count (S (loop_count s)) s)
    (with_clock_reads (S (clock_reads w)) w).

Definition quiet_hardware (s : SensorReading) : Hardware :=
  {| read_sensors := Ok s; execute_motor_commands := fun _ => Ok true;
     emergency_stop := true; get_hardware_info := Ok tt |}.

(** The real backend before it is implemented: reading raises. *)
Definition failing_hardware : Hardware :=
  {| read_sensors := Raise NotImplementedError;
     execute_motor_commands := fun _ => Raise NotImplementedError;
     emergency_stop := true; get_hardware_info := Ok tt |}.

Definition low_battery_reading : SensorReading :=
  {| timestamp := 0%float; battery_voltage := 10%float;
     ultrasonic_distance := 100%float; power_source := "BATTERY";
     motor_current := (0%float, 0%float);
     camera_frame := None; line_sensors := None |}.

Definition near_obstacle_reading : SensorReading :=
  {| timestamp := 0%float; battery_voltage := 12%float;
     ultrasonic_distance := 5%float; power_source := "BATTERY";
     motor_current := (0%float, 0%float);
     camera_frame := None; line_sensors := None |}.

Section LoopProperties.

Variable clock : nat -> Q.
Variable packb : pyval -> result bytes.
Variable unpackb : bytes -> result pyval.

Lemma cycle_unfold (env : CycleEnv) (w : World) :
  cycle clock packb unpackb env w =
  try_except
    (cycle_body clock packb unpackb env (clock (clock_reads w)))
    cycle_handler (cycle_start w).
Proof. unfold cycle. now rewrite bind_time_time, bind_modify. Qed.

Lemma cycle_handler_run (e : exn) (w : World) :
  cycle_handler e w =
  (Ok tt,
   with_life (fun s => set_communication_errors (S (communication_errors s)) s) w,
   [EvEmergencyStop; EvSleep (1 # 2)]).
Proof. reflexivity. Qed.

(** The first events of the [try] block: the sensors are read, the gate is
    asked, and only a verdict of no danger lets anything else happen. *)
Lemma cycle_body_read_fault (env : CycleEnv) (loop_start : Q) (w : World) (e : exn) :
  read_sensors (hw env) = Raise e ->
  cycle_body clock packb unpackb env loop_start w = (Raise e, w, [EvReadSensors]).
Proof. intros H. unfold cycle_body. unfold_monad. now rewrite H. Qed.

Lemma cycle_body_danger (env : CycleEnv) (loop_start : Q) (w : World)
    (s : SensorReading) :
  read_sensors (hw env) = Ok s ->
  immediate_danger s = true ->
  cycle_body clock packb unpackb env loop_start w =
  (Ok tt, w, [EvReadSensors; EvImmediateDanger true; EvEmergencyStop; EvSleep 1]).
Proof. intros H D. unfold cycle_body. unfold_monad. now rewrite H, D. Qed.

Lemma cycle_body_safe (env : CycleEnv) (loop_start : Q) (w : World)
    (s : SensorReading) :
  read_sensors (hw env) = Ok s ->
  immediate_danger s = false ->
  cycle_body clock packb unpackb env loop_start w =
  (result_of ((brain_or_autonomous clock packb unpackb env s ;;
               _periodic_status_report clock (hw env) ;;
               _maintain_loop_timing clock loop_start) w),
   world_of ((brain_or_autonomous clock packb unpackb env s ;;
              _periodic_status_report clock (hw env) ;;
              _maintain_loop_timing clock loop_start) w),
   EvReadSensors :: EvImmediateDanger false ::
     trace_of ((brain_or_autonomous clock packb unpackb env s ;;
                _periodic_status_report clock (hw env) ;;
                _maintain_loop_timing clock loop_start) w)).
Proof.
  intros H D. unfold cycle_body.
  rewrite bind_emit, H. change (lift (Ok s)) with (ret s).
  rewrite bind_ret, bind_emit, D.
  unfold result_of, world_of, trace_of. cbn [fst snd]. reflexivity.
Qed.

(** What the handler adds to a run of the [try] block. *)
Lemma cycle_outcome (env : CycleEnv) (w : World) :
  cycle clock packb unpackb env w =
  match cycle_body clock packb unpackb env (clock (clock_reads w)) (cycle_start w) with
  | (Ok a, w1, t1) => (Ok a, w1, t1)
  | (Raise e, w1, t1) =>
      (Ok tt,
       with_life (fun s => set_communication_errors (S (communication_errors s)) s) w1,
       (t1 ++ [EvEmergencyStop; EvSleep (1 # 2)])%list)
  end.
Proof.
  rewrite cycle_unfold, run_try_except.
  destruct (cycle_body _ _ _ _ _ _) as [[[a|e] w1] t1]; reflexivity.
Qed.

(** The [try] block never touches the communication-error counter: only
    the handler of the iteration does. *)
Lemma _brain_interaction_errors (n : Network) (s : SensorReading) :
  Respects same_errors any_trace (_brain_interaction clock packb unpackb n s).
Proof.
  apply (Respects_ext _ (brain_interaction_body clock packb unpackb n s)).
  - apply _brain_interaction_body.
  - unfold brain_interaction_body. respects errors_side.
Qed.

Lemma cycle_body_errors (env : CycleEnv) (loop_start : Q) :
  Respects same_errors any_trace (cycle_body clock packb unpackb env loop_start).
Proof.
  pose proof (_brain_interaction_errors (net env)) as Hb.
  unfold cycle_body, brain_or_autonomous. respects errors_side.
Qed.

(** *** An exchange that times out *)

Lemma decide_action_session (s : SensorReading) :
  Respects same_session any_trace (decide_action clock s).
Proof. unfold decide_action. respects session_side. Qed.

Lemma hw_execute_session (h : Hardware) (c : MotorCommand) :
  Respects same_session any_trace (hw_execute h c).
Proof. unfold hw_execute. respects session_side. Qed.

Lemma status_and_timing_session (h : Hardware) (loop_start : Q) :
  Respects same_session any_trace
    (_periodic_status_report clock h ;; _maintain_loop_timing clock loop_start).
Proof.
  unfold _periodic_status_report, _log_status, _detailed_status_report,
    _maintain_loop_timing, sleep.
  respects session_side.
Qed.

Lemma send_sensors_get_commands_timeout
    (n : Network) (s : SensorReading) (w : World) (h : ws_handle) (packed : bytes) :
  connected (brain_link w) = true ->
  websocket (brain_link w) = Some h ->
  packb (sensor_message s) = Ok packed ->
  ws_send n packed = Ok tt ->
  ws_recv n = Raise TimeoutError ->
  send_sensors_get_commands clock packb unpackb n s w =
  (Ok None, w, [EvSend packed; EvRecv]).
Proof.
  intros Hc Hw Hp Hs Hr. unfold send_sensors_get_commands. unfold_monad.
  rewrite Hc, Hw. cbn [negb orb isSome].
  rewrite Hp. cbn iota beta. rewrite Hs. cbn iota beta. rewrite Hr. reflexivity.
Qed.

Lemma _brain_interaction_timeout
    (n : Network) (s : SensorReading) (w : World) (h : ws_handle) (packed : bytes) :
  connected (brain_link w) = true ->
  websocket (brain_link w) = Some h ->
  packb (sensor_message s) = Ok packed ->
  ws_send n packed = Ok tt ->
  ws_recv n = Raise TimeoutError ->
  exists w1,
    _brain_interaction clock packb unpackb n s w =
      (Ok None, w1, [EvExchange s; EvSend packed; EvRecv]) /\
    same_session w w1.
Proof.
  intros Hc Hw Hp Hs Hr.
  rewrite _brain_interaction_body. unfold brain_interaction_body.
  rewrite bind_time_time, bind_emit, run_bind.
  rewrite (send_sensors_get_commands_timeout n s _ h packed); auto.
  rewrite bind_time_time, bind_modify, bind_get.
  destruct (Nat.ltb _ _); eexists; (split; [reflexivity|]);
    unfold same_session; cbn; split; reflexivity.
Qed.

Lemma _handle_brain_disconnect_closes (w : World) (h : ws_handle) :
  brain_connected (life w) = true ->
  websocket (brain_link w) = Some h ->
  exists w1,
    _handle_brain_disconnect clock w = (Ok tt, w1, [EvClose h]) /\
    brain_connected (life w1) = false /\
    connected (brain_link w1) = false /\
    websocket (brain_link w1) = Some h.
Proof.
  intros Hbc Hw. unfold _handle_brain_disconnect. unfold_monad.
  rewrite Hbc. cbn. rewrite Hw. cbn.
  destruct (isolation_start_time (life w)); cbn; eexists;
    (split; [reflexivity|]); cbn; auto.
Qed.

Lemma brain_or_autonomous_timeout
    (env : CycleEnv) (s : SensorReading) (w : World) (h : ws_handle) (packed : bytes) :
  brain_connected (life w) = true ->
  connected (brain_link w) = true ->
  websocket (brain_link w) = Some h ->
  packb (sensor_message s) = Ok packed ->
  ws_send (net env) packed = Ok tt ->
  ws_recv (net env) = Raise TimeoutError ->
  exists rest,
    trace_of (brain_or_autonomous clock packb unpackb env s w) =
      ([EvExchange s; EvSend packed; EvRecv; EvClose h; EvDecideAction s] ++ rest)%list /\
    brain_connected (life (world_of (brain_or_autonomous clock packb unpackb env s w))) =
      false /\
    connected (brain_link (world_of (brain_or_autonomous clock packb unpackb env s w))) =
      false.
Proof.
  intros Hbc Hc Hw Hp Hs Hr.
  destruct (_brain_interaction_timeout (net env) s w h packed Hc Hw Hp Hs Hr)
    as (w1 & E1 & (A1 & B1)).
  destruct (_handle_brain_disconnect_closes w1 h) as (w2 & E2 & A2 & B2 & C2);
    [congruence | congruence |].
  unfold brain_or_autonomous.
  assert (Hk : Respects same_session any_trace
                 (c <- decide_action clock s ;; hw_execute (hw env) c)).
  { pose proof (decide_action_session s). pose proof (hw_execute_session (hw env)).
    respects session_side. }
  destruct (Respects_outcome _ w2 Hk) as (r & w3 & t3 & E3 & (A3 & B3) & _).
  rewrite bind_get, Hbc, run_bind, E1, run_bind, E2, bind_emit, E3.
  unfold world_of, trace_of, result_of; cbn [fst snd app].
  exists t3. repeat split; congruence.
Qed.

End LoopProperties.

(** C2. In a cycle whose reading the gate judges dangerous, the loop stops
    the motors and pauses, and calls neither the exchange nor the fallback
    policy, whatever the connection state; and in every cycle, anything sent
    to the decision service or asked of the fallback policy comes after the
    gate has answered "no danger" for that cycle. *)
Theorem danger_forces_stop
    (clock : nat -> Q) (packb : pyval -> result bytes)
    (unpackb : bytes -> result pyval) (env : CycleEnv) (w : World) :
  (forall s : SensorReading,
      read_sensors (hw env) = Ok s ->
      immediate_danger s = true ->
      result_of (cycle clock packb unpackb env w) = Ok tt /\
      trace_of (cycle clock packb unpackb env w) =
        [EvReadSensors; EvImmediateDanger true; EvEmergencyStop; EvSleep 1] /\
      (forall e, In e (trace_of (cycle clock packb unpackb env w)) ->
                 guarded e = false) /\
      world_of (cycle clock packb unpackb env w) = cycle_start w /\
      brain_link (world_of (cycle clock packb unpackb env w)) = brain_link w /\
      brain_connected (life (world_of (cycle clock packb unpackb env w))) =
        brain_connected (life w)) /\
  (forall (pre post : list event) (e : event),
      trace_of (cycle clock packb unpackb env w) = (pre ++ e :: post)%list ->
      guarded e = true ->
      In (EvImmediateDanger false) pre).
Proof.
  split.
  - intros s Hr Hd. rewrite cycle_outcome.
    rewrite (cycle_body_danger clock packb unpackb env _ _ s Hr Hd).
    unfold result_of, trace_of, world_of; cbn [fst snd].
    repeat split.
    intros e He. simpl in He.
    repeat (destruct He as [<- | He]; [reflexivity|]). destruct He.
  - intros pre post e Ht Hg.
    assert (Hshape :
      (forall x, In x (trace_of (cycle clock packb unpackb env w)) -> guarded x = false) \/
      exists rest, trace_of (cycle clock packb unpackb env w) =
                   EvReadSensors :: EvImmediateDanger false :: rest).
    { rewrite cycle_outcome.
      destruct (read_sensors (hw env)) as [s|x] eqn:Hr.
      - destruct (immediate_danger s) eqn:Hd.
        + left. rewrite (cycle_body_danger clock packb unpackb env _ _ s Hr Hd).
          unfold trace_of; cbn [snd]. intros y Hy. simpl in Hy.
          repeat (destruct Hy as [<- | Hy]; [reflexivity|]). destruct Hy.
        + right. rewrite (cycle_body_safe clock packb unpackb env _ _ s Hr Hd).
          destruct (result_of _); unfold trace_of; cbn [snd];
            eexists; reflexivity.
      - left. rewrite (cycle_body_read_fault clock packb unpackb env _ _ x Hr).
        unfold trace_of; cbn [snd]. intros y Hy. simpl in Hy.
        repeat (destruct Hy as [<- | Hy]; [reflexivity|]). destruct Hy. }
    destruct Hshape as [Hn | [rest Hs]].
    + rewrite (Hn e) in Hg; [discriminate|].
      rewrite Ht. apply in_or_app. right. now left.
    + rewrite Hs in Ht.
      destruct pre as [|a [|b pre]].
      * injection Ht as <- _. discriminate.
      * injection Ht as _ <- _. discriminate.
      * injection Ht as _ <- _. right. now left.
Qed.

Lemma danger_forces_stop_witness :
  trace_of (cycle ticking_clock packb_empty (unpackb_const PNone)
              {| hw := quiet_hardware near_obstacle_reading;
                 net := answering_network 7 [] |} (connected_world 7)) =
  [EvReadSensors; EvImmediateDanger true; EvEmergencyStop; EvSleep 1].
Proof.
  apply (proj1 (danger_forces_stop ticking_clock packb_empty (unpackb_const PNone)
                  {| hw := quiet_hardware near_obstacle_reading;
                     net := answering_network 7 [] |} (connected_world 7))
           near_obstacle_reading); reflexivity.
Defined.

(** Scenario A: 10.0 V against the critical 10.5 V, on a connected loop. *)
Example scenario_low_battery :
  cycle ticking_clock packb_empty (unpackb_const PNone)
    {| hw := quiet_hardware low_battery_reading; net := answering_network 7 [] |}
    (connected_world 7) =
  (Ok tt, cycle_start (connected_world 7),
   [EvReadSensors; EvImmediateDanger true; EvEmergencyStop; EvSleep 1]).
Proof. reflexivity. Qed.

(** Scenario B: 5 cm against the critical 10 cm, on an isolated loop. *)
Example scenario_near_obstacle :
  cycle ticking_clock packb_empty (unpackb_const PNone)
    {| hw := quiet_hardware near_obstacle_reading; net := refusing_network |}
    World_init =
  (Ok tt, cycle_start World_init,
   [EvReadSensors; EvImmediateDanger true; EvEmergencyStop; EvSleep 1]).
Proof. reflexivity. Qed.

(** C8. A fault that escapes the [try] block of an iteration is caught by the
    loop: the motors are stopped at once, the communication-error counter is
    one more than at the start of the iteration, the loop pauses for half a
    second, and the next iteration runs from the resulting state. *)
Theorem cycle_fault_is_contained
    (clock : nat -> Q) (packb : pyval -> result bytes)
    (unpackb : bytes -> result pyval) (env : CycleEnv) (w : World)
    (e : exn) (w1 : World) (t1 : list event) :
  cycle_body clock packb unpackb env (clock (clock_reads w)) (cycle_start w) =
    (Raise e, w1, t1) ->
  result_of (cycle clock packb unpackb env w) = Ok tt /\
  trace_of (cycle clock packb unpackb env w) =
    (t1 ++ [EvEmergencyStop; EvSleep (1 # 2)])%list /\
  communication_errors (life (world_of (cycle clock packb unpackb env w))) =
    S (communication_errors (life w)) /\
  world_of (cycle clock packb unpackb env w) =
    with_life (fun s => set_communication_errors (S (communication_errors s)) s) w1 /\
  (forall envs : list CycleEnv,
      cycles clock packb unpackb (env :: envs) w =
      (result_of (cycles clock packb unpackb envs
                    (world_of (cycle clock packb unpackb env w))),
       world_of (cycles clock packb unpackb envs
                   (world_of (cycle clock packb unpackb env w))),
       (trace_of (cycle clock packb unpackb env w) ++
        trace_of (cycles clock packb unpackb envs
                    (world_of (cycle clock packb unpackb env w))))%list)).
Proof.
  intros Hb.
  assert (Hc : cycle clock packb unpackb env w =
               (Ok tt,
                with_life (fun s => set_communication_errors
                                      (S (communication_errors s)) s) w1,
                (t1 ++ [EvEmergencyStop; EvSleep (1 # 2)])%list)).
  { rewrite cycle_outcome, Hb. reflexivity. }
  destruct (cycle_body_errors clock packb unpackb env (clock (clock_reads w))
              (cycle_start w)) as [He _].
  rewrite Hb in He. unfold same_errors, world_of in He; cbn in He.
  repeat split.
  - now rewrite Hc.
  - now rewrite Hc.
  - rewrite Hc. unfold world_of; cbn. now rewrite He.
  - now rewrite Hc.
  - intros envs. cbn [cycles]. rewrite run_bind, Hc.
    unfold world_of, trace_of; cbn [fst snd]. reflexivity.
Qed.

Lemma cycle_fault_is_contained_witness :
  communication_errors
    (life (world_of (cycle ticking_clock packb_empty (unpackb_const PNone)
                       {| hw := failing_hardware; net := refusing_network |}
                       World_init))) = 1 /\
  trace_of (cycle ticking_clock packb_empty (unpackb_const PNone)
              {| hw := failing_hardware; net := refusing_network |} World_init) =
  [EvReadSensors; EvEmergencyStop; EvSleep (1 # 2)].
Proof.
  destruct (cycle_fault_is_contained ticking_clock packb_empty (unpackb_const PNone)
              {| hw := failing_hardware; net := refusing_network |} World_init
              NotImplementedError (cycle_start World_init) [EvReadSensors]
              eq_refl) as (_ & Ht & Hc & _).
  split; [exact Hc | exact Ht].
Defined.

(** C3, as the code has it.  When the reply to an exchange does not arrive
    within the 500 ms, the link itself returns no command and keeps its
    session, as its comment says ("Don't disconnect on timeout - might be
    temporary"); but the loop treats the missing command as a lost
    connection: in that same cycle it clears its connected flag, closes the
    session and turns to the fallback policy. *)
Theorem exchange_timeout_isolates_loop
    (clock : nat -> Q) (packb : pyval -> result bytes)
    (unpackb : bytes -> result pyval) (env : CycleEnv) (w : World)
    (h : ws_handle) (s : SensorReading) (packed : bytes) :
  brain_connected (life w) = true ->
  connected (brain_link w) = true ->
  websocket (brain_link w) = Some h ->
  read_sensors (hw env) = Ok s ->
  immediate_danger s = false ->
  packb (sensor_message s) = Ok packed ->
  ws_send (net env) packed = Ok tt ->
  ws_recv (net env) = Raise TimeoutError ->
  send_sensors_get_commands clock packb unpackb (net env) s w =
    (Ok None, w, [EvSend packed; EvRecv]) /\
  brain_connected (life (world_of (cycle clock packb unpackb env w))) = false /\
  connected (brain_link (world_of (cycle clock packb unpackb env w))) = false /\
  exists rest,
    trace_of (cycle clock packb unpackb env w) =
    ([EvReadSensors; EvImmediateDanger false; EvExchange s; EvSend packed;
      EvRecv; EvClose h; EvDecideAction s] ++ rest)%list.
Proof.
  intros Hbc Hc Hw Hread Hsafe Hp Hs Hr.
  split; [now apply (send_sensors_get_commands_timeout clock packb unpackb
                       (net env) s w h packed)|].
  set (start := cycle_start w).
  destruct (brain_or_autonomous_timeout clock packb unpackb env s start h packed)
    as (rest & Ht & Hb' & Hc'); auto.
  destruct (bind_then_frame (R := same_session) (T := any_trace)
              (brain_or_autonomous clock packb unpackb env s)
              (fun _ => _periodic_status_report clock (hw env) ;;
                        _maintain_loop_timing clock (clock (clock_reads w)))%monad
              start)
    as ((A & B) & (rest' & Ht')).
  { intros _. apply status_and_timing_session. }
  rewrite cycle_outcome.
  rewrite (cycle_body_safe clock packb unpackb env _ _ s Hread Hsafe).
  fold start. rewrite Ht', Ht.
  destruct (result_of _) as [[]|e]; unfold world_of, trace_of; cbn [fst snd];
    cbn [life brain_link with_life];
    (split; [cbn; unfold world_of in *; congruence|]);
    (split; [unfold world_of in *; congruence|]);
    eexists; cbn; rewrite <- ?app_assoc; reflexivity.
Qed.

Lemma exchange_timeout_isolates_loop_witness :
  brain_connected
    (life (world_of (cycle ticking_clock packb_empty (unpackb_const PNone)
                       {| hw := quiet_hardware safe_reading;
                          net := timing_out_network 7 |} (connected_world 7)))) =
  false.
Proof.
  apply (proj1 (proj2 (exchange_timeout_isolates_loop ticking_clock packb_empty
                         (unpackb_const PNone)
                         {| hw := quiet_hardware safe_reading;
                            net := timing_out_network 7 |}
                         (connected_world 7) 7 safe_reading []
                         eq_refl eq_refl eq_refl eq_refl eq_refl eq_refl eq_refl
                         eq_refl))).
Defined.

(** ** The isolation timer *)

(** The worlds the loop can be in at the start of an iteration. *)
Inductive reachable (clock : nat -> Q) (packb : pyval -> result bytes)
    (unpackb : bytes -> result pyval) : World -> Prop :=
| reachable_start (nets : nat -> Network) :
    reachable clock packb unpackb
      (world_of (_attempt_brain_connection clock nets World_init))
| reachable_cycle (env : CycleEnv) (w : World) :
    reachable clock packb unpackb w ->
    reachable clock packb unpackb (world_of (cycle clock packb unpackb env w)).

(** A set isolation start time belongs to an isolated loop and is a past
    reading of the clock. *)
Definition timer_inv (clock : nat -> Q) (w : World) : Prop :=
  match isolation_start_time (life w) with
  | Some t0 =>
      brain_connected (life w) = false /\
      exists n, n < clock_reads w /\ t0 = clock n
  | None => True
  end.

(** The isolation durations reported in a trace. *)
Fixpoint reported_durations (t : list event) : list Q :=
  match t with
  | [] => []
  | EvReconnected d :: t' => d :: reported_durations t'
  | _ :: t' => reported_durations t'
  end.

Section IsolationTimer.

Variable clock : nat -> Q.
Variable packb : pyval -> result bytes.
Variable unpackb : bytes -> result pyval.

Lemma connect_isolation (n : Network) :
  Respects same_isolation any_trace (connect clock n).
Proof. unfold connect, fail_attempt. respects isolation_side. Qed.

Lemma attempts_from_isolation (nets : nat -> Network) (max_attempts remaining attempt : nat) :
  Respects same_isolation any_trace
    (attempts_from clock nets max_attempts attempt remaining).
Proof.
  revert attempt. induction remaining as [|remaining IH]; intros attempt; cbn [attempts_from].
  - respects isolation_side.
  - pose proof (connect_isolation (nets attempt)) as Hc.
    pose proof (IH (S attempt)) as Hn.
    unfold sleep. respects isolation_side.
Qed.

Lemma timer_inv_start (nets : nat -> Network) :
  timer_inv clock (world_of (_attempt_brain_connection clock nets World_init)).
Proof.
  destruct (attempts_from_isolation nets 3 3 0 World_init) as [(A & _) _].
  unfold timer_inv, _attempt_brain_connection. now rewrite A.
Qed.

Lemma timer_inv_cycle (env : CycleEnv) (w : World) :
  timer_inv clock w ->
  timer_inv clock (world_of (cycle clock packb unpackb env w)).
Proof.
  intros Hi. destruct (cycle_Trans clock packb unpackb env w) as [_ H].
  unfold timer_inv in *.
  destruct H as [(A & B & C) _ | A B C D _ | A B C E _ | k A B C D _].
  - rewrite B, A. destruct (isolation_start_time (life w)); [|exact I].
    destruct Hi as (Hb & n & Hn & Ht). split; [exact Hb|].
    exists n. split; [lia | exact Ht].
  - now rewrite C.
  - destruct (isolation_start_time (life w)) as [t0|].
    + rewrite E. destruct Hi as (Hb & _). congruence.
    + destruct E as (k & Hk & E). rewrite E. split; [exact B|].
      exists k. split; [lia | reflexivity].
  - now rewrite C.
Qed.

Lemma reachable_timer_inv (w : World) :
  reachable clock packb unpackb w -> timer_inv clock w.
Proof.
  induction 1 as [nets | env w _ IH].
  - apply timer_inv_start.
  - now apply timer_inv_cycle.
Qed.

Hypothesis clock_monotone : forall i j, i <= j -> (clock i <= clock j)%Q.
Hypothesis clock_positive : forall i, (0 < clock i)%Q.

Lemma past_reading_truthy (n : nat) : truthy (Some (clock n)) = true.
Proof.
  unfold truthy. destruct (Qeq_bool (clock n) 0) eqn:E; [|reflexivity].
  apply Qeq_bool_iff in E. pose proof (clock_positive n) as P.
  rewrite E in P. exfalso. exact (Qlt_irrefl 0 P).
Qed.

Lemma duration_nonneg (n k : nat) : n <= k -> (0 <= clock k - clock n)%Q.
Proof.
  intros H. unfold Qminus. rewrite <- Qle_minus_iff. now apply clock_monotone.
Qed.

Lemma isolation_timer_step (env : CycleEnv) (w : World) :
  timer_inv clock w ->
  let o := cycle clock packb unpackb env w in
  (forall t0, isolation_start_time (life w) = Some t0 ->
              brain_connected (life w) = false) /\
  (brain_connected (life w) = true ->
   brain_connected (life (world_of o)) = false ->
   exists k, clock_reads w <= k /\
             isolation_start_time (life (world_of o)) = Some (clock k)) /\
  (brain_connected (life w) = false ->
   brain_connected (life (world_of o)) = false ->
   isolation_start_time (life (world_of o)) = isolation_start_time (life w)) /\
  (brain_connected (life w) = false ->
   brain_connected (life (world_of o)) = true ->
   isolation_start_time (life (world_of o)) = None) /\
  (forall t0, isolation_start_time (life w) = Some t0 ->
     (isolation_start_time (life (world_of o)) = None <->
      brain_connected (life (world_of o)) = true)) /\
  (forall t0 d, isolation_start_time (life w) = Some t0 ->
     In (EvReconnected d) (trace_of o) -> (0 <= d)%Q).
Proof.
  intros Hi o. subst o.
  destruct (cycle_Trans clock packb unpackb env w) as [_ H].
  unfold timer_inv in Hi.
  split; [|split; [|split; [|split; [|split]]]].
  - intros t0 E. rewrite E in Hi. tauto.
  - intros Hb Hb'.
    destruct H as [(A & B & C) _ | A B C D _ | A B C E _ | k A B C D _];
      try congruence.
    destruct (isolation_start_time (life w)) as [t0|].
    + destruct Hi as (Hf & _). congruence.
    + destruct E as (k & Hk & E). exists k. split; [lia | exact E].
  - intros Hb Hb'.
    destruct H as [(A & B & C) _ | A B C D _ | A B C E _ | k A B C D _];
      congruence.
  - intros Hb Hb'.
    destruct H as [(A & B & C) _ | A B C D _ | A B C E _ | k A B C D _];
      congruence.
  - intros t0 E0. rewrite E0 in Hi. destruct Hi as (Hf & _).
    split; intros Hx;
      destruct H as [(A & B & C) _ | A B C D _ | A B C E _ | k A B C D _];
      congruence.
  - intros t0 d E0 Hd. rewrite E0 in Hi. destruct Hi as (Hf & n & Hn & Ht).
    destruct H as [_ N | A B C D N | A B C E N | k A B C D N];
      try (exfalso; exact (N _ Hd)).
    rewrite (N _ Hd), E0. subst t0. unfold isolation_or.
    rewrite past_reading_truthy. apply duration_nonneg. lia.
Qed.

End IsolationTimer.

Lemma ticking_clock_monotone (i j : nat) :
  i <= j -> (ticking_clock i <= ticking_clock j)%Q.
Proof. intros H. unfold ticking_clock. rewrite <- Zle_Qle. lia. Qed.

Lemma ticking_clock_positive (i : nat) : (0 < ticking_clock i)%Q.
Proof.
  unfold ticking_clock. change 0%Q with (inject_Z 0). rewrite <- Zlt_Qlt. lia.
Qed.

Definition quiet_env (n : Network) : CycleEnv :=
  {| hw := quiet_hardware safe_reading; net := n |}.

(** C4, as the code has it.  In every state the loop can reach, and for
    every cycle run from it, over a clock that never goes back and reads
    positive times: a set isolation start time means the loop is isolated;
    the cycle in which a connected loop loses the link records a reading of
    the clock as the start; a cycle that begins and ends isolated leaves the
    start time as it was; the cycle in which an isolated loop reconnects
    clears it, and a set start time is cleared by no other cycle; and the
    isolation duration reported for an episode with a recorded start is not
    negative.  (An episode that begins with a failed initial connection has
    no recorded start.) *)
Theorem isolation_timer_discipline
    (clock : nat -> Q) (packb : pyval -> result bytes)
    (unpackb : bytes -> result pyval)
    (clock_monotone : forall i j, i <= j -> (clock i <= clock j)%Q)
    (clock_positive : forall i, (0 < clock i)%Q)
    (env : CycleEnv) (w : World) :
  reachable clock packb unpackb w ->
  (forall t0, isolation_start_time (life w) = Some t0 ->
              brain_connected (life w) = false) /\
  (brain_connected (life w) = true ->
   brain_connected (life (world_of (cycle clock packb unpackb env w))) = false ->
   exists k, clock_reads w <= k /\
             isolation_start_time (life (world_of (cycle clock packb unpackb env w))) =
               Some (clock k)) /\
  (brain_connected (life w) = false ->
   brain_connected (life (world_of (cycle clock packb unpackb env w))) = false ->
   isolation_start_time (life (world_of (cycle clock packb unpackb env w))) =
     isolation_start_time (life w)) /\
  (brain_connected (life w) = false ->
   brain_connected (life (world_of (cycle clock packb unpackb env w))) = true ->
   isolation_start_time (life (world_of (cycle clock packb unpackb env w))) = None) /\
  (forall t0, isolation_start_time (life w) = Some t0 ->
     (isolation_start_time (life (world_of (cycle clock packb unpackb env w))) = None <->
      brain_connected (life (world_of (cycle clock packb unpackb env w))) = true)) /\
  (forall t0 d, isolation_start_time (life w) = Some t0 ->
     In (EvReconnected d) (trace_of (cycle clock packb unpackb env w)) ->
     (0 <= d)%Q).
Proof.
  intros Hr.
  apply (isolation_timer_step clock packb unpackb clock_monotone clock_positive env w).
  exact (reachable_timer_inv clock packb unpackb w Hr).
Qed.

Lemma isolation_timer_discipline_witness :
  exists k,
    isolation_start_time
      (life (world_of
               (cycle ticking_clock packb_empty (unpackb_const PNone)
                  (quiet_env (timing_out_network 7))
                  (world_of (_attempt_brain_connection ticking_clock
                               (fun _ => answering_network 7 []) World_init))))) =
    Some (ticking_clock k).
Proof.
  destruct (isolation_timer_discipline ticking_clock packb_empty (unpackb_const PNone)
              ticking_clock_monotone ticking_clock_positive
              (quiet_env (timing_out_network 7))
              (world_of (_attempt_brain_connection ticking_clock
                           (fun _ => answering_network 7 []) World_init))
              (reachable_start ticking_clock packb_empty (unpackb_const PNone)
                 (fun _ => answering_network 7 [])))
    as (_ & Hlost & _).
  destruct (Hlost eq_refl eq_refl) as (k & _ & Hk).
  exists k. exact Hk.
Defined.

(** The loop that could not connect at start is isolated, cycle after cycle,
    with no isolation start time. *)
Lemma isolated_without_start_time :
  reachable ticking_clock packb_empty (unpackb_const PNone)
    (world_of (cycle ticking_clock packb_empty (unpackb_const PNone)
                 (quiet_env refusing_network)
                 (world_of (_attempt_brain_connection ticking_clock
                              (fun _ => refusing_network) World_init)))) /\
  brain_connected
    (life (world_of (cycle ticking_clock packb_empty (unpackb_const PNone)
                       (quiet_env refusing_network)
                       (world_of (_attempt_brain_connection ticking_clock
                                    (fun _ => refusing_network) World_init))))) =
    false /\
  isolation_start_time
    (life (world_of (cycle ticking_clock packb_empty (unpackb_const PNone)
                       (quiet_env refusing_network)
                       (world_of (_attempt_brain_connection ticking_clock
                                    (fun _ => refusing_network) World_init))))) =
    None.
Proof.
  split; [|split; reflexivity].
  apply reachable_cycle, reachable_start.
Qed.

(** The environments of a run in which the service refuses every connection
    until the cycle [n + 1], where it accepts. *)
Definition refused_then_accepted (n : nat) : list CycleEnv :=
  (repeat (quiet_env refusing_network) n ++ [quiet_env (answering_network 7 [])])%list.

(** On reconnecting after an episode without a recorded start, the loop
    subtracts a later reading of the clock from an earlier one: over the
    ticking clock the reported duration is minus one second. *)
Example unrecorded_episode_reports_negative_duration :
  reported_durations
    (trace_of (eternal_consciousness ticking_clock packb_empty (unpackb_const PNone)
                 (fun _ => refusing_network) (refused_then_accepted 299) World_init)) =
  [(-1 # 1)%Q].
Proof. vm_compute. reflexivity. Qed.

(** * Further properties of the link *)

#[local] Arguments String.eqb : simpl never.
#[local] Arguments dict_get : simpl never.

(** Case analysis on whatever the computation in the goal is stuck on. *)
Ltac destruct_stuck :=
  match goal with
  | |- context [match ?x with _ => _ end] =>
      lazymatch x with
      | context [match _ with _ => _ end] => fail
      | _ => destruct x eqn:?
      end
  end.

(** The three effects an exchange can have on the world. *)
Inductive exchange_effect (clock : nat -> Q) (w : World)
  : option MotorCommand -> World -> Prop :=
| exchange_kept :
    exchange_effect clock w None w
| exchange_dropped :
    exchange_effect clock w None (with_brain_link (set_connected false) w)
| exchange_answered (c : MotorCommand) :
    exchange_effect clock w (Some c)
      (with_brain_link (set_last_successful_contact (clock (clock_reads w)))
         (with_clock_reads (S (clock_reads w))
            (with_brain_link (fun k => set_message_count (S (message_count k)) k) w))).

(** The traces an exchange can leave: at most one message goes out, and the
    reply is awaited only after it went. *)
Definition exchange_trace (t : list event) : Prop :=
  t = [] \/ (exists p, t = [EvSend p]) \/ (exists p, t = [EvSend p; EvRecv]).

Section Exchange.

Variable clock : nat -> Q.
Variable packb : pyval -> result bytes.
Variable unpackb : bytes -> result pyval.

Lemma send_sensors_get_commands_cases (n : Network) (s : SensorReading) (w : World) :
  exists r,
    result_of (send_sensors_get_commands clock packb unpackb n s w) = Ok r /\
    exchange_effect clock w r
      (world_of (send_sensors_get_commands clock packb unpackb n s w)) /\
    exchange_trace (trace_of (send_sensors_get_commands clock packb unpackb n s w)).
Proof.
  unfold send_sensors_get_commands, py_get, py_eq_str. unfold_monad. cbn.
  repeat (destruct_stuck; cbn);
    eexists; (split; [reflexivity|]);
    (split; [ first [ apply exchange_kept | apply exchange_dropped
                    | apply exchange_answered ]
            | unfold exchange_trace; eauto ]).
Qed.

End Exchange.

Lemma py_eq_str_true (v : pyval) (s : string) :
  py_eq_str v s = true <-> v = PStr s.
Proof.
  destruct v; simpl; try (split; [discriminate | intros H; discriminate H]).
  rewrite String.eqb_eq. split; [now intros -> | now intros [= ->]].
Qed.

(** The value [v.get("type")] of a reply. *)
Definition reply_type (response : list (string * pyval)) : pyval :=
  match dict_get response "type" with Some x => x | None => PNone end.

Definition is_dict (v : pyval) : bool :=
  match v with PDict _ => true | _ => false end.

Section ExchangeReplies.

Variable clock : nat -> Q.
Variable packb : pyval -> result bytes.
Variable unpackb : bytes -> result pyval.

(** X2. A reply that is a dict of any kind other than [MOTOR_COMMANDS] (an
    [ERROR] reply, an unknown kind, no kind at all) gives no command and
    changes nothing: the session stays open and no counter moves. *)
Theorem exchange_other_reply
    (n : Network) (s : SensorReading) (w : World) (h : ws_handle)
    (packed raw : bytes) (response : list (string * pyval)) :
  connected (brain_link w) = true ->
  websocket (brain_link w) = Some h ->
  packb (sensor_message s) = Ok packed ->
  ws_send n packed = Ok tt ->
  ws_recv n = Ok raw ->
  unpackb raw = Ok (PDict response) ->
  reply_type response <> PStr "MOTOR_COMMANDS" ->
  send_sensors_get_commands clock packb unpackb n s w =
  (Ok None, w, [EvSend packed; EvRecv]).
Proof.
  intros Hc Hw Hp Hs Hr Hu Ht.
  assert (F : py_eq_str (reply_type response) "MOTOR_COMMANDS" = false).
  { destruct (py_eq_str _ _) eqn:E; [|reflexivity].
    apply py_eq_str_true in E. contradiction. }
  unfold send_sensors_get_commands. unfold_monad.
  rewrite Hc, Hw. cbn [negb orb isSome].
  rewrite Hp. cbn iota beta. rewrite Hs. cbn iota beta.
  rewrite Hr. cbn iota beta. rewrite Hu. cbn iota beta.
  unfold py_get. fold (reply_type response). cbn iota beta. rewrite F.
  cbn iota beta. destruct (py_eq_str (reply_type response) "ERROR"); reflexivity.
Qed.

(** X3. When the reception fails with anything but a timeout, when the reply
    cannot be unpacked or is not a dict, or when a [MOTOR_COMMANDS] reply
    carries a [data] field that is not a dict, the exchange gives no command
    and clears the connected flag, and changes nothing else. *)
Theorem exchange_broken
    (n : Network) (s : SensorReading) (w : World) (h : ws_handle) (packed : bytes) :
  connected (brain_link w) = true ->
  websocket (brain_link w) = Some h ->
  packb (sensor_message s) = Ok packed ->
  ws_send n packed = Ok tt ->
  (exists e, ws_recv n = Raise e /\ e <> TimeoutError) \/
  (exists raw e, ws_recv n = Ok raw /\ unpackb raw = Raise e /\ e <> TimeoutError) \/
  (exists raw v, ws_recv n = Ok raw /\ unpackb raw = Ok v /\ is_dict v = false) \/
  (exists raw response v,
      ws_recv n = Ok raw /\ unpackb raw = Ok (PDict response) /\
      reply_type response = PStr "MOTOR_COMMANDS" /\
      dict_get response "data" = Some v /\ is_dict v = false) ->
  send_sensors_get_commands clock packb unpackb n s w =
  (Ok None, with_brain_link (set_connected false) w, [EvSend packed; EvRecv]).
Proof.
  intros Hc Hw Hp Hs H.
  unfold send_sensors_get_commands. unfold_monad.
  rewrite Hc, Hw. cbn [negb orb isSome].
  rewrite Hp. cbn iota beta. rewrite Hs. cbn iota beta.
  destruct H as [(e & Hr & He) | [(raw & e & Hr & Hu & He) |
                 [(raw & v & Hr & Hu & Hv) | (raw & response & v & Hr & Hu & Ht & Hd & Hv)]]].
  - rewrite Hr. destruct e; try reflexivity. contradiction.
  - rewrite Hr. cbn iota beta. rewrite Hu. destruct e; try reflexivity. contradiction.
  - rewrite Hr. cbn iota beta. rewrite Hu. destruct v; try reflexivity. discriminate.
  - rewrite Hr. cbn iota beta. rewrite Hu. cbn iota beta.
    unfold py_get at 1. fold (reply_type response). rewrite Ht. cbn iota beta.
    replace (py_eq_str (PStr "MOTOR_COMMANDS") "MOTOR_COMMANDS") with true
      by (symmetry; now apply py_eq_str_true).
    unfold py_get at 1. rewrite Hd. cbn iota beta.
    destruct v; try reflexivity. discriminate.
Qed.

End ExchangeReplies.

Definition error_reply : pyval :=
  PDict [ ("type", PStr "ERROR"); ("error", PStr "overloaded") ].

Definition closed_network (h : ws_handle) : Network :=
  {| ws_close := Ok tt; ws_connect := Ok h;
     ws_send := fun _ => Ok tt; ws_recv := Raise ConnectionClosed |}.

Lemma exchange_other_reply_witness :
  send_sensors_get_commands ticking_clock packb_empty (unpackb_const error_reply)
    (answering_network 7 []) safe_reading (connected_world 7) =
  (Ok None, connected_world 7, [EvSend []; EvRecv]).
Proof.
  apply (exchange_other_reply ticking_clock packb_empty (unpackb_const error_reply)
           (answering_network 7 []) safe_reading (connected_world 7) 7 [] []
           [ ("type", PStr "ERROR"); ("error", PStr "overloaded") ]);
    first [ reflexivity | discriminate ].
Defined.

Lemma exchange_broken_witness :
  send_sensors_get_commands ticking_clock packb_empty (unpackb_const error_reply)
    (closed_network 7) safe_reading (connected_world 7) =
  (Ok None, with_brain_link (set_connected false) (connected_world 7),
   [EvSend []; EvRecv]).
Proof.
  apply (exchange_broken ticking_clock packb_empty (unpackb_const error_reply)
           (closed_network 7) safe_reading (connected_world 7) 7 []);
    try reflexivity.
  left. exists ConnectionClosed. split; [reflexivity | discriminate].
Defined.

(** X1. An exchange never raises, whatever the transport and the codec do.
    It leaves the loop's own state, the socket handle and the failure count
    alone, never sets the connected flag, sends at most one message, and has
    one of three effects: none at all, clearing the connected flag, or (with
    a command) counting one more success and recording the contact time. *)
Theorem exchange_effects
    (clock : nat -> Q) (packb : pyval -> result bytes)
    (unpackb : bytes -> result pyval)
    (n : Network) (s : SensorReading) (w : World) :
  let o := send_sensors_get_commands clock packb unpackb n s w in
  exists r : option MotorCommand,
    result_of o = Ok r /\
    exchange_effect clock w r (world_of o) /\
    exchange_trace (trace_of o) /\
    life (world_of o) = life w /\
    websocket (brain_link (world_of o)) = websocket (brain_link w) /\
    connection_attempts (brain_link (world_of o)) =
      connection_attempts (brain_link w) /\
    (connected (brain_link (world_of o)) = true ->
     connected (brain_link w) = true) /\
    (r = None ->
     message_count (brain_link (world_of o)) = message_count (brain_link w)) /\
    (r <> None ->
     connected (brain_link w) = true /\
     message_count (brain_link (world_of o)) = S (message_count (brain_link w))).
Proof.
  intros o. subst o.
  destruct (send_sensors_get_commands_cases clock packb unpackb n s w)
    as (r & Hr & He & Ht).
  exists r. split; [exact Hr|]. split; [exact He|]. split; [exact Ht|].
  assert (G : r <> None -> connected (brain_link w) = true).
  { intros Hn. destruct (connected (brain_link w)) eqn:Hc; [reflexivity|].
    rewrite (exchange_guard clock packb unpackb n s w (or_introl Hc)) in Hr.
    unfold result_of in Hr; cbn in Hr. congruence. }
  destruct He; cbn; repeat split; auto; try congruence.
Qed.


(** X5. [connect] asks the old socket, if any, to close before it opens a
    new one.  When the new connection opens, the link holds the new handle;
    when it does not, the link keeps the handle of the socket it has just
    closed, and its connected flag as it was. *)
Theorem connect_replaces_socket
    (clock : nat -> Q) (n : Network) (w : World) (old : ws_handle) :
  websocket (brain_link w) = Some old ->
  ws_close n = Ok tt ->
  trace_of (connect clock n w) = [EvClose old; EvConnect] /\
  (forall h, ws_connect n = Ok h ->
     websocket (brain_link (world_of (connect clock n w))) = Some h /\
     connected (brain_link (world_of (connect clock n w))) = true) /\
  (forall e, ws_connect n = Raise e ->
     websocket (brain_link (world_of (connect clock n w))) = Some old /\
     connected (brain_link (world_of (connect clock n w))) =
       connected (brain_link w)).
Proof.
  intros Hw Hc. unfold connect. unfold_monad. rewrite Hw, Hc. cbn.
  destruct (ws_connect n) as [h|e]; cbn.
  - split; [reflexivity|]. split; [intros ? [= <-]; split; reflexivity|].
    intros ? [=].
  - destruct e; cbn; (split; [reflexivity|]); (split; [intros ? [=]|]);
      intros ? _; rewrite Hw; split; reflexivity.
Qed.

Lemma connect_replaces_socket_witness :
  websocket (brain_link (world_of (connect ticking_clock refusing_network
                                     (connected_world 7)))) = Some 7 /\
  connected (brain_link (world_of (connect ticking_clock refusing_network
                                     (connected_world 7)))) = true.
Proof.
  apply (proj2 (proj2 (connect_replaces_socket ticking_clock refusing_network
                         (connected_world 7) 7 eq_refl eq_refl))
           ConnectionRefusedError eq_refl).
Defined.

(** * Further properties of the loop *)

Lemma Qltb_lt (a b : Q) : Qltb a b = true <-> (a < b)%Q.
Proof.
  unfold Qltb. rewrite negb_true_iff. split.
  - intros H. apply Qnot_le_lt. intros L. apply Qle_bool_iff in L. congruence.
  - intros H. destruct (Qle_bool b a) eqn:E; [|reflexivity].
    apply Qle_bool_iff in E. exfalso. exact (Qlt_not_le _ _ H E).
Qed.


(** *** The initial connection *)

(** The world after a connection opened with handle [h]. *)
Definition connected_to (clock : nat -> Q) (h : ws_handle) (w : World) : World :=
  with_brain_link (set_last_successful_contact (clock (clock_reads w)))
    (with_clock_reads (S (clock_reads w))
       (with_brain_link (set_connection_attempts 0)
          (with_brain_link (set_connected true)
             (with_brain_link (set_websocket (Some h)) w)))).

(** The world after a connection attempt failed. *)
Definition attempt_failed (w : World) : World :=
  with_brain_link (fun l => set_connection_attempts (S (connection_attempts l)) l) w.

Lemma connect_fresh (clock : nat -> Q) (n : Network) (w : World) :
  websocket (brain_link w) = None ->
  connect clock n w =
  match ws_connect n with
  | Ok h => (Ok true, connected_to clock h w, [EvConnect])
  | Raise _ => (Ok false, attempt_failed w, [EvConnect])
  end.
Proof.
  intros Hw. unfold connect. unfold_monad. rewrite Hw. cbn.
  destruct (ws_connect n) as [h|e]; [reflexivity|]. now destruct e.
Qed.

Lemma attempts_from_step
    (clock : nat -> Q) (nets : nat -> Network)
    (max_attempts attempt remaining : nat) (w : World) :
  websocket (brain_link w) = None ->
  attempts_from clock nets max_attempts attempt (S remaining) w =
  match ws_connect (nets attempt) with
  | Ok h =>
      (Ok tt,
       with_life (set_last_brain_contact (clock (S (clock_reads w))))
         (with_clock_reads (S (S (clock_reads w)))
            (with_life (set_brain_connected true) (connected_to clock h w))),
       [EvConnect])
  | Raise _ =>
      let o := attempts_from clock nets max_attempts (S attempt) remaining
                 (attempt_failed w) in
      (result_of o, world_of o,
       EvConnect ::
         ((if Nat.ltb attempt (max_attempts - 1) then [EvSleep 2] else []) ++
          trace_of o)%list)
  end.
Proof.
  intros Hw. cbn [attempts_from].
  rewrite run_bind, run_try_except, run_bind, (connect_fresh clock _ w Hw).
  destruct (ws_connect (nets attempt)) as [h|e].
  - reflexivity.
  - cbn [result_of world_of trace_of fst snd ret app].
    rewrite run_bind.
    destruct (Nat.ltb attempt (max_attempts - 1)); reflexivity.
Qed.

(** The events of an initial connection whose first [failed] attempts failed
    and whose next attempt was the last. *)
Fixpoint attempt_trace (failed : nat) : list event :=
  match failed with
  | 0 => [EvConnect]
  | S k => EvConnect :: EvSleep 2 :: attempt_trace k
  end.

(** X7. [_attempt_brain_connection], on a link without a socket, always
    returns.  It stops at the first attempt that succeeds, leaving the loop
    connected to the new socket with the failure count at zero; it waits two
    seconds between attempts and not after the last; and after three failed
    attempts it gives up, leaving the loop isolated and the failure count
    three higher. *)
Theorem initial_connection_three_attempts
    (clock : nat -> Q) (nets : nat -> Network) (w : World) :
  websocket (brain_link w) = None ->
  let o := _attempt_brain_connection clock nets w in
  result_of o = Ok tt /\
  (forall i h,
      i < 3 ->
      (forall j, j < i -> exists e, ws_connect (nets j) = Raise e) ->
      ws_connect (nets i) = Ok h ->
      trace_of o = attempt_trace i /\
      brain_connected (life (world_of o)) = true /\
      connected (brain_link (world_of o)) = true /\
      websocket (brain_link (world_of o)) = Some h /\
      connection_attempts (brain_link (world_of o)) = 0) /\
  ((forall j, j < 3 -> exists e, ws_connect (nets j) = Raise e) ->
   trace_of o = attempt_trace 2 /\
   brain_connected (life (world_of o)) = false /\
   brain_link (world_of o) =
     set_connection_attempts (3 + connection_attempts (brain_link w)) (brain_link w)).
Proof.
  intros Hw o. subst o. unfold _attempt_brain_connection.
  rewrite (attempts_from_step clock nets 3 0 2 w Hw).
  destruct (ws_connect (nets 0)) as [h0|e0] eqn:E0.
  { split; [reflexivity|]. split.
    - intros i h Hi Hf Hs. destruct i as [|i].
      + rewrite E0 in Hs. injection Hs as <-. repeat split.
      + destruct (Hf 0) as [e He]; [lia|]. congruence.
    - intros Hf. destruct (Hf 0) as [e He]; [lia|]. congruence. }
  cbv zeta.
  rewrite (attempts_from_step clock nets 3 1 1 (attempt_failed w)) by exact Hw.
  destruct (ws_connect (nets 1)) as [h1|e1] eqn:E1.
  { split; [reflexivity|]. split.
    - intros i h Hi Hf Hs. destruct i as [|[|i]].
      + congruence.
      + rewrite E1 in Hs. injection Hs as <-. repeat split.
      + destruct (Hf 1) as [e He]; [lia|]. congruence.
    - intros Hf. destruct (Hf 1) as [e He]; [lia|]. congruence. }
  cbv zeta.
  rewrite (attempts_from_step clock nets 3 2 0 (attempt_failed (attempt_failed w)))
    by exact Hw.
  destruct (ws_connect (nets 2)) as [h2|e2] eqn:E2.
  { split; [reflexivity|]. split.
    - intros i h Hi Hf Hs. destruct i as [|[|[|i]]]; try congruence; [|lia].
      rewrite E2 in Hs. injection Hs as <-. repeat split.
    - intros Hf. destruct (Hf 2) as [e He]; [lia|]. congruence. }
  split; [reflexivity|]. split.
  - intros i h Hi Hf Hs. destruct i as [|[|[|i]]]; try congruence. lia.
  - intros _. repeat split.
Qed.

Lemma initial_connection_three_attempts_witness :
  trace_of (_attempt_brain_connection ticking_clock (fun _ => refusing_network)
              World_init) =
  [EvConnect; EvSleep 2; EvConnect; EvSleep 2; EvConnect].
Proof.
  apply (proj2 (proj2 (initial_connection_three_attempts ticking_clock
                         (fun _ => refusing_network) World_init eq_refl))).
  intros j _. exists ConnectionRefusedError. reflexivity.
Defined.

(** *** Counting cycles and faults *)

Definition same_count (w w' : World) : Prop :=
  loop_count (life w') = loop_count (life w).

#[export] Instance count_frame : Frame same_count any_trace.
Proof.
  split; unfold same_count, any_trace; auto.
  - intros w1 w2 w3 A1 A2. congruence.
Qed.

Ltac count_side :=
  first
    [ exact I
    | solve [ unfold same_count; cbn; reflexivity ] ].

Section Counting.

Variable clock : nat -> Q.
Variable packb : pyval -> result bytes.
Variable unpackb : bytes -> result pyval.

Lemma cycle_body_count (env : CycleEnv) (loop_start : Q) :
  Respects same_count any_trace (cycle_body clock packb unpackb env loop_start).
Proof. unfold cycle_body, brain_or_autonomous. respects count_side. Qed.



(** One iteration: always completes, counts itself, and counts an error
    exactly when its [try] block raised. *)
Lemma cycle_counts (env : CycleEnv) (w : World) :
  result_of (cycle clock packb unpackb env w) = Ok tt /\
  loop_count (life (world_of (cycle clock packb unpackb env w))) =
    S (loop_count (life w)) /\
  communication_errors (life (world_of (cycle clock packb unpackb env w))) =
    match result_of (cycle_body clock packb unpackb env (clock (clock_reads w))
                       (cycle_start w)) with
    | Ok _ => communication_errors (life w)
    | Raise _ => S (communication_errors (life w))
    end.
Proof.
  destruct (cycle_body_count env (clock (clock_reads w)) (cycle_start w)) as [Hc _].
  destruct (cycle_body_errors clock packb unpackb env (clock (clock_reads w))
              (cycle_start w)) as [He _].
  rewrite cycle_outcome.
  unfold same_count, same_errors, result_of, world_of in *.
  destruct (cycle_body _ _ _ _ _ _) as [[[[]|e] w1] t1]; cbn in *;
    repeat split; congruence.
Qed.

Lemma cycles_count (envs : list CycleEnv) (w : World) :
  result_of (cycles clock packb unpackb envs w) = Ok tt /\
  loop_count (life (world_of (cycles clock packb unpackb envs w))) =
    loop_count (life w) + List.length envs /\
  communication_errors (life w) <=
    communication_errors (life (world_of (cycles clock packb unpackb envs w))) <=
    communication_errors (life w) + List.length envs.
Proof.
  revert w. induction envs as [|env envs IH]; intros w; cbn [cycles List.length].
  - cbn. repeat split; lia.
  - destruct (cycle_counts env w) as (Hr & Hc & He).
    rewrite run_bind, (outcome_eta (cycle clock packb unpackb env w)), Hr.
    cbn [result_of world_of trace_of fst snd].
    destruct (IH (world_of (cycle clock packb unpackb env w))) as (A & B & C).
    split; [exact A|]. split; [rewrite B, Hc; lia|].
    destruct (result_of (cycle_body _ _ _ _ _ _)); lia.
Qed.

End Counting.


(** X9. The communication-error counter counts the faulting iterations and
    nothing else: an iteration whose [try] block completes leaves it as it
    was, one whose [try] block raises adds one; so over any run of
    iterations it never decreases and grows at most by their number. *)
Theorem errors_count_faulting_cycles
    (clock : nat -> Q) (packb : pyval -> result bytes)
    (unpackb : bytes -> result pyval)
    (env : CycleEnv) (envs : list CycleEnv) (w : World) :
  communication_errors (life (world_of (cycle clock packb unpackb env w))) =
    match result_of (cycle_body clock packb unpackb env (clock (clock_reads w))
                       (cycle_start w)) with
    | Ok _ => communication_errors (life w)
    | Raise _ => S (communication_errors (life w))
    end /\
  communication_errors (life w) <=
    communication_errors (life (world_of (cycles clock packb unpackb envs w))) <=
    communication_errors (life w) + List.length envs.
Proof.
  split.
  - apply cycle_counts.
  - apply cycles_count.
Qed.

(** ** Iterations with one special step

    Many facts about an iteration have the same shape: a relation [Step]
    between the worlds before and after holds for the third phase, and the
    rest of the iteration respects a frame [R] that [Step] absorbs on both
    sides. *)

Section OneStep.

Context {R : World -> World -> Prop} `{!Frame R any_trace}.
Variable Step : World -> World -> Prop.

Hypothesis Step_of_R : forall w w', R w w' -> Step w w'.
Hypothesis Step_pre : forall w w1 w2, R w w1 -> Step w1 w2 -> Step w w2.
Hypothesis Step_post : forall w w1 w2, Step w w1 -> R w1 w2 -> Step w w2.

Lemma step_bind_pre {A B} (m : M A) (k : A -> M B) (w : World) :
  Respects R any_trace m ->
  (forall a w1, R w w1 -> Step w1 (world_of (k a w1))) ->
  Step w (world_of (bind m k w)).
Proof.
  intros Hm Hk. rewrite run_bind.
  destruct (Respects_outcome m w Hm) as (r & w1 & t1 & E & Hq & _).
  rewrite E. destruct r as [a|e]; unfold world_of; cbn [fst snd].
  - apply (Step_pre w w1); auto. now apply Hk.
  - now apply Step_of_R.
Qed.

Lemma step_bind_post {A B} (m : M A) (k : A -> M B) (w : World) :
  Step w (world_of (m w)) ->
  (forall a, Respects R any_trace (k a)) ->
  Step w (world_of (bind m k w)).
Proof.
  intros Hm Hk. rewrite run_bind.
  destruct (m w) as [[[a|e] w1] t1]; unfold world_of in *; cbn [fst snd] in *;
    [|exact Hm].
  destruct (Hk a w1) as [Hq _]. now apply (Step_post w w1).
Qed.

Lemma step_try_except {A} (m : M A) (handler : exn -> M A) (w : World) :
  Step w (world_of (m w)) ->
  (forall e, Respects R any_trace (handler e)) ->
  Step w (world_of (try_except m handler w)).
Proof.
  intros Hm Hh. rewrite run_try_except.
  destruct (m w) as [[[a|e] w1] t1]; unfold world_of in *; cbn [fst snd] in *;
    [exact Hm|].
  destruct (Hh e w1) as [Hq _]. now apply (Step_post w w1).
Qed.

Variable clock : nat -> Q.
Variable packb : pyval -> result bytes.
Variable unpackb : bytes -> result pyval.

Hypothesis R_clock : forall w, R w (with_clock_reads (S (clock_reads w)) w).
Hypothesis R_count :
  forall w, R w (with_life (fun s => set_loop_count (S (loop_count s)) s) w).
Hypothesis R_errors :
  forall w, R w (with_life (fun s => set_communication_errors
                                       (S (communication_errors s)) s) w).
Hypothesis Step_phase3 :
  forall env s w, Step w (world_of (brain_or_autonomous clock packb unpackb env s w)).

Lemma cycle_step (env : CycleEnv) (w : World) :
  Step w (world_of (cycle clock packb unpackb env w)).
Proof.
  assert (I1 : forall e, any_trace [e]) by (intros; exact I).
  unfold cycle.
  apply step_bind_pre; [now apply Respects_time_time|]. intros t w1 _.
  apply step_bind_pre; [now apply Respects_modify|]. intros [] w2 _.
  apply step_try_except.
  2:{ intros e. unfold cycle_handler, sleep.
      apply Respects_bind; [now apply Respects_emit|]. intros _.
      apply Respects_bind; [now apply Respects_modify|]. intros _.
      now apply Respects_emit. }
  unfold cycle_body.
  apply step_bind_pre; [now apply Respects_emit|]. intros [] w3 _.
  apply step_bind_pre; [apply Respects_lift|]. intros s w4 _.
  apply step_bind_pre; [now apply Respects_emit|]. intros [] w5 _.
  destruct (immediate_danger s).
  - apply Step_of_R.
    assert (H : Respects R any_trace (emit EvEmergencyStop ;; sleep 1)).
    { unfold sleep. apply Respects_bind; [now apply Respects_emit|]. intros _.
      now apply Respects_emit. }
    apply H.
  - apply step_bind_post; [apply Step_phase3|]. intros [].
    unfold _periodic_status_report, _log_status, _detailed_status_report,
      _maintain_loop_timing, sleep.
    respects ltac:(first [ exact I | apply R_clock ]).
Qed.

End OneStep.

(** *** The window of response times *)

(** What [_brain_interaction] does to the window with a new sample. *)
Definition window_push (rt : Q) (l : list Q) : list Q :=
  if Nat.ltb 100 (List.length (l ++ [rt])) then tl (l ++ [rt])%list
  else (l ++ [rt])%list.

Definition same_times (w w' : World) : Prop :=
  brain_response_times (life w') = brain_response_times (life w) /\
  clock_reads w <= clock_reads w'.

#[export] Instance times_frame : Frame same_times any_trace.
Proof.
  split; unfold same_times, any_trace; auto.
  - intros w1 w2 w3 [A1 B1] [A2 B2]. split; [congruence | lia].
Qed.

Ltac times_side :=
  first
    [ exact I
    | solve [ unfold same_times; cbn; split; [reflexivity | lia] ] ].

(** The window is as it was, or holds one more sample, the time between two
    readings of the clock. *)
Definition window_step (clock : nat -> Q) (w w' : World) : Prop :=
  clock_reads w <= clock_reads w' /\
  (brain_response_times (life w') = brain_response_times (life w) \/
   exists i j,
     clock_reads w <= i < j /\
     brain_response_times (life w') =
       window_push (clock j - clock i) (brain_response_times (life w))).

Section Window.

Variable clock : nat -> Q.
Variable packb : pyval -> result bytes.
Variable unpackb : bytes -> result pyval.

Lemma window_step_of_same (w w' : World) :
  same_times w w' -> window_step clock w w'.
Proof. intros [A B]. split; [exact B | now left]. Qed.

Lemma window_step_pre (w w1 w2 : World) :
  same_times w w1 -> window_step clock w1 w2 -> window_step clock w w2.
Proof.
  intros [A B] [C D]. split; [lia|]. rewrite <- A.
  destruct D as [D | (i & j & Hij & D)]; [now left|].
  right. exists i, j. split; [lia | exact D].
Qed.

Lemma window_step_post (w w1 w2 : World) :
  window_step clock w w1 -> same_times w1 w2 -> window_step clock w w2.
Proof.
  intros [C D] [A B]. split; [lia|]. rewrite A.
  destruct D as [D | (i & j & Hij & D)]; [now left|].
  right. exists i, j. split; [lia | exact D].
Qed.

Lemma _brain_interaction_window (n : Network) (s : SensorReading) (w : World) :
  window_step clock w (world_of (_brain_interaction clock packb unpackb n s w)).
Proof.
  rewrite _brain_interaction_body. unfold brain_interaction_body.
  rewrite bind_time_time, bind_emit. unfold world_of at 1. cbn [fst snd].
  rewrite run_bind.
  destruct (send_sensors_get_commands_cases clock packb unpackb n s
              (with_clock_reads (S (clock_reads w)) w)) as (r & Hr & He & _).
  rewrite (outcome_eta (send_sensors_get_commands _ _ _ _ _ _)), Hr.
  cbn [result_of world_of trace_of fst snd].
  rewrite bind_time_time, bind_modify, bind_get.
  set (w1 := world_of (send_sensors_get_commands clock packb unpackb n s
                         (with_clock_reads (S (clock_reads w)) w))) in *.
  assert (L : life w1 = life w /\ S (clock_reads w) <= clock_reads w1).
  { destruct He; cbn; split; auto. }
  destruct L as [L1 L2].
  cbn [life with_life with_clock_reads brain_response_times set_brain_response_times].
  destruct (Nat.ltb 100 _) eqn:E; unfold_monad; cbn; cbn in E;
    unfold window_step; cbn; (split; [lia|]); right; exists (clock_reads w), (clock_reads w1);
    (split; [lia|]); unfold window_push; rewrite <- L1, E; reflexivity.
Qed.

Lemma brain_or_autonomous_window (env : CycleEnv) (s : SensorReading) (w : World) :
  window_step clock w (world_of (brain_or_autonomous clock packb unpackb env s w)).
Proof.
  unfold brain_or_autonomous. rewrite bind_get.
  destruct (brain_connected (life w)).
  - apply (step_bind_post (R := same_times) (window_step clock) window_step_post).
    + apply _brain_interaction_window.
    + intros [c|]; unfold hw_execute, _handle_brain_disconnect, decide_action;
        respects times_side.
  - apply window_step_of_same.
    assert (H : Respects same_times any_trace
                  (emit (EvDecideAction s) ;;
                   c <- decide_action clock s ;;
                   hw_execute (hw env) c ;;
                   _periodic_brain_reconnection clock (net env))).
    { unfold hw_execute, decide_action, _periodic_brain_reconnection,
        isolation_start_or_now, connect.
      respects times_side. }
    apply H.
Qed.

Lemma cycle_window (env : CycleEnv) (w : World) :
  window_step clock w (world_of (cycle clock packb unpackb env w)).
Proof.
  apply (cycle_step (R := same_times) (window_step clock)
           window_step_of_same window_step_pre window_step_post
           clock packb unpackb).
  - intros w0. unfold same_times; cbn. split; [reflexivity | lia].
  - intros w0. unfold same_times; cbn. split; [reflexivity | lia].
  - intros w0. unfold same_times; cbn. split; [reflexivity | lia].
  - apply brain_or_autonomous_window.
Qed.

End Window.

Lemma window_push_spec (rt : Q) (l : list Q) :
  List.length l <= 100 ->
  (List.length l < 100 /\ window_push rt l = (l ++ [rt])%list) \/
  (List.length l = 100 /\ window_push rt l = (tl l ++ [rt])%list).
Proof.
  intros H. unfold window_push. rewrite length_app. cbn [List.length].
  destruct (Nat.ltb_spec 100 (List.length l + 1)) as [L | L].
  - right. split; [lia|]. destruct l as [|x l]; [cbn in L; lia | reflexivity].
  - left. split; [lia | reflexivity].
Qed.

Lemma window_push_length (rt : Q) (l : list Q) :
  List.length l <= 100 -> List.length (window_push rt l) <= 100.
Proof.
  intros H. destruct (window_push_spec rt l H) as [[L ->] | [L ->]];
    rewrite length_app; cbn [List.length]; [lia|].
  destruct l as [|x l]; cbn in *; lia.
Qed.

Lemma window_push_Forall (P : Q -> Prop) (rt : Q) (l : list Q) :
  List.length l <= 100 -> Forall P l -> P rt -> Forall P (window_push rt l).
Proof.
  intros H Hl Hrt. destruct (window_push_spec rt l H) as [[L ->] | [L ->]];
    apply Forall_app; split; auto.
  destruct Hl; [constructor | assumption].
Qed.

(** The window holds at most 100 samples, none negative. *)
Definition window_ok (w : World) : Prop :=
  List.length (brain_response_times (life w)) <= 100 /\
  Forall (fun rt => (0 <= rt)%Q) (brain_response_times (life w)).

Section WindowInvariant.

Variable clock : nat -> Q.
Variable packb : pyval -> result bytes.
Variable unpackb : bytes -> result pyval.

Lemma attempts_from_times (nets : nat -> Network) (max_attempts remaining attempt : nat) :
  Respects same_times any_trace
    (attempts_from clock nets max_attempts attempt remaining).
Proof.
  revert attempt. induction remaining as [|remaining IH]; intros attempt;
    cbn [attempts_from].
  - respects times_side.
  - pose proof (IH (S attempt)) as Hn. unfold sleep. respects times_side.
Qed.

Hypothesis clock_monotone : forall i j, i <= j -> (clock i <= clock j)%Q.

Lemma window_step_ok (w w' : World) :
  window_ok w -> window_step clock w w' -> window_ok w'.
Proof.
  intros [L F] [_ [E | (i & j & Hij & E)]]; unfold window_ok; rewrite E.
  - now split.
  - split; [now apply window_push_length|].
    apply window_push_Forall; auto.
    unfold Qminus. rewrite <- Qle_minus_iff. apply clock_monotone. lia.
Qed.

Lemma reachable_window_ok (w : World) :
  reachable clock packb unpackb w -> window_ok w.
Proof.
  induction 1 as [nets | env w _ IH].
  - destruct (attempts_from_times nets 3 3 0 World_init) as [[A _] _].
    unfold window_ok, _attempt_brain_connection. rewrite A. cbn.
    split; [lia | constructor].
  - apply (window_step_ok w); [exact IH|]. apply cycle_window.
Qed.

End WindowInvariant.

(** X10. The window of brain response times is bounded: in every state the
    loop can reach it holds at most 100 samples, none of them negative (over
    a clock that does not go back); and one iteration either leaves it as it
    was or appends one sample, dropping the oldest one when the window is
    full. *)
Theorem response_window_bounded
    (clock : nat -> Q) (packb : pyval -> result bytes)
    (unpackb : bytes -> result pyval)
    (clock_monotone : forall i j, i <= j -> (clock i <= clock j)%Q)
    (env : CycleEnv) (w : World) :
  reachable clock packb unpackb w ->
  let l := brain_response_times (life w) in
  let l' := brain_response_times (life (world_of (cycle clock packb unpackb env w))) in
  List.length l <= 100 /\
  (forall rt, In rt l -> (0 <= rt)%Q) /\
  (l' = l \/
   exists rt, (0 <= rt)%Q /\
     ((List.length l < 100 /\ l' = (l ++ [rt])%list) \/
      (List.length l = 100 /\ l' = (tl l ++ [rt])%list))).
Proof.
  intros Hr l l'.
  destruct (reachable_window_ok clock packb unpackb clock_monotone w Hr) as [L F].
  split; [exact L|]. split; [now apply Forall_forall|].
  destruct (cycle_window clock packb unpackb env w) as [_ [E | (i & j & Hij & E)]].
  - now left.
  - right. exists (clock j - clock i)%Q. split.
    + unfold Qminus. rewrite <- Qle_minus_iff. apply clock_monotone. lia.
    + subst l l'. rewrite E.
      destruct (window_push_spec (clock j - clock i) _ L) as [[A ->] | [A ->]];
        [left | right]; now split.
Qed.

Lemma response_window_bounded_witness :
  List.length
    (brain_response_times
       (life (world_of (_attempt_brain_connection ticking_clock
                          (fun _ => answering_network 7 []) World_init)))) <= 100.
Proof.
  exact (proj1 (response_window_bounded ticking_clock packb_empty
                  (unpackb_const PNone) ticking_clock_monotone
                  (quiet_env (answering_network 7 []))
                  (world_of (_attempt_brain_connection ticking_clock
                               (fun _ => answering_network 7 []) World_init))
                  (reachable_start ticking_clock packb_empty (unpackb_const PNone)
                     (fun _ => answering_network 7 [])))).
Defined.

(** *** The loop's flag and the link's flag *)

(** The loop believes it is connected exactly when the link says so, and a
    connected loop has a socket. *)
Definition agree (w : World) : Prop :=
  brain_connected (life w) = connected (brain_link w) /\
  (brain_connected (life w) = true -> websocket (brain_link w) <> None).

Definition agree_step (w w' : World) : Prop := agree w -> agree w'.

Lemma agree_same_session (w w' : World) : same_session w w' -> agree_step w w'.
Proof. intros [A B] [C D]. unfold agree. rewrite A, B. now split. Qed.

Section Agreement.

Variable clock : nat -> Q.
Variable packb : pyval -> result bytes.
Variable unpackb : bytes -> result pyval.

Lemma _brain_interaction_link (n : Network) (s : SensorReading) (w : World) :
  exists mc w1 t1,
    _brain_interaction clock packb unpackb n s w = (Ok mc, w1, t1) /\
    brain_connected (life w1) = brain_connected (life w) /\
    websocket (brain_link w1) = websocket (brain_link w) /\
    (mc <> None -> connected (brain_link w1) = connected (brain_link w)).
Proof.
  rewrite _brain_interaction_body. unfold brain_interaction_body.
  rewrite bind_time_time, bind_emit, run_bind.
  destruct (send_sensors_get_commands_cases clock packb unpackb n s
              (with_clock_reads (S (clock_reads w)) w)) as (r & Hr & He & _).
  rewrite (outcome_eta (send_sensors_get_commands _ _ _ _ _ _)), Hr.
  cbn [result_of world_of trace_of fst snd].
  rewrite bind_time_time, bind_modify, bind_get.
  set (w1 := world_of (send_sensors_get_commands clock packb unpackb n s
                         (with_clock_reads (S (clock_reads w)) w))) in *.
  assert (L : brain_connected (life w1) = brain_connected (life w) /\
              websocket (brain_link w1) = websocket (brain_link w) /\
              (r <> None -> connected (brain_link w1) = connected (brain_link w))).
  { destruct He; cbn; repeat split; congruence. }
  destruct L as (L1 & L2 & L3).
  cbn [life with_life with_clock_reads brain_response_times set_brain_response_times].
  destruct (Nat.ltb 100 _); unfold_monad; cbn;
    eexists _, _, _; (split; [reflexivity|]); cbn; auto.
Qed.

Lemma _periodic_brain_reconnection_agree (n : Network) (w : World) :
  agree w ->
  agree (world_of (_periodic_brain_reconnection clock n w)).
Proof.
  intros Ha. unfold _periodic_brain_reconnection. rewrite bind_get.
  destruct (Nat.eqb _ _); [|exact Ha].
  rewrite run_try_except, run_bind.
  assert (C : (exists h, old_socket_closes n w /\ ws_connect n = Ok h) \/
              ((exists e, ws_connect n = Raise e) \/
               (websocket (brain_link w) <> None /\ exists e, ws_close n = Raise e))).
  { destruct (ws_connect n) as [h|e]; [|right; left; eauto].
    destruct (websocket (brain_link w)) as [h'|] eqn:Hw.
    - destruct (ws_close n) as [[]|e] eqn:Hc.
      + left. exists h. split; [now right | reflexivity].
      + right. right. split; [discriminate | eauto].
    - left. exists h. split; [now left | reflexivity]. }
  destruct C as [(h & Hc & Hn) | Hf].
  - destruct (connect_success clock n w h Hc Hn) as (Hr & _ & _ & B & C & D).
    rewrite (outcome_eta (connect clock n w)), Hr.
    cbn [result_of world_of trace_of fst snd].
    set (w1 := world_of (connect clock n w)) in *.
    unfold isolation_start_or_now. unfold_monad. cbn.
    destruct (isolation_start_time (life w1)) as [t0|]; cbn;
      [destruct (negb (Qeq_bool t0 0)); cbn|];
      unfold agree; cbn; rewrite B, C; (split; [reflexivity | discriminate]).
  - destruct (connect_failure clock n w Hf) as (Hr & _ & B & C & _ & D & _).
    rewrite (outcome_eta (connect clock n w)), Hr.
    cbn [result_of world_of trace_of fst snd].
    destruct Ha as [A1 A2]. unfold agree. cbn. rewrite B, C, D. now split.
Qed.

Lemma brain_or_autonomous_agree (env : CycleEnv) (s : SensorReading) (w : World) :
  agree_step w (world_of (brain_or_autonomous clock packb unpackb env s w)).
Proof.
  intros Ha. unfold brain_or_autonomous. rewrite bind_get.
  destruct (brain_connected (life w)) eqn:Hbc.
  - destruct (_brain_interaction_link (net env) s w)
      as (mc & w1 & t1 & E & L1 & L2 & L3).
    destruct Ha as [A1 A2].
    rewrite run_bind, E. unfold world_of at 1. cbn [fst snd].
    destruct mc as [c|].
    + assert (H : Respects same_session any_trace
                    (hw_execute (hw env) c ;;
                     t <- time_time clock ;;
                     modify (with_life (set_last_brain_contact t)) ;;
                     _reset_isolation_timer)).
      { unfold hw_execute, _reset_isolation_timer. respects session_side. }
      apply (agree_same_session w1); [apply H|].
      unfold agree. rewrite L1, L2, L3 by discriminate.
      rewrite Hbc in *. split; [exact A1 | exact A2].
    + destruct (websocket (brain_link w)) as [h|] eqn:Hw;
        [|exfalso; now apply A2].
      destruct (_handle_brain_disconnect_closes clock w1 h)
        as (w2 & E2 & B1 & B2 & B3); [congruence | congruence |].
      rewrite run_bind, E2. unfold world_of at 1. cbn [fst snd].
      assert (H : Respects same_session any_trace
                    (emit (EvDecideAction s) ;;
                     c <- decide_action clock s ;; hw_execute (hw env) c)).
      { unfold hw_execute, decide_action. respects session_side. }
      apply (agree_same_session w2); [apply H|].
      unfold agree. rewrite B1, B2. split; [reflexivity | discriminate].
  - rewrite bind_emit. unfold world_of at 1. cbn [fst snd].
    rewrite run_bind.
    destruct (Total_Respects_outcome (decide_action clock s) w
                (decide_action_Total clock s) (decide_action_session clock s))
      as (c & w1 & t1 & E & H1 & _).
    rewrite E. unfold world_of at 1. cbn [fst snd].
    rewrite run_bind.
    destruct (Respects_outcome (hw_execute (hw env) c) w1
                (hw_execute_session (hw env) c))
      as (r & w2 & t2 & E2 & H2 & _).
    rewrite E2.
    assert (A2 : agree w2).
    { apply (agree_same_session w1 w2 H2), (agree_same_session w w1 H1), Ha. }
    destruct r as [[]|e]; unfold world_of; cbn [fst snd]; [|exact A2].
    now apply _periodic_brain_reconnection_agree.
Qed.

Lemma cycle_agree (env : CycleEnv) (w : World) :
  agree w -> agree (world_of (cycle clock packb unpackb env w)).
Proof.
  apply (cycle_step (R := same_session) agree_step).
  - apply agree_same_session.
  - intros w0 w1 w2 H1 H2 Ha. apply H2, (agree_same_session w0 w1 H1), Ha.
  - intros w0 w1 w2 H1 H2 Ha. apply (agree_same_session w1 w2 H2), H1, Ha.
  - intros w0. unfold same_session; cbn. now split.
  - intros w0. unfold same_session; cbn. now split.
  - intros w0. unfold same_session; cbn. now split.
  - apply brain_or_autonomous_agree.
Qed.

Lemma attempts_from_agree (nets : nat -> Network) (max_attempts remaining attempt : nat)
    (w : World) :
  websocket (brain_link w) = None ->
  connected (brain_link w) = false ->
  agree (world_of (attempts_from clock nets max_attempts attempt remaining w)).
Proof.
  revert attempt w. induction remaining as [|remaining IH]; intros attempt w Hw Hc.
  - cbn. unfold agree. cbn. rewrite Hc. split; [reflexivity | discriminate].
  - rewrite (attempts_from_step clock nets max_attempts attempt remaining w Hw).
    destruct (ws_connect (nets attempt)) as [h|e].
    + unfold agree, world_of. cbn. split; [reflexivity | discriminate].
    + cbv zeta. unfold world_of at 1. cbn [fst snd]. apply IH; assumption.
Qed.

Lemma reachable_agree (w : World) :
  reachable clock packb unpackb w -> agree w.
Proof.
  induction 1 as [nets | env w _ IH].
  - now apply attempts_from_agree.
  - now apply cycle_agree.
Qed.

End Agreement.

(** X11. In every state the loop can reach, the loop's connected flag and
    the link's connected flag agree, and a connected loop holds a socket: the
    loop never calls the exchange on a link that would refuse it for lack of
    a session. *)
Theorem loop_and_link_agree
    (clock : nat -> Q) (packb : pyval -> result bytes)
    (unpackb : bytes -> result pyval) (w : World) :
  reachable clock packb unpackb w ->
  brain_connected (life w) = connected (brain_link w) /\
  (brain_connected (life w) = true ->
   exists h, websocket (brain_link w) = Some h) /\
  (brain_connected (life w) = true ->
   negb (connected (brain_link w)) || negb (isSome (websocket (brain_link w))) =
     false).
Proof.
  intros Hr. destruct (reachable_agree clock packb unpackb w Hr) as [A B].
  split; [exact A|]. split.
  - intros Hb. destruct (websocket (brain_link w)) as [h|]; [eauto|].
    exfalso. now apply B.
  - intros Hb. rewrite <- A, Hb. cbn.
    destruct (websocket (brain_link w)); [reflexivity|]. exfalso. now apply B.
Qed.

Lemma loop_and_link_agree_witness :
  brain_connected
    (life (world_of (cycle ticking_clock packb_empty (unpackb_const PNone)
                       (quiet_env (closed_network 7))
                       (world_of (_attempt_brain_connection ticking_clock
                                    (fun _ => answering_network 7 []) World_init))))) =
  connected
    (brain_link (world_of (cycle ticking_clock packb_empty (unpackb_const PNone)
                             (quiet_env (closed_network 7))
                             (world_of (_attempt_brain_connection ticking_clock
                                          (fun _ => answering_network 7 [])
                                          World_init))))).
Proof.
  exact (proj1 (loop_and_link_agree ticking_clock packb_empty (unpackb_const PNone) _
                  (reachable_cycle ticking_clock packb_empty (unpackb_const PNone)
                     (quiet_env (closed_network 7)) _
                     (reachable_start ticking_clock packb_empty (unpackb_const PNone)
                        (fun _ => answering_network 7 []))))).
Defined.

(** ** Frames from a given world *)

Definition RespectsAt (R : World -> World -> Prop) (T : list event -> Prop)
    {A} (m : M A) (w : World) : Prop :=
  R w (world_of (m w)) /\ T (trace_of (m w)).

Section FrameAt.

Context {R : World -> World -> Prop} {T : list event -> Prop} `{!Frame R T}.

Lemma at_of_Respects {A} (m : M A) (w : World) :
  Respects R T m -> RespectsAt R T m w.
Proof. intros H. apply H. Qed.

Lemma at_bind {A B} (m : M A) (k : A -> M B) (w : World) :
  Respects R T m ->
  (forall a w1, R w w1 -> RespectsAt R T (k a) w1) ->
  RespectsAt R T (bind m k) w.
Proof.
  intros Hm Hk. unfold RespectsAt. rewrite run_bind.
  destruct (Respects_outcome m w Hm) as (r & w1 & t1 & E & Hq & Ht).
  rewrite E. destruct r as [a|e]; unfold world_of, trace_of; cbn [fst snd];
    [|now split].
  destruct (Hk a w1 Hq) as [Hq' Ht'].
  split; [eapply frame_trans; eassumption | now apply frame_app].
Qed.

Lemma at_bind_post {A B} (m : M A) (k : A -> M B) (w : World) :
  RespectsAt R T m w ->
  (forall a, Respects R T (k a)) ->
  RespectsAt R T (bind m k) w.
Proof.
  intros [Hq Ht] Hk. unfold RespectsAt. rewrite run_bind.
  destruct (m w) as [[[a|e] w1] t1]; unfold world_of, trace_of in *;
    cbn [fst snd] in *; [|now split].
  destruct (Hk a w1) as [Hq' Ht'].
  split; [eapply frame_trans; eassumption | now apply frame_app].
Qed.

Lemma at_try_except {A} (m : M A) (handler : exn -> M A) (w : World) :
  RespectsAt R T m w ->
  (forall e, Respects R T (handler e)) ->
  RespectsAt R T (try_except m handler) w.
Proof.
  intros [Hq Ht] Hh. unfold RespectsAt. rewrite run_try_except.
  destruct (m w) as [[[a|e] w1] t1]; unfold world_of, trace_of in *;
    cbn [fst snd] in *; [now split|].
  destruct (Hh e w1) as [Hq' Ht'].
  split; [eapply frame_trans; eassumption | now apply frame_app].
Qed.

Lemma at_get {A} (k : World -> M A) (w : World) :
  RespectsAt R T (k w) w -> RespectsAt R T (bind get k) w.
Proof. unfold RespectsAt. now rewrite bind_get. Qed.

End FrameAt.

(** *** Isolated cycles *)

(** The events that go to the decision service. *)
Definition network_event (e : event) : bool :=
  match e with
  | EvExchange _ | EvSend _ | EvRecv | EvConnect | EvClose _ => true
  | _ => false
  end.

Definition offline (t : list event) : Prop :=
  forall e, In e t -> network_event e = false.

Definition same_link (w w' : World) : Prop :=
  brain_connected (life w') = brain_connected (life w) /\
  brain_link w' = brain_link w /\
  loop_count (life w') = loop_count (life w) /\
  isolation_start_time (life w') = isolation_start_time (life w).

#[export] Instance offline_frame : Frame same_link offline.
Proof.
  split; unfold same_link, offline.
  - intros w. repeat split.
  - intros w1 w2 w3 (A1 & B1 & C1 & D1) (A2 & B2 & C2 & D2).
    repeat split; congruence.
  - intros e [].
  - intros t1 t2 H1 H2 e He. apply in_app_or in He. destruct He; auto.
Qed.

Ltac offline_side :=
  first
    [ solve [ unfold same_link; cbn; repeat split ]
    | solve [ intros ? [<- | []]; reflexivity ] ].

(** The command of the fallback policy for a reading. *)
Definition fallback_command (sensors : SensorReading) : MotorCommand :=
  if (ultrasonic_distance sensors <? 30)%float then _avoid_obstacle
  else if (battery_voltage sensors <? 11.5)%float then _seek_power
  else _explore.

Section IsolatedCycle.

Variable clock : nat -> Q.
Variable packb : pyval -> result bytes.
Variable unpackb : bytes -> result pyval.

Lemma decide_action_run (s : SensorReading) (w : World) :
  exists w1,
    decide_action clock s w = (Ok (fallback_command s), w1, []) /\
    same_link w w1.
Proof.
  unfold decide_action, fallback_command. unfold_monad.
  destruct (autonomous_isolation_start_time w); cbn;
    destruct (ultrasonic_distance s <? 30)%float;
    try destruct (battery_voltage s <? 11.5)%float;
    eexists; (split; [reflexivity|]); unfold same_link; cbn; repeat split.
Qed.

Lemma brain_or_autonomous_offline (env : CycleEnv) (s : SensorReading) (w : World) :
  brain_connected (life w) = false ->
  loop_count (life w) mod (30 * Config.LIFE_LOOP_FREQUENCY) <> 0 ->
  RespectsAt same_link offline (brain_or_autonomous clock packb unpackb env s) w.
Proof.
  intros Hbc Hcad. unfold brain_or_autonomous. apply at_get. rewrite Hbc.
  apply at_bind; [respects offline_side|]. intros [] w1 H1.
  apply at_bind; [unfold decide_action; respects offline_side|]. intros c w2 H2.
  apply at_bind; [unfold hw_execute; respects offline_side|]. intros [] w3 H3.
  unfold _periodic_brain_reconnection. apply at_get.
  assert (C : loop_count (life w3) = loop_count (life w)).
  { destruct H1 as (_ & _ & C1 & _), H2 as (_ & _ & C2 & _), H3 as (_ & _ & C3 & _).
    congruence. }
  rewrite C. destruct (Nat.eqb_spec (loop_count (life w) mod (30 * Config.LIFE_LOOP_FREQUENCY)) 0);
    [contradiction|].
  apply at_of_Respects. apply Respects_ret.
Qed.

Lemma cycle_offline (env : CycleEnv) (w : World) :
  brain_connected (life w) = false ->
  S (loop_count (life w)) mod (30 * Config.LIFE_LOOP_FREQUENCY) <> 0 ->
  RespectsAt same_link offline
    (try_except (cycle_body clock packb unpackb env (clock (clock_reads w)))
       cycle_handler)
    (cycle_start w).
Proof.
  intros Hbc Hcad. apply at_try_except.
  2:{ intros e. unfold cycle_handler, sleep. respects offline_side. }
  unfold cycle_body.
  apply at_bind; [respects offline_side|]. intros [] w1 H1.
  apply at_bind; [respects offline_side|]. intros s w2 H2.
  apply at_bind; [respects offline_side|]. intros [] w3 H3.
  assert (C : brain_connected (life w3) = false /\
              loop_count (life w3) = S (loop_count (life w))).
  { destruct H1 as (A1 & _ & C1 & _), H2 as (A2 & _ & C2 & _), H3 as (A3 & _ & C3 & _).
    split; [cbn in *; congruence|]. cbn in *. congruence. }
  destruct C as [C1 C2].
  destruct (immediate_danger s).
  - apply at_of_Respects. unfold sleep. respects offline_side.
  - apply at_bind_post.
    + apply brain_or_autonomous_offline; [exact C1 | now rewrite C2].
    + intros []. unfold _periodic_status_report, _log_status,
        _detailed_status_report, _maintain_loop_timing, sleep.
      respects offline_side.
Qed.

End IsolatedCycle.

Lemma brain_or_autonomous_isolated_trace
    (clock : nat -> Q) (packb : pyval -> result bytes)
    (unpackb : bytes -> result pyval)
    (env : CycleEnv) (s : SensorReading) (w : World) :
  brain_connected (life w) = false ->
  exists rest,
    trace_of (brain_or_autonomous clock packb unpackb env s w) =
    (EvDecideAction s :: EvExecuteMotorCommands (fallback_command s) :: rest)%list.
Proof.
  intros Hbc. unfold brain_or_autonomous. rewrite bind_get, Hbc, bind_emit.
  unfold trace_of at 1. cbn [snd]. rewrite run_bind.
  destruct (decide_action_run clock s w) as (w1 & E & _). rewrite E.
  unfold trace_of at 1. cbn [snd app]. rewrite run_bind.
  unfold hw_execute at 1. rewrite bind_emit.
  destruct (result_of _); unfold trace_of at 1; cbn [snd app];
    eexists; reflexivity.
Qed.

(** X12. An isolated loop, in an iteration that is not one of every 300th,
    stays away from the network: it neither connects nor sends, the link and
    the isolation start time are as they were, and the loop is still
    isolated.  With a safe reading the motors get the command of the
    fallback policy for that reading. *)
Theorem isolated_cycle_is_offline
    (clock : nat -> Q) (packb : pyval -> result bytes)
    (unpackb : bytes -> result pyval) (env : CycleEnv) (w : World) :
  brain_connected (life w) = false ->
  S (loop_count (life w)) mod 300 <> 0 ->
  let o := cycle clock packb unpackb env w in
  brain_connected (life (world_of o)) = false /\
  brain_link (world_of o) = brain_link w /\
  isolation_start_time (life (world_of o)) = isolation_start_time (life w) /\
  (forall e, In e (trace_of o) -> network_event e = false) /\
  (forall s, read_sensors (hw env) = Ok s -> immediate_danger s = false ->
     exists rest,
       trace_of o =
       ([EvReadSensors; EvImmediateDanger false; EvDecideAction s;
         EvExecuteMotorCommands (fallback_command s)] ++ rest)%list).
Proof.
  intros Hbc Hcad o. subst o.
  destruct (cycle_offline clock packb unpackb env w Hbc Hcad)
    as [(A & B & _ & D) Ht].
  rewrite <- cycle_unfold in A, B, D, Ht.
  split; [rewrite A; exact Hbc|]. split; [exact B|]. split; [exact D|].
  split; [exact Ht|].
  intros s Hr Hs. rewrite cycle_outcome.
  rewrite (cycle_body_safe clock packb unpackb env _ _ s Hr Hs).
  destruct (bind_then_frame (R := same_session) (T := any_trace)
              (brain_or_autonomous clock packb unpackb env s)
              (fun _ => _periodic_status_report clock (hw env) ;;
                        _maintain_loop_timing clock (clock (clock_reads w)))%monad
              (cycle_start w))
    as (_ & (rest' & Ht')).
  { intros _. apply status_and_timing_session. }
  destruct (brain_or_autonomous_isolated_trace clock packb unpackb env s
              (cycle_start w) Hbc) as (rest & Hb).
  rewrite Ht', Hb.
  destruct (result_of _) as [[]|e]; unfold trace_of; cbn [snd];
    eexists; cbn; rewrite <- ?app_assoc; reflexivity.
Qed.

Lemma isolated_cycle_is_offline_witness :
  brain_link (world_of (cycle ticking_clock packb_empty (unpackb_const PNone)
                          (quiet_env (answering_network 7 [])) World_init)) =
  brain_link World_init.
Proof.
  refine (proj1 (proj2 (isolated_cycle_is_offline ticking_clock packb_empty
                          (unpackb_const PNone) (quiet_env (answering_network 7 []))
                          World_init eq_refl _))).
  cbn. discriminate.
Defined.

(** *** Reconnection *)

Section Reconnection.

Variable clock : nat -> Q.
Variable packb : pyval -> result bytes.
Variable unpackb : bytes -> result pyval.

Lemma _periodic_brain_reconnection_success (n : Network) (w : World) (h : ws_handle) :
  loop_count (life w) mod (30 * Config.LIFE_LOOP_FREQUENCY) = 0 ->
  old_socket_closes n w ->
  ws_connect n = Ok h ->
  let o := _periodic_brain_reconnection clock n w in
  result_of o = Ok tt /\
  brain_connected (life (world_of o)) = true /\
  isolation_start_time (life (world_of o)) = None /\
  connected (brain_link (world_of o)) = true /\
  websocket (brain_link (world_of o)) = Some h /\
  connection_attempts (brain_link (world_of o)) = 0 /\
  exists d, In (EvReconnected d) (trace_of o).
Proof.
  intros Hcad Hc Hn o. subst o. unfold _periodic_brain_reconnection.
  rewrite bind_get, Hcad. cbn [Nat.eqb].
  rewrite run_try_except, run_bind.
  destruct (connect_success clock n w h Hc Hn) as (Hr & A & _ & B & C & D).
  rewrite (outcome_eta (connect clock n w)), Hr.
  cbn [result_of world_of trace_of fst snd].
  set (w1 := world_of (connect clock n w)) in *.
  unfold isolation_start_or_now. unfold_monad. cbn.
  destruct (isolation_start_time (life w1)) as [t0|]; cbn;
    [destruct (negb (Qeq_bool t0 0)); cbn|];
    repeat split; auto;
    eexists; apply in_or_app; right; left; reflexivity.
Qed.

Lemma _periodic_brain_reconnection_failure (n : Network) (w : World) (e : exn) :
  loop_count (life w) mod (30 * Config.LIFE_LOOP_FREQUENCY) = 0 ->
  ws_connect n = Raise e ->
  let o := _periodic_brain_reconnection clock n w in
  result_of o = Ok tt /\
  life (world_of o) = life w /\
  connection_attempts (brain_link (world_of o)) =
    S (connection_attempts (brain_link w)) /\
  connected (brain_link (world_of o)) = connected (brain_link w) /\
  no_report (trace_of o).
Proof.
  intros Hcad Hn o. subst o. unfold _periodic_brain_reconnection.
  rewrite bind_get, Hcad. cbn [Nat.eqb].
  rewrite run_try_except, run_bind.
  destruct (connect_failure clock n w) as (Hr & A & B & _ & _ & D & _);
    [left; eauto|].
  destruct (connect_Quiet clock n w) as [_ Ht].
  rewrite (outcome_eta (connect clock n w)), Hr.
  cbn [result_of world_of trace_of fst snd].
  repeat split; auto. now rewrite app_nil_r.
Qed.

(** An isolated iteration with a safe reading whose command the hardware
    takes: what comes before the reconnection step. *)
Lemma brain_or_autonomous_until_reconnection
    (env : CycleEnv) (s : SensorReading) (w : World) (b : bool) :
  brain_connected (life w) = false ->
  execute_motor_commands (hw env) (fallback_command s) = Ok b ->
  exists w1,
    same_link w w1 /\
    brain_or_autonomous clock packb unpackb env s w =
    (result_of (_periodic_brain_reconnection clock (net env) w1),
     world_of (_periodic_brain_reconnection clock (net env) w1),
     EvDecideAction s :: EvExecuteMotorCommands (fallback_command s) ::
       trace_of (_periodic_brain_reconnection clock (net env) w1)).
Proof.
  intros Hbc Hx. unfold brain_or_autonomous.
  destruct (decide_action_run clock s w) as (w1 & E & H1).
  exists w1. split; [exact H1|].
  rewrite bind_get, Hbc, bind_emit, run_bind, E.
  unfold hw_execute. rewrite run_bind, bind_emit, run_bind, Hx.
  unfold lift at 1. unfold ret at 1.
  unfold result_of, world_of, trace_of; cbn [fst snd app]. reflexivity.
Qed.

End Reconnection.

Lemma status_and_timing_offline (clock : nat -> Q) (h : Hardware) (loop_start : Q) :
  Respects same_link offline
    (_periodic_status_report clock h ;; _maintain_loop_timing clock loop_start).
Proof.
  unfold _periodic_status_report, _log_status, _detailed_status_report,
    _maintain_loop_timing, sleep.
  respects offline_side.
Qed.

(** X13. Every 300th iteration an isolated loop, once the motors have taken
    the fallback command, tries to reconnect.  If the connection opens, the
    iteration ends connected, with the new socket, the failure count at zero
    and the isolation start time cleared, and reports the isolation
    duration; if it does not, the loop stays isolated, its isolation start
    time as it was, and the failure count one higher. *)
Theorem reconnection_every_300_cycles
    (clock : nat -> Q) (packb : pyval -> result bytes)
    (unpackb : bytes -> result pyval) (env : CycleEnv) (w : World)
    (s : SensorReading) (b : bool) :
  brain_connected (life w) = false ->
  S (loop_count (life w)) mod 300 = 0 ->
  read_sensors (hw env) = Ok s ->
  immediate_danger s = false ->
  execute_motor_commands (hw env) (fallback_command s) = Ok b ->
  let o := cycle clock packb unpackb env w in
  (forall h, old_socket_closes (net env) w -> ws_connect (net env) = Ok h ->
     brain_connected (life (world_of o)) = true /\
     isolation_start_time (life (world_of o)) = None /\
     connected (brain_link (world_of o)) = true /\
     websocket (brain_link (world_of o)) = Some h /\
     connection_attempts (brain_link (world_of o)) = 0 /\
     exists d, In (EvReconnected d) (trace_of o)) /\
  (forall e, ws_connect (net env) = Raise e ->
     brain_connected (life (world_of o)) = false /\
     isolation_start_time (life (world_of o)) = isolation_start_time (life w) /\
     connection_attempts (brain_link (world_of o)) =
       S (connection_attempts (brain_link w))).
Proof.
  intros Hbc Hcad Hr Hs Hx o. subst o.
  destruct (brain_or_autonomous_until_reconnection clock packb unpackb env s
              (cycle_start w) b Hbc Hx) as (w1 & (A1 & B1 & C1 & D1) & E).
  destruct (bind_then_frame (R := same_link) (T := offline)
              (brain_or_autonomous clock packb unpackb env s)
              (fun _ => _periodic_status_report clock (hw env) ;;
                        _maintain_loop_timing clock (clock (clock_reads w)))%monad
              (cycle_start w))
    as ((A2 & B2 & C2 & D2) & (rest & Ht)).
  { intros _. apply status_and_timing_offline. }
  assert (Hcad1 : loop_count (life w1) mod (30 * Config.LIFE_LOOP_FREQUENCY) = 0).
  { rewrite C1. exact Hcad. }
  rewrite cycle_outcome.
  rewrite (cycle_body_safe clock packb unpackb env _ _ s Hr Hs).
  set (X := (brain_or_autonomous clock packb unpackb env s ;;
             _periodic_status_report clock (hw env) ;;
             _maintain_loop_timing clock (clock (clock_reads w)))%monad
              (cycle_start w)) in *.
  rewrite E in A2, B2, D2, Ht.
  split.
  - intros h Hc Hn.
    destruct (_periodic_brain_reconnection_success clock (net env) w1 h Hcad1)
      as (_ & P1 & P2 & P3 & P4 & P5 & (d & P6)); auto.
    { destruct Hc as [Hc | Hc]; [left | now right]. now rewrite B1. }
    unfold world_of, trace_of, result_of in *. cbn [fst snd] in *.
    rewrite Ht.
    destruct (fst (fst X)) as [[]|e]; cbn [fst snd];
      cbn [life brain_link with_life brain_connected isolation_start_time
             set_communication_errors];
      rewrite A2, B2, D2; repeat split; auto;
      exists d; right; right; right; right;
      rewrite <- ?app_assoc; apply in_or_app; left; exact P6.
  - intros e Hn.
    destruct (_periodic_brain_reconnection_failure clock (net env) w1 e Hcad1 Hn)
      as (_ & P1 & P2 & P3 & _).
    unfold world_of, trace_of, result_of in *. cbn [fst snd] in *.
    destruct (fst (fst X)) as [[]|e']; cbn [fst snd];
      cbn [life brain_link with_life brain_connected isolation_start_time
             set_communication_errors];
      rewrite A2, B2, D2, P1, P2, B1, A1, D1; repeat split; auto.
Qed.

Lemma reconnection_every_300_cycles_witness :
  brain_connected
    (life (world_of
             (cycle ticking_clock packb_empty (unpackb_const PNone)
                (quiet_env (answering_network 7 []))
                (with_life (set_loop_count 299) World_init)))) = true.
Proof.
  refine (proj1 (proj1 (reconnection_every_300_cycles ticking_clock packb_empty
                          (unpackb_const PNone) (quiet_env (answering_network 7 []))
                          (with_life (set_loop_count 299) World_init)
                          safe_reading true eq_refl eq_refl eq_refl eq_refl eq_refl)
                   7 _ eq_refl)).
  left. reflexivity.
Defined.

(** *** An answered exchange *)

Definition no_decide (t : list event) : Prop :=
  forall e, In e t -> forall s, e <> EvDecideAction s.

#[export] Instance session_no_decide_frame : Frame same_session no_decide.
Proof.
  split; unfold same_session, no_decide.
  - auto.
  - intros w1 w2 w3 [A1 B1] [A2 B2]. split; congruence.
  - intros e [].
  - intros t1 t2 H1 H2 e He. apply in_app_or in He. destruct He; auto.
Qed.

Ltac no_decide_side :=
  first
    [ solve [ unfold same_session; cbn; repeat split ]
    | solve [ intros ? [<- | []] ? Q; discriminate Q ] ].

(** The command decoded from the [data] of a [MOTOR_COMMANDS] reply. *)
Definition decoded_command (motor_data : list (string * pyval)) : MotorCommand :=
  let field k default :=
    match dict_get motor_data k with Some v => v | None => default end in
  {| motor_left_pwm := field "motor_left_pwm" (PInt 1500);
     motor_right_pwm := field "motor_right_pwm" (PInt 1500);
     servo_camera_pwm := field "servo_camera_pwm" (PInt 1500);
     buzzer_active := field "buzzer_active" (PBool false) |}.

(** A transport and codec that deliver a [MOTOR_COMMANDS] reply with the
    fields [motor_data] to the request for reading [s]. *)
Definition answers_with (packb : pyval -> result bytes)
    (unpackb : bytes -> result pyval) (n : Network) (s : SensorReading)
    (packed : bytes) (motor_data : list (string * pyval)) : Prop :=
  packb (sensor_message s) = Ok packed /\
  ws_send n packed = Ok tt /\
  exists raw response,
    ws_recv n = Ok raw /\
    unpackb raw = Ok (PDict response) /\
    reply_type response = PStr "MOTOR_COMMANDS" /\
    py_get (PDict response) "data" (PDict []) = Ok (PDict motor_data).

Section AnsweredExchange.

Variable clock : nat -> Q.
Variable packb : pyval -> result bytes.
Variable unpackb : bytes -> result pyval.

Lemma send_sensors_get_commands_answered
    (n : Network) (s : SensorReading) (w : World) (h : ws_handle)
    (packed : bytes) (motor_data : list (string * pyval)) :
  connected (brain_link w) = true ->
  websocket (brain_link w) = Some h ->
  answers_with packb unpackb n s packed motor_data ->
  send_sensors_get_commands clock packb unpackb n s w =
  (Ok (Some (decoded_command motor_data)),
   with_brain_link (set_last_successful_contact (clock (clock_reads w)))
     (with_clock_reads (S (clock_reads w))
        (with_brain_link (fun k => set_message_count (S (message_count k)) k) w)),
   [EvSend packed; EvRecv]).
Proof.
  intros Hc Hw (Hp & Hs & raw & response & Hr & Hu & Ht & Hd).
  unfold send_sensors_get_commands. unfold_monad.
  rewrite Hc, Hw. cbn [negb orb isSome].
  rewrite Hp. cbn iota beta. rewrite Hs. cbn iota beta.
  rewrite Hr. cbn iota beta. rewrite Hu. cbn iota beta.
  rewrite Hd.
  unfold py_get at 1 2. fold (reply_type response). rewrite Ht.
  replace (py_eq_str (PStr "MOTOR_COMMANDS") "MOTOR_COMMANDS") with true
    by (symmetry; now apply py_eq_str_true).
  unfold py_get. cbn iota beta. reflexivity.
Qed.

Lemma _brain_interaction_answered
    (n : Network) (s : SensorReading) (w : World) (h : ws_handle)
    (packed : bytes) (motor_data : list (string * pyval)) :
  connected (brain_link w) = true ->
  websocket (brain_link w) = Some h ->
  answers_with packb unpackb n s packed motor_data ->
  exists w1,
    _brain_interaction clock packb unpackb n s w =
      (Ok (Some (decoded_command motor_data)), w1,
       [EvExchange s; EvSend packed; EvRecv]) /\
    brain_connected (life w1) = brain_connected (life w) /\
    connected (brain_link w1) = true /\
    websocket (brain_link w1) = Some h /\
    message_count (brain_link w1) = S (message_count (brain_link w)).
Proof.
  intros Hc Hw Ha.
  rewrite _brain_interaction_body. unfold brain_interaction_body.
  rewrite bind_time_time, bind_emit, run_bind.
  rewrite (send_sensors_get_commands_answered n s _ h packed motor_data); auto.
  rewrite bind_time_time, bind_modify, bind_get.
  destruct (Nat.ltb _ _); eexists; (split; [reflexivity|]); cbn; auto.
Qed.

Lemma brain_or_autonomous_answered
    (env : CycleEnv) (s : SensorReading) (w : World) (h : ws_handle)
    (packed : bytes) (motor_data : list (string * pyval)) :
  brain_connected (life w) = true ->
  connected (brain_link w) = true ->
  websocket (brain_link w) = Some h ->
  answers_with packb unpackb (net env) s packed motor_data ->
  let o := brain_or_autonomous clock packb unpackb env s w in
  exists rest,
    trace_of o =
      ([EvExchange s; EvSend packed; EvRecv;
        EvExecuteMotorCommands (decoded_command motor_data)] ++ rest)%list /\
    no_decide (trace_of o) /\
    brain_connected (life (world_of o)) = true /\
    connected (brain_link (world_of o)) = true /\
    websocket (brain_link (world_of o)) = Some h /\
    message_count (brain_link (world_of o)) = S (message_count (brain_link w)) /\
    (forall b, execute_motor_commands (hw env) (decoded_command motor_data) = Ok b ->
               isolation_start_time (life (world_of o)) = None).
Proof.
  intros Hbc Hc Hw Ha o. subst o.
  destruct (_brain_interaction_answered (net env) s w h packed motor_data Hc Hw Ha)
    as (w1 & E1 & A1 & B1 & C1 & D1).
  unfold brain_or_autonomous. rewrite bind_get, Hbc, run_bind, E1.
  unfold hw_execute. rewrite run_bind, bind_emit, run_bind.
  destruct (execute_motor_commands (hw env) (decoded_command motor_data))
    as [b|e] eqn:Hx; unfold lift at 1.
  - unfold_monad. cbn. eexists. split; [reflexivity|].
    split.
    { intros x Hy sx. simpl in Hy.
      repeat (destruct Hy as [<- | Hy]; [intros Q; discriminate Q|]). destruct Hy. }
    repeat split; auto. congruence.
  - unfold_monad. cbn. eexists. split; [reflexivity|].
    split.
    { intros x Hy sx. simpl in Hy.
      repeat (destruct Hy as [<- | Hy]; [intros Q; discriminate Q|]). destruct Hy. }
    repeat split; auto; try congruence.
Qed.

Lemma status_and_timing_no_decide (hd : Hardware) (loop_start : Q) :
  Respects same_session no_decide
    (_periodic_status_report clock hd ;; _maintain_loop_timing clock loop_start).
Proof.
  unfold _periodic_status_report, _log_status, _detailed_status_report,
    _maintain_loop_timing, sleep.
  respects no_decide_side.
Qed.

End AnsweredExchange.

Lemma world_of_outcome {A} (r : result A) (w : World) (t : list event) :
  world_of (r, w, t) = w.
Proof. reflexivity. Qed.

Lemma trace_of_outcome {A} (r : result A) (w : World) (t : list event) :
  trace_of (r, w, t) = t.
Proof. reflexivity. Qed.

#[export] Instance link_no_decide_frame : Frame same_link no_decide.
Proof.
  split.
  - apply (frame_refl (R := same_link) (T := offline)).
  - apply (frame_trans (R := same_link) (T := offline)).
  - apply (frame_nil (R := same_session) (T := no_decide)).
  - apply (frame_app (R := same_session) (T := no_decide)).
Qed.

Ltac link_no_decide_side :=
  first
    [ solve [ unfold same_link; cbn; repeat split ]
    | solve [ intros ? [<- | []] ? Q; discriminate Q ] ].

Lemma bind_then_frame_trace {R T} `{!Frame R T} {A B}
    (m : M A) (k : A -> M B) (w : World) :
  (forall a, Respects R T (k a)) ->
  R (world_of (m w)) (world_of (bind m k w)) /\
  exists rest, trace_of (bind m k w) = (trace_of (m w) ++ rest)%list /\ T rest.
Proof.
  intros Hk. rewrite run_bind.
  destruct (m w) as [[[a|e] w1] t1]; unfold world_of, trace_of; cbn [fst snd].
  - destruct (Hk a w1) as [HR HT]. split; [exact HR|]. eexists; split; eauto.
  - split; [apply frame_refl|]. exists []. split; [now rewrite app_nil_r|].
    apply frame_nil.
Qed.

(** X14. In a connected iteration with a safe reading, when the service
    answers with a [MOTOR_COMMANDS] reply, the command handed to the motors
    is the reply's, field by field and unchecked (a missing field at its
    default); the fallback policy is not asked; the loop stays connected and
    the link counts one more success; and if the hardware takes the command,
    the isolation start time is cleared. *)
Theorem answered_exchange_drives_motors
    (clock : nat -> Q) (packb : pyval -> result bytes)
    (unpackb : bytes -> result pyval) (env : CycleEnv) (w : World)
    (h : ws_handle) (s : SensorReading) (packed : bytes)
    (motor_data : list (string * pyval)) :
  brain_connected (life w) = true ->
  connected (brain_link w) = true ->
  websocket (brain_link w) = Some h ->
  read_sensors (hw env) = Ok s ->
  immediate_danger s = false ->
  answers_with packb unpackb (net env) s packed motor_data ->
  let o := cycle clock packb unpackb env w in
  (exists rest,
     trace_of o =
     ([EvReadSensors; EvImmediateDanger false; EvExchange s; EvSend packed;
       EvRecv; EvExecuteMotorCommands (decoded_command motor_data)] ++ rest)%list) /\
  no_decide (trace_of o) /\
  brain_connected (life (world_of o)) = true /\
  connected (brain_link (world_of o)) = true /\
  message_count (brain_link (world_of o)) = S (message_count (brain_link w)) /\
  (forall b, execute_motor_commands (hw env) (decoded_command motor_data) = Ok b ->
             isolation_start_time (life (world_of o)) = None).
Proof.
  intros Hbc Hc Hw Hr Hs Ha o. subst o.
  destruct (brain_or_autonomous_answered clock packb unpackb env s (cycle_start w)
              h packed motor_data Hbc Hc Hw Ha)
    as (rest & P1 & P2 & P3 & P4 & P5 & P6 & P7).
  destruct (bind_then_frame_trace (R := same_link) (T := no_decide)
              (brain_or_autonomous clock packb unpackb env s)
              (fun _ => _periodic_status_report clock (hw env) ;;
                        _maintain_loop_timing clock (clock (clock_reads w)))%monad
              (cycle_start w))
    as ((A2 & B2 & C2 & D2) & (rest' & Ht & Hn)).
  { intros _. unfold _periodic_status_report, _log_status,
      _detailed_status_report, _maintain_loop_timing, sleep.
    respects link_no_decide_side. }
  rewrite cycle_outcome.
  rewrite (cycle_body_safe clock packb unpackb env _ _ s Hr Hs).
  set (X := (brain_or_autonomous clock packb unpackb env s ;;
             _periodic_status_report clock (hw env) ;;
             _maintain_loop_timing clock (clock (clock_reads w)))%monad
              (cycle_start w)) in *.
  set (Y := brain_or_autonomous clock packb unpackb env s (cycle_start w)) in *.
  assert (N : no_decide (EvReadSensors :: EvImmediateDanger false :: trace_of X)).
  { rewrite Ht. intros x [<- | [<- | Hx]] sx; try (intros Q; discriminate Q).
    apply in_app_or in Hx. destruct Hx as [Hx | Hx]; [now apply P2 | now apply Hn]. }
  assert (N' : no_decide ((EvReadSensors :: EvImmediateDanger false :: trace_of X) ++
                          [EvEmergencyStop; EvSleep (1 # 2)])).
  { intros x Hx sx. apply in_app_or in Hx. destruct Hx as [Hx | Hx];
      [now apply N|].
    simpl in Hx. destruct Hx as [<- | [<- | []]]; intros Q; discriminate Q. }
  destruct (result_of X) as [[]|e]; cbv beta iota;
    rewrite !world_of_outcome, !trace_of_outcome;
    cbn [life brain_link with_life brain_connected isolation_start_time
           set_communication_errors].
  - split; [exists (rest ++ rest')%list; rewrite Ht, P1; cbn;
            rewrite <- ?app_assoc; reflexivity|].
    split; [exact N|].
    rewrite A2, B2, D2. repeat split; auto.
  - split; [exists ((rest ++ rest') ++ [EvEmergencyStop; EvSleep (1 # 2)])%list;
            rewrite Ht, P1; cbn; rewrite <- ?app_assoc; reflexivity|].
    split; [exact N'|].
    rewrite A2, B2, D2. repeat split; auto.
Qed.

Lemma answered_exchange_drives_motors_witness :
  exists rest,
    trace_of (cycle ticking_clock packb_empty
                (unpackb_const (left_only_reply (PInt 1600)))
                (quiet_env (answering_network 7 [])) (connected_world 7)) =
    ([EvReadSensors; EvImmediateDanger false; EvExchange safe_reading; EvSend [];
      EvRecv;
      EvExecuteMotorCommands
        (decoded_command [("motor_left_pwm", PInt 1600)])] ++ rest)%list.
Proof.
  refine (proj1 (answered_exchange_drives_motors ticking_clock packb_empty
                   (unpackb_const (left_only_reply (PInt 1600)))
                   (quiet_env (answering_network 7 [])) (connected_world 7)
                   7 safe_reading [] [("motor_left_pwm", PInt 1600)]
                   eq_refl eq_refl eq_refl eq_refl eq_refl _)).
  split; [reflexivity|]. split; [reflexivity|].
  exists [], [ ("type", PStr "MOTOR_COMMANDS");
               ("data", PDict [ ("motor_left_pwm", PInt 1600) ]) ].
  repeat split.
Defined.

(** *** A connected iteration without a command *)

Section LostExchange.

Variable clock : nat -> Q.
Variable packb : pyval -> result bytes.
Variable unpackb : bytes -> result pyval.

Lemma _handle_brain_disconnect_records (w : World) (h : ws_handle) :
  brain_connected (life w) = true ->
  websocket (brain_link w) = Some h ->
  exists w1,
    _handle_brain_disconnect clock w = (Ok tt, w1, [EvClose h]) /\
    brain_connected (life w1) = false /\
    connected (brain_link w1) = false /\
    loop_count (life w1) = loop_count (life w) /\
    isolation_start_time (life w1) =
      Some (match isolation_start_time (life w) with
            | Some t0 => t0
            | None => clock (clock_reads w)
            end).
Proof.
  intros Hbc Hw. unfold _handle_brain_disconnect. unfold_monad.
  rewrite Hbc. cbn. rewrite Hw. cbn.
  destruct (isolation_start_time (life w)) eqn:Hi; cbn; eexists;
    (split; [reflexivity|]); cbn; rewrite ?Hi; auto.
Qed.

Lemma brain_or_autonomous_lost
    (env : CycleEnv) (s : SensorReading) (w : World) (h : ws_handle) :
  brain_connected (life w) = true ->
  websocket (brain_link w) = Some h ->
  result_of (_brain_interaction clock packb unpackb (net env) s w) = Ok None ->
  let o := brain_or_autonomous clock packb unpackb env s w in
  exists k rest,
    clock_reads w <= k /\
    trace_of o =
      (trace_of (_brain_interaction clock packb unpackb (net env) s w) ++
       [EvClose h; EvDecideAction s;
        EvExecuteMotorCommands (fallback_command s)] ++ rest)%list /\
    brain_connected (life (world_of o)) = false /\
    connected (brain_link (world_of o)) = false /\
    isolation_start_time (life (world_of o)) =
      Some (match isolation_start_time (life w) with
            | Some t0 => t0
            | None => clock k
            end).
Proof.
  intros Hbc Hw Hn o. subst o.
  destruct (_brain_interaction_link clock packb unpackb (net env) s w)
    as (mc & w1 & t1 & E1 & L1 & L2 & _).
  destruct (_brain_interaction_Quiet clock packb unpackb (net env) s w)
    as [(_ & Q2 & Q3) _].
  rewrite E1 in Hn, Q2, Q3 |- *. unfold result_of in Hn. cbn [fst] in Hn.
  injection Hn as ->. rewrite world_of_outcome in Q2, Q3. rewrite trace_of_outcome.
  destruct (_handle_brain_disconnect_records w1 h) as (w2 & E2 & B1 & B2 & _ & B4);
    [congruence | congruence |].
  destruct (decide_action_run clock s w2) as (w3 & E3 & (C1 & C2 & _ & C4)).
  unfold brain_or_autonomous.
  rewrite bind_get, Hbc, run_bind, E1, run_bind, E2, bind_emit, run_bind, E3.
  unfold hw_execute. rewrite bind_emit.
  exists (clock_reads w1).
  destruct (execute_motor_commands (hw env) (fallback_command s)) as [b|e];
    unfold_monad; cbn; eexists; (split; [exact Q3|]);
    (split; [rewrite <- ?app_assoc; cbn; reflexivity|]);
    rewrite C1, C2, C4, B1, B2, B4, Q2; repeat split; reflexivity.
Qed.

End LostExchange.

(** X15. In a connected iteration with a safe reading, whenever the brain
    interaction yields no command, for whatever reason (timeout, error
    reply, closed session, malformed reply), the loop closes the session,
    ends the iteration isolated with the link's connected flag cleared,
    keeps the isolation start time it had or else records a reading of the
    clock, and hands the motors the command of the fallback policy. *)
Theorem lost_exchange_isolates
    (clock : nat -> Q) (packb : pyval -> result bytes)
    (unpackb : bytes -> result pyval) (env : CycleEnv) (w : World)
    (h : ws_handle) (s : SensorReading) :
  brain_connected (life w) = true ->
  websocket (brain_link w) = Some h ->
  read_sensors (hw env) = Ok s ->
  immediate_danger s = false ->
  result_of (_brain_interaction clock packb unpackb (net env) s (cycle_start w)) =
    Ok None ->
  let o := cycle clock packb unpackb env w in
  brain_connected (life (world_of o)) = false /\
  connected (brain_link (world_of o)) = false /\
  (exists k, clock_reads w < k /\
     isolation_start_time (life (world_of o)) =
       Some (match isolation_start_time (life w) with
             | Some t0 => t0
             | None => clock k
             end)) /\
  (exists rest,
     trace_of o =
     ([EvReadSensors; EvImmediateDanger false] ++
      trace_of (_brain_interaction clock packb unpackb (net env) s (cycle_start w)) ++
      [EvClose h; EvDecideAction s; EvExecuteMotorCommands (fallback_command s)] ++
      rest)%list).
Proof.
  intros Hbc Hw Hr Hs Hn o. subst o.
  destruct (brain_or_autonomous_lost clock packb unpackb env s (cycle_start w) h
              Hbc Hw Hn) as (k & rest & Hk & P1 & P2 & P3 & P4).
  destruct (bind_then_frame_trace (R := same_link) (T := offline)
              (brain_or_autonomous clock packb unpackb env s)
              (fun _ => _periodic_status_report clock (hw env) ;;
                        _maintain_loop_timing clock (clock (clock_reads w)))%monad
              (cycle_start w))
    as ((A2 & B2 & C2 & D2) & (rest' & Ht & _)).
  { intros _. apply status_and_timing_offline. }
  rewrite cycle_outcome.
  rewrite (cycle_body_safe clock packb unpackb env _ _ s Hr Hs).
  set (X := (brain_or_autonomous clock packb unpackb env s ;;
             _periodic_status_report clock (hw env) ;;
             _maintain_loop_timing clock (clock (clock_reads w)))%monad
              (cycle_start w)) in *.
  destruct (result_of X) as [[]|e]; cbv beta iota;
    rewrite !world_of_outcome, !trace_of_outcome;
    cbn [life brain_link with_life brain_connected isolation_start_time
           set_communication_errors];
    rewrite A2, B2, D2, Ht, P1;
    (split; [exact P2|]); (split; [exact P3|]);
    (split; [exists k; split; [cbn in Hk; lia | exact P4]|]);
    eexists; cbn; rewrite <- ?app_assoc; cbn; reflexivity.
Qed.

Lemma lost_exchange_isolates_witness :
  connected
    (brain_link (world_of (cycle ticking_clock packb_empty (unpackb_const PNone)
                             (quiet_env (closed_network 7)) (connected_world 7)))) =
  false.
Proof.
  exact (proj1 (proj2 (lost_exchange_isolates ticking_clock packb_empty
                         (unpackb_const PNone) (quiet_env (closed_network 7))
                         (connected_world 7) 7 safe_reading
                         eq_refl eq_refl eq_refl eq_refl eq_refl))).
Defined.

(** * Statistics ([get_stats], [get_performance_stats]) *)

(** The dict returned by [BrainConnection.get_stats] ([server_url] is
    constant); a [last_contact_age] of [None] is the source's
    [float('inf')]. *)
Record ConnectionStats := {
  stats_connected : bool;
  stats_connection_attempts : nat;
  stats_message_count : nat;
  stats_last_contact_age : option Q
}.



Section Statistics.

Variable clock : nat -> Q.

Definition get_stats : M ConnectionStats :=
  w <- get ;;
  let l := brain_link w in
  last_contact_age <-
    (if Qltb 0 (last_successful_contact l)
     then now <- time_time clock ;; ret (Some (now - last_successful_contact l)%Q)
     else ret None) ;;
  ret {| stats_connected := connected l;
         stats_connection_attempts := connection_attempts l;
         stats_message_count := message_count l;
         stats_last_contact_age := last_contact_age |}.


End Statistics.


(** X16. [get_stats] changes nothing but the number of clock readings.
    After a [connect] that opened the connection it reports the link as
    connected, no failed attempt, and a last-contact age that is finite and
    not negative; on a link that was never contacted and whose [connect]
    failed, it reports an infinite age and the failures so far. *)
Theorem get_stats_after_connect
    (clock : nat -> Q)
    (clock_monotone : forall i j, i <= j -> (clock i <= clock j)%Q)
    (clock_positive : forall i, (0 < clock i)%Q)
    (n : Network) (w : World) :
  let w1 := world_of (connect clock n w) in
  brain_link (world_of (get_stats clock w1)) = brain_link w1 /\
  life (world_of (get_stats clock w1)) = life w1 /\
  (forall h, old_socket_closes n w -> ws_connect n = Ok h ->
     exists age,
       result_of (get_stats clock w1) =
         Ok {| stats_connected := true; stats_connection_attempts := 0;
               stats_message_count := message_count (brain_link w);
               stats_last_contact_age := Some age |} /\
       (0 <= age)%Q) /\
  (forall e, ws_connect n = Raise e ->
     last_successful_contact (brain_link w) = 0%Q ->
     result_of (get_stats clock w1) =
       Ok {| stats_connected := connected (brain_link w);
             stats_connection_attempts := S (connection_attempts (brain_link w));
             stats_message_count := message_count (brain_link w);
             stats_last_contact_age := None |}).
Proof.
  intros w1.
  assert (F : brain_link (world_of (get_stats clock w1)) = brain_link w1 /\
              life (world_of (get_stats clock w1)) = life w1).
  { unfold get_stats. unfold_monad.
    destruct (Qltb 0 (last_successful_contact (brain_link w1))); cbn; now split. }
  destruct F as [F1 F2]. split; [exact F1|]. split; [exact F2|]. split.
  - intros h Hc Hn.
    assert (E : w1 = connected_to clock h w).
    { subst w1. unfold connect, connected_to. unfold_monad.
      destruct Hc as [Hc | Hc]; rewrite ?Hc.
      - rewrite Hn. reflexivity.
      - destruct (websocket (brain_link w)); cbn; rewrite Hn; reflexivity. }
    rewrite E. unfold get_stats, connected_to. unfold_monad. cbn.
    assert (P : Qltb 0 (clock (clock_reads w)) = true)
      by (apply Qltb_lt, clock_positive).
    rewrite P. cbn. eexists. split; [reflexivity|].
    unfold Qminus. rewrite <- Qle_minus_iff. apply clock_monotone. lia.
  - intros e Hn Hl.
    destruct (connect_failure clock n w) as (_ & A & B & _ & C & _);
      [left; eauto|].
    fold w1 in A, B, C.
    unfold get_stats. unfold_monad. rewrite C, Hl.
    replace (Qltb 0 0) with false by reflexivity. cbn.
    rewrite A, B.
    assert (D : message_count (brain_link w1) = message_count (brain_link w)).
    { subst w1. unfold connect. unfold_monad. rewrite Hn.
      destruct (websocket (brain_link w)); cbn;
        [destruct (ws_close n) as [[]|e']; cbn; [destruct e | destruct e'] |
         destruct e]; reflexivity. }
    now rewrite D.
Qed.

Lemma get_stats_after_connect_witness :
  result_of (get_stats ticking_clock
               (world_of (connect ticking_clock refusing_network World_init))) =
  Ok {| stats_connected := false; stats_connection_attempts := 1;
        stats_message_count := 0; stats_last_contact_age := None |}.
Proof.
  exact (proj2 (proj2 (proj2 (get_stats_after_connect ticking_clock
                                ticking_clock_monotone ticking_clock_positive
                                refusing_network World_init)))
           ConnectionRefusedError eq_refl eq_refl).
Defined.



(** * The backends ([picar_x_real.py]) *)

(** What [PiCarXReal] answers, as it stands: reading the sensors raises
    [RuntimeError] before [initialize] and [NotImplementedError] after;
    executing a command returns [False] before [initialize] and raises
    after; the emergency stop reports success. *)
Definition picar_x_real (is_initialized : bool) : Hardware :=
  {| read_sensors :=
       if is_initialized then Raise NotImplementedError else Raise RuntimeError;
     execute_motor_commands :=
       fun _ => if is_initialized then Raise NotImplementedError else Ok false;
     emergency_stop := true;
     get_hardware_info := Ok tt |}.

Lemma picar_x_real_cannot_read (is_initialized : bool) :
  exists e, read_sensors (picar_x_real is_initialized) = Raise e.
Proof. destruct is_initialized; eexists; reflexivity. Qed.

(** The events of an iteration whose sensor reading fails. *)
Definition blind_cycle_trace : list event :=
  [EvReadSensors; EvEmergencyStop; EvSleep (1 # 2)].

(** X18. On a backend whose sensors cannot be read, as the real backend is
    for now, every iteration is a fault: the loop stops the motors, counts
    one communication error and sleeps half a second, and does nothing else;
    it never asks the decision service or the fallback policy and never
    moves the motors, and its connection state and the link stay as they
    were. *)
Theorem blind_loop_only_stops
    (clock : nat -> Q) (packb : pyval -> result bytes)
    (unpackb : bytes -> result pyval) (envs : list CycleEnv) (w : World) :
  Forall (fun env => exists e, read_sensors (hw env) = Raise e) envs ->
  let o := cycles clock packb unpackb envs w in
  result_of o = Ok tt /\
  trace_of o = flat_map (fun _ => blind_cycle_trace) envs /\
  communication_errors (life (world_of o)) =
    communication_errors (life w) + List.length envs /\
  brain_connected (life (world_of o)) = brain_connected (life w) /\
  isolation_start_time (life (world_of o)) = isolation_start_time (life w) /\
  brain_link (world_of o) = brain_link w.
Proof.
  intros H. revert w. induction H as [|env envs [e He] _ IH]; intros w.
  - cbn. repeat split. lia.
  - cbv zeta in *. cbn [cycles flat_map List.length].
    assert (E : cycle clock packb unpackb env w =
                (Ok tt,
                 with_life (fun s => set_communication_errors
                                       (S (communication_errors s)) s)
                   (cycle_start w),
                 blind_cycle_trace)).
    { rewrite cycle_outcome.
      now rewrite (cycle_body_read_fault clock packb unpackb env _ _ e He). }
    rewrite run_bind, E.
    rewrite world_of_outcome, trace_of_outcome.
    destruct (IH (with_life (fun s => set_communication_errors
                                         (S (communication_errors s)) s)
                    (cycle_start w))) as (A & B & C & D & F & G).
    unfold result_of at 1. cbn [fst].
    split; [exact A|]. split; [now rewrite B|].
    split; [rewrite C; cbn; lia|]. split; [exact D|]. split; [exact F | exact G].
Qed.

Lemma blind_loop_only_stops_witness :
  communication_errors
    (life (world_of (cycles ticking_clock packb_empty (unpackb_const PNone)
                       [ {| hw := picar_x_real true; net := refusing_network |};
                         {| hw := picar_x_real true; net := refusing_network |} ]
                       World_init))) = 2.
Proof.
  refine (proj1 (proj2 (proj2 (blind_loop_only_stops ticking_clock packb_empty
                                 (unpackb_const PNone)
                                 [ {| hw := picar_x_real true; net := refusing_network |};
                                   {| hw := picar_x_real true; net := refusing_network |} ]
                                 World_init _)))).
  repeat constructor; apply (picar_x_real_cannot_read true).
Defined.

(** * The fallback commands *)

(** [config.MOTOR_PWM_RANGE]. *)
Definition MOTOR_PWM_RANGE : Z * Z := (1000, 2000)%Z.

(** X19. Whatever the reading, the command of the fallback policy keeps both
    motors within the PWM range of the configuration and within 100 of
    neutral, leaves the camera servo at neutral and the buzzer off; and it
    is the stop command (both motors at neutral) only under the low-battery
    rule. *)
Theorem fallback_command_is_gentle
    (clock : nat -> Q) (sensors : SensorReading) (w : World) :
  exists l r : Z,
    result_of (decide_action clock sensors w) =
      Ok {| motor_left_pwm := PInt l; motor_right_pwm := PInt r;
            servo_camera_pwm := PInt Config.SERVO_NEUTRAL;
            buzzer_active := PBool false |} /\
    (fst MOTOR_PWM_RANGE <= l <= snd MOTOR_PWM_RANGE)%Z /\
    (fst MOTOR_PWM_RANGE <= r <= snd MOTOR_PWM_RANGE)%Z /\
    (Z.abs (l - Config.MOTOR_NEUTRAL) <= 100)%Z /\
    (Z.abs (r - Config.MOTOR_NEUTRAL) <= 100)%Z /\
    ((l = Config.MOTOR_NEUTRAL /\ r = Config.MOTOR_NEUTRAL) <->
     ((ultrasonic_distance sensors <? 30)%float = false /\
      (battery_voltage sensors <? 11.5)%float = true)).
Proof.
  destruct (decide_action_run clock sensors w) as (w1 & E & _).
  rewrite E. unfold result_of, fallback_command; cbn [fst].
  destruct (ultrasonic_distance sensors <? 30)%float;
    [|destruct (battery_voltage sensors <? 11.5)%float];
    eexists _, _; (split; [reflexivity|]);
    unfold MOTOR_PWM_RANGE, Config.MOTOR_NEUTRAL; cbn [fst snd];
    (split; [lia|]); (split; [lia|]); (split; [lia|]); (split; [lia|]);
    split; intros [A B];
    first [ lia | discriminate | split; reflexivity ].
Qed.

(** *** The fallback's own isolation mark *)

Definition keeps_mark (w w' : World) : Prop :=
  forall t, autonomous_isolation_start_time w = Some t ->
            autonomous_isolation_start_time w' = Some t.

#[export] Instance mark_frame : Frame keeps_mark any_trace.
Proof.
  split; unfold keeps_mark, any_trace; auto.
Qed.

Ltac mark_side :=
  first
    [ exact I
    | solve [ unfold keeps_mark; cbn; auto ] ].

Section FallbackMark.

Variable clock : nat -> Q.
Variable packb : pyval -> result bytes.
Variable unpackb : bytes -> result pyval.

Lemma decide_action_mark (s : SensorReading) :
  Respects keeps_mark any_trace (decide_action clock s).
Proof.
  intros w. split; [|exact I].
  unfold decide_action, keeps_mark. unfold_monad.
  destruct (autonomous_isolation_start_time w) eqn:E; cbn;
    destruct (ultrasonic_distance s <? 30)%float;
    try destruct (battery_voltage s <? 11.5)%float; cbn;
    intros t Ht; congruence.
Qed.

Lemma cycle_mark (env : CycleEnv) :
  Respects keeps_mark any_trace (cycle clock packb unpackb env).
Proof.
  pose proof decide_action_mark as Hd.
  unfold cycle, cycle_handler, cycle_body, brain_or_autonomous, sleep.
  respects mark_side.
Qed.

Lemma cycles_mark (envs : list CycleEnv) :
  Respects keeps_mark any_trace (cycles clock packb unpackb envs).
Proof.
  induction envs as [|env envs IH]; cbn [cycles].
  - respects mark_side.
  - pose proof (cycle_mark env) as Hc. respects mark_side.
Qed.

End FallbackMark.

(** X20. The fallback policy keeps an isolation mark of its own: its first
    decision sets it to the reading of the clock, and nothing ever clears or
    changes it afterwards, however many iterations run and whether or not
    the loop reconnects in between; in a later isolation episode the mark
    still dates from the first. *)
Theorem fallback_mark_is_never_cleared
    (clock : nat -> Q) (packb : pyval -> result bytes)
    (unpackb : bytes -> result pyval)
    (sensors : SensorReading) (envs : list CycleEnv) (w : World) :
  (autonomous_isolation_start_time w = None ->
   autonomous_isolation_start_time (world_of (decide_action clock sensors w)) =
     Some (clock (clock_reads w))) /\
  (forall t, autonomous_isolation_start_time w = Some t ->
     autonomous_isolation_start_time (world_of (decide_action clock sensors w)) =
       Some t /\
     autonomous_isolation_start_time
       (world_of (cycles clock packb unpackb envs w)) = Some t).
Proof.
  split.
  - intros Hn. unfold decide_action. unfold_monad. rewrite Hn. cbn.
    destruct (ultrasonic_distance sensors <? 30)%float;
      try destruct (battery_voltage sensors <? 11.5)%float; reflexivity.
  - intros t Ht. split.
    + now apply (decide_action_mark clock sensors w).
    + now apply (cycles_mark clock packb unpackb envs w).
Qed.

(** *** Motors that fault *)

(** The hardware refuses every motor command with an exception. *)
Definition motors_fault (env : CycleEnv) : Prop :=
  forall c, exists e, execute_motor_commands (hw env) c = Raise e.

Section FaultingMotors.

Variable clock : nat -> Q.
Variable packb : pyval -> result bytes.
Variable unpackb : bytes -> result pyval.

Lemma brain_or_autonomous_motors_fault (env : CycleEnv) (s : SensorReading) (w : World) :
  brain_connected (life w) = false ->
  motors_fault env ->
  RespectsAt same_link offline (brain_or_autonomous clock packb unpackb env s) w.
Proof.
  intros Hbc Hm. unfold brain_or_autonomous. apply at_get. rewrite Hbc.
  apply at_bind; [respects offline_side|]. intros [] w1 H1.
  apply at_bind; [unfold decide_action; respects offline_side|]. intros c w2 H2.
  destruct (Hm c) as [e He].
  assert (E : hw_execute (hw env) c w2 =
              (Raise e, w2, [EvExecuteMotorCommands c])).
  { unfold hw_execute. unfold_monad. now rewrite He. }
  unfold RespectsAt. rewrite run_bind, E.
  rewrite world_of_outcome, trace_of_outcome.
  split; [apply frame_refl|]. intros x [<- | []]. reflexivity.
Qed.

Lemma cycle_motors_fault (env : CycleEnv) (w : World) :
  brain_connected (life w) = false ->
  motors_fault env ->
  RespectsAt same_link offline
    (try_except (cycle_body clock packb unpackb env (clock (clock_reads w)))
       cycle_handler)
    (cycle_start w).
Proof.
  intros Hbc Hm. apply at_try_except.
  2:{ intros e. unfold cycle_handler, sleep. respects offline_side. }
  unfold cycle_body.
  apply at_bind; [respects offline_side|]. intros [] w1 H1.
  apply at_bind; [respects offline_side|]. intros s w2 H2.
  apply at_bind; [respects offline_side|]. intros [] w3 H3.
  assert (C : brain_connected (life w3) = false).
  { destruct H1 as (A1 & _), H2 as (A2 & _), H3 as (A3 & _). cbn in *. congruence. }
  destruct (immediate_danger s).
  - apply at_of_Respects. unfold sleep. respects offline_side.
  - apply at_bind_post.
    + now apply brain_or_autonomous_motors_fault.
    + intros []. apply status_and_timing_offline.
Qed.

End FaultingMotors.

(** X21. An isolated loop whose motors fault on every command never tries to
    reconnect: the fault ends each iteration before the reconnection step,
    also on the iterations where it is due, so that over any number of
    iterations nothing goes to the network and the loop stays isolated with
    its link as it was. *)
Theorem faulting_motors_prevent_reconnection
    (clock : nat -> Q) (packb : pyval -> result bytes)
    (unpackb : bytes -> result pyval) (envs : list CycleEnv) (w : World) :
  brain_connected (life w) = false ->
  Forall motors_fault envs ->
  let o := cycles clock packb unpackb envs w in
  brain_connected (life (world_of o)) = false /\
  brain_link (world_of o) = brain_link w /\
  isolation_start_time (life (world_of o)) = isolation_start_time (life w) /\
  (forall e, In e (trace_of o) -> network_event e = false).
Proof.
  intros Hbc H. revert w Hbc. induction H as [|env envs Hm _ IH]; intros w Hbc.
  - cbn. split; [exact Hbc|]. split; [reflexivity|]. split; [reflexivity|].
    intros e [].
  - cbv zeta in *. cbn [cycles]. rewrite run_bind.
    destruct (cycle_motors_fault clock packb unpackb env w Hbc Hm)
      as [(A & B & _ & D) Ht].
    rewrite <- cycle_unfold in A, B, D, Ht.
    destruct (cycle_counts clock packb unpackb env w) as (Hr & _).
    destruct (cycle clock packb unpackb env w) as [[r w1] t1].
    unfold result_of, world_of, trace_of in Hr, A, B, D, Ht.
    cbn [fst snd] in Hr, A, B, D, Ht. subst r.
    destruct (IH w1) as (A' & B' & D' & T'); [rewrite A; exact Hbc|].
    rewrite world_of_outcome, trace_of_outcome.
    split; [exact A'|]. split; [rewrite B'; exact B|].
    split; [rewrite D'; exact D|].
    intros e He. apply in_app_or in He. destruct He; auto.
Qed.

Lemma faulting_motors_prevent_reconnection_witness :
  brain_link
    (world_of (cycles ticking_clock packb_empty (unpackb_const PNone)
                 [ {| hw := {| read_sensors := Ok safe_reading;
                               execute_motor_commands :=
                                 fun _ => Raise NotImplementedError;
                               emergency_stop := true;
                               get_hardware_info := Ok tt |};
                      net := answering_network 7 [] |} ]
                 (with_life (set_loop_count 299) World_init))) =
  brain_link World_init.
Proof.
  refine (proj1 (proj2 (faulting_motors_prevent_reconnection ticking_clock
                          packb_empty (unpackb_const PNone) _
                          (with_life (set_loop_count 299) World_init)
                          eq_refl _))).
  repeat constructor. intros c. exists NotImplementedError. reflexivity.
Defined.
